(** * PTAContestGenerator: a shallow embedding of [pta_tool_class.py]

    The generator fetches a contest from the PTA web API and builds a
    contest document (an ElementTree) that it finally writes to a file.

    Modelling conventions.
    - A Python [str] is a Rocq [string] holding its UTF-8 bytes.
    - A JSON object is a record of the keys the program reads; a key that
      is absent is [None], so [d.get(k, dflt)] is [default dflt (k d)].
    - The generator object ([self]) and the outside world (requests sent,
      files written, warnings logged, pauses taken) are threaded
      explicitly; a raised exception keeps the state reached so far.
    - The remote service is a parameter: a function from the requests
      made so far and the current request to what [session.get] yields.
    - [while True] loops take a fuel argument; running out of fuel is the
      outcome [Diverge], distinct from returning and from raising.
    - [logger.info] lines and [print] output are not modelled;
      [logger.warning] and [logger.error] are.
    - Time is counted in microseconds, as [datetime] does; where Python
      goes through a double ([total_seconds], [timestamp], the [.1f] and
      [.2f] formats) the arithmetic here is exact, and each definition
      says where the two agree.
    - [str.upper] and [str.strip] are given on ASCII.

    The methods are in [Section Generator], in the order of the source
    and under their names; the properties follow, one section per
    method or pair of runs; the numbered properties (C1 to C10) carry
    their number in the comment above them, and so do the further
    properties of the last part (X1 and on). *)

From Stdlib Require Import ZArith Ascii String.
From stdpp Require Import gmap strings list fin_maps pretty sorting.

Open Scope Z_scope.

(** ** Python strings *)

Module PyStr.

(** ["\n"] *)
Definition newline : string := String "010"%char "".

(** [str(n)] for an integer. *)
Definition str (n : Z) : string := pretty n.

(** [f"{n:02d}"]: zero-padded to width two. *)
Definition fmt_02d (n : Z) : string :=
  if 0 <=? n then
    (if n <? 10 then "0" +:+ pretty n else pretty n)
  else
    pretty n.

(** [needle in hay] *)
Fixpoint contains (needle hay : string) : bool :=
  String.prefix needle hay ||
  match hay with
  | EmptyString => false
  | String _ rest => contains needle rest
  end.

(** A byte [10xxxxxx] continues a character begun earlier. *)
Definition is_continuation (c : ascii) : bool :=
  let n := N_of_ascii c in (128 <=? n)%N && (n <? 192)%N.

(** [s[:n]]: the first [n] characters. *)
Fixpoint take_chars (n : nat) (s : string) : string :=
  match s with
  | EmptyString => EmptyString
  | String c rest =>
      if is_continuation c then String c (take_chars n rest)
      else match n with
           | O => EmptyString
           | S n' => String c (take_chars n' rest)
           end
  end.

(** [s.replace('\n', ' ')] *)
Fixpoint replace_newline (s : string) : string :=
  match s with
  | EmptyString => EmptyString
  | String c rest =>
      String (if Ascii.eqb c "010" then " "%char else c) (replace_newline rest)
  end.

Definition upper_char (c : ascii) : ascii :=
  let n := N_of_ascii c in
  if (97 <=? n)%N && (n <=? 122)%N then ascii_of_N (n - 32) else c.

(** [s.upper()], on ASCII letters; other bytes are kept. None of the
    keys it is looked up against holds a letter that a non-ASCII
    character upper-cases to. *)
Fixpoint upper (s : string) : string :=
  match s with
  | EmptyString => EmptyString
  | String c rest => String (upper_char c) (upper rest)
  end.

(** ASCII white space, as [str.isspace] sees it. *)
Definition isspace (c : ascii) : bool :=
  let n := N_of_ascii c in
  ((9 <=? n)%N && (n <=? 13)%N) || ((28 <=? n)%N && (n <=? 32)%N).

Fixpoint lstrip (s : string) : string :=
  match s with
  | EmptyString => EmptyString
  | String c rest => if isspace c then lstrip rest else s
  end.

(** [s.strip()] (ASCII white space). *)
Definition strip (s : string) : string :=
  String.rev (lstrip (String.rev (lstrip s))).

(** Truthiness of a string that may be [None]. *)
Definition truthy (o : option string) : bool :=
  match o with
  | Some (String _ _) => true
  | _ => false
  end.

(** [not t or not t.strip()] *)
Definition blank (t : option string) : bool :=
  match t with
  | None => true
  | Some s => negb (truthy (Some s)) || negb (truthy (Some (strip s)))
  end.

(** [n * s] *)
Fixpoint repeat_str (n : nat) (s : string) : string :=
  match n with
  | O => EmptyString
  | S n' => s +:+ repeat_str n' s
  end.

Definition byte (n : Z) : ascii := ascii_of_N (Z.to_N n).

(** [chr(n)]: the one-character string of code point [n], in UTF-8;
    [None] stands for the [ValueError] outside [range(0x110000)]. *)
Definition chr (n : Z) : option string :=
  if n <? 0 then None
  else if n <? 128 then Some (String (byte n) "")
  else if n <? 2048 then
    Some (String (byte (192 + n / 64)) (String (byte (128 + n mod 64)) ""))
  else if n <? 65536 then
    Some (String (byte (224 + n / 4096))
           (String (byte (128 + (n / 64) mod 64))
             (String (byte (128 + n mod 64)) "")))
  else if n <? 1114112 then
    Some (String (byte (240 + n / 262144))
           (String (byte (128 + (n / 4096) mod 64))
             (String (byte (128 + (n / 64) mod 64))
               (String (byte (128 + n mod 64)) ""))))
  else None.

(** [str(x)] for a text that may be [None]. *)
Definition str_opt (o : option string) : string :=
  match o with
  | Some s => s
  | None => "None"
  end.

End PyStr.

(** ** datetime *)

Module Dt.

(** A [datetime]: microseconds since 1970-01-01T00:00:00 on its own
    wall clock, and its UTC offset in microseconds ([None]: naive). *)
Record datetime := { wall : Z; utcoffset : option Z }.

(** ["1970-01-01T00:00:00Z"] once parsed. *)
Definition epoch_utc : datetime := {| wall := 0; utcoffset := Some 0 |}.

(** [a - b] as a [timedelta] in microseconds; [None] stands for the
    [TypeError] raised when one operand is naive and the other aware. *)
Definition sub (a b : datetime) : option Z :=
  match utcoffset a, utcoffset b with
  | Some oa, Some ob => Some ((wall a - oa) - (wall b - ob))
  | None, None => Some (wall a - wall b)
  | _, _ => None
  end.

(** [d.astimezone(timezone.utc)]; a naive [d] is read as local time,
    [local w] being the system's UTC offset at local wall time [w]. *)
Definition astimezone_utc (local : Z -> Z) (d : datetime) : datetime :=
  match utcoffset d with
  | Some o => {| wall := wall d - o; utcoffset := Some 0 |}
  | None => {| wall := wall d - local (wall d); utcoffset := Some 0 |}
  end.

(** [int(delta.total_seconds())]: whole seconds, truncated toward zero.
    Exact arithmetic stands for the double division; the two agree for
    deltas shorter than 2^33 seconds. *)
Definition int_total_seconds (delta : Z) : Z := Z.quot delta 1000000.

(** [d.timestamp()], exactly and in microseconds: the distance of [d]
    from the epoch, a naive [d] being read as local time. *)
Definition timestamp (local : Z -> Z) (d : datetime) : Z :=
  wall (astimezone_utc local d).

Definition round_half_even (num den : Z) : Z :=
  let q := num / den in
  let r := num mod den in
  if 2 * r <? den then q
  else if den <? 2 * r then q + 1
  else if Z.even q then q else q + 1.

Definition zero_pad (width : nat) (s : string) : string :=
  PyStr.repeat_str (width - String.length s) "0" +:+ s.

(** [f"{x:.1f}"] and [f"{x:.2f}"] for [x = us / 10^6]: [digits]
    decimals, ties to even. The rounding is done on the exact quotient
    where Python rounds the nearest double: the texts agree unless the
    quotient is an exact tie or exceeds 2^33 seconds. *)
Definition format_f (digits : nat) (us : Z) : string :=
  let scale := 10 ^ Z.of_nat digits in
  let n := round_half_even (Z.abs us * scale) 1000000 in
  (if us <? 0 then "-" else "") +:+
  pretty (n / scale) +:+ "." +:+ zero_pad digits (pretty (n mod scale)).

End Dt.

(** ** xml.etree.ElementTree *)

Module ET.

(** An [Element]: tag, text, tail and children, in document order. *)
#[warnings="-register-all"] Inductive element :=
| Element (tag : string) (text tail : option string) (children : list element).

Definition tag (e : element) : string :=
  match e with Element t _ _ _ => t end.
Definition text (e : element) : option string :=
  match e with Element _ t _ _ => t end.
Definition tail (e : element) : option string :=
  match e with Element _ _ t _ => t end.
Definition children (e : element) : list element :=
  match e with Element _ _ _ c => c end.

(** [ET.Element(tag)] *)
Definition new (tag : string) : element := Element tag None None [].

(** The element made by [ET.SubElement(parent, tag).text = text]. *)
Definition leaf (tag : string) (text : option string) : element :=
  Element tag text None [].

(** [parent] after [ET.SubElement(parent, ...)] has added [child]. *)
Definition append (parent child : element) : element :=
  match parent with
  | Element t tx tl cs => Element t tx tl (cs ++ [child])
  end.

(** [parent] after its children, all appended in turn. *)
Definition extend (parent : element) (cs : list element) : element :=
  match parent with
  | Element t tx tl cs0 => Element t tx tl (cs0 ++ cs)
  end.

(** [parent] after [f] has been applied to its last child: the effect
    on [parent] of mutating a node that was just appended to it. *)
Definition on_last (f : element -> element) (parent : element) : element :=
  match parent with
  | Element t tx tl cs =>
      match reverse cs with
      | [] => parent
      | c :: before => Element t tx tl (reverse before ++ [f c])
      end
  end.

(** [e.findall("a/b/...")], the path given tag by tag. *)
Fixpoint findall (path : list string) (e : element) : list element :=
  match path with
  | [] => [e]
  | t :: rest =>
      flat_map (findall rest)
        (filter (fun c => tag c = t) (children e))
  end.

(** [e.find("a/b/...")] *)
Definition find (path : list string) (e : element) : option element :=
  head (findall path e).

(** [PTAContestGenerator._indent(elem, level)], returning the element
    it leaves behind. *)
Fixpoint _indent (level : nat) (elem : element) : element :=
  match elem with
  | Element t tx tl cs =>
      let i := PyStr.newline +:+ PyStr.repeat_str level "  " in
      match cs with
      | _ :: _ =>
          let tx1 := if PyStr.blank tx then Some (i +:+ "  ") else tx in
          let tl1 := if PyStr.blank tl then Some i else tl in
          let cs1 := map (_indent (S level)) cs in
          let tl2 := if PyStr.blank tl1 then Some i else tl1 in
          Element t tx1 tl2 cs1
      | [] =>
          if negb (level =? 0)%nat && PyStr.blank tl
          then Element t tx (Some i) cs
          else elem
      end
  end.

End ET.

(** ** The JSON the service returns, by the keys the program reads *)

(** A timestamp field as [datetime.fromisoformat] reads it, a trailing
    ["Z"] replaced by ["+00:00"]. *)
Inductive iso_time :=
| Absent
| Malformed
| Parsed (d : Dt.datetime).

(** The ["problemSet"] object of a problem-set detail. *)
Record problem_set := {
  ps_name : option string;
  ps_id : option string;
  ps_startAt : iso_time;
  ps_endAt : iso_time;
  ps_duration : option Z }.

(** An entry of ["problemSetProblems"]. *)
Record problem := { problem_id : option string }.

(** An entry of ["userGroupMembers"]. *)
Record member := {
  userId : option string;
  studentUserId : option string }.

(** A value of ["studentUserById"]. *)
Record student_user := { su_name : option string }.

(** A value of ["examByUserId"]. *)
Record exam := { studentUser : option student_user }.

(** An entry of ["submissions"]. *)
Record submission := {
  sub_id : option string;
  problemSetProblemId : option string;
  status : option string;
  compiler : option string;
  submitAt : iso_time;
  sub_userId : option string }.

(** What [resp.json()] returns. *)
Record api_json := {
  problemSet : option problem_set;
  problemSetProblems : option (list problem);
  total : option Z;
  examByUserId : option (gmap string exam);
  studentUserById : option (gmap string student_user);
  userGroupMembers : option (list member);
  submissions : option (list submission);
  hasBefore : option bool }.

(** [{}] *)
Definition empty_json : api_json :=
  {| problemSet := None; problemSetProblems := None; total := None;
     examByUserId := None; studentUserById := None;
     userGroupMembers := None; submissions := None; hasBefore := None |}.

(** ** Transport *)

Record request := { url : string; params : list (string * string) }.

(** A response: status, [Content-Type] header ([''] when missing), body
    text, and the body as [resp.json()] parses it ([None]: not JSON). *)
Record response := {
  status_code : Z;
  content_type : string;
  text : string;
  json : option api_json }.

(** What [session.get] yields once its retries are spent: a
    [requests.RequestException], or a response. *)
Inductive transport :=
| RequestException (msg : string)
| Reply (resp : response).

(** ** Exceptions *)

Inductive exn :=
| PTAAuthError (msg : string)
| PTAAPIError (msg : string)
| ValueError (msg : string)
| KeyError (msg : string)
| TypeError (msg : string)
| AttributeError (msg : string).

(** [str(e)] *)
Definition exn_str (e : exn) : string :=
  match e with
  | PTAAuthError m | PTAAPIError m | ValueError m
  | KeyError m | TypeError m | AttributeError m => m
  end.

(** ** The generator object and the world around it *)

(** A value of [label_map]. *)
Record label := { xml_id : string; letter : string }.

Record generator := {
  organization : string;
  region_id : string;
  selected_problem_set_id : option string;
  contest_root : option ET.element;
  label_map : gmap (option string) label;
  exam_info : api_json;
  contest_start_dt : option Dt.datetime;
  _exam_by_user_id : option (gmap string exam);
  _student_user_by_id : option (gmap string student_user) }.

(** [PTAContestGenerator(organization, region_id)] *)
Definition __init__ (organization region_id : string) : generator :=
  {| organization := organization;
     region_id := region_id;
     selected_problem_set_id := None;
     contest_root := None;
     label_map := ∅;
     exam_info := empty_json;
     contest_start_dt := None;
     _exam_by_user_id := None;
     _student_user_by_id := None |}.

Definition set_selected_problem_set_id (v : option string) (g : generator) :=
  {| organization := organization g; region_id := region_id g;
     selected_problem_set_id := v;
     contest_root := contest_root g; label_map := label_map g;
     exam_info := exam_info g; contest_start_dt := contest_start_dt g;
     _exam_by_user_id := _exam_by_user_id g;
     _student_user_by_id := _student_user_by_id g |}.

Definition set_contest_root (v : option ET.element) (g : generator) :=
  {| organization := organization g; region_id := region_id g;
     selected_problem_set_id := selected_problem_set_id g;
     contest_root := v; label_map := label_map g;
     exam_info := exam_info g; contest_start_dt := contest_start_dt g;
     _exam_by_user_id := _exam_by_user_id g;
     _student_user_by_id := _student_user_by_id g |}.

Definition set_label_map (v : gmap (option string) label) (g : generator) :=
  {| organization := organization g; region_id := region_id g;
     selected_problem_set_id := selected_problem_set_id g;
     contest_root := contest_root g; label_map := v;
     exam_info := exam_info g; contest_start_dt := contest_start_dt g;
     _exam_by_user_id := _exam_by_user_id g;
     _student_user_by_id := _student_user_by_id g |}.

Definition set_exam_info (v : api_json) (g : generator) :=
  {| organization := organization g; region_id := region_id g;
     selected_problem_set_id := selected_problem_set_id g;
     contest_root := contest_root g; label_map := label_map g;
     exam_info := v; contest_start_dt := contest_start_dt g;
     _exam_by_user_id := _exam_by_user_id g;
     _student_user_by_id := _student_user_by_id g |}.

Definition set_contest_start_dt (v : option Dt.datetime) (g : generator) :=
  {| organization := organization g; region_id := region_id g;
     selected_problem_set_id := selected_problem_set_id g;
     contest_root := contest_root g; label_map := label_map g;
     exam_info := exam_info g; contest_start_dt := v;
     _exam_by_user_id := _exam_by_user_id g;
     _student_user_by_id := _student_user_by_id g |}.

Definition set_name_maps
    (e : option (gmap string exam)) (s : option (gmap string student_user))
    (g : generator) :=
  {| organization := organization g; region_id := region_id g;
     selected_problem_set_id := selected_problem_set_id g;
     contest_root := contest_root g; label_map := label_map g;
     exam_info := exam_info g; contest_start_dt := contest_start_dt g;
     _exam_by_user_id := e;
     _student_user_by_id := s |}.

(** What a file holds: the text written to it, or the document that
    [ElementTree.write] serialises into it. *)
Inductive file :=
| TextFile (content : string)
| XmlFile (root : ET.element).

Inductive level := WARNING | ERROR.

Record world := {
  requests : list request;
  files : gmap string file;
  log : list (level * string);
  pauses : nat }.

Record state := { self : generator; outside : world }.

(** ** Computations: state, exceptions, fuel *)

Inductive outcome (A : Type) :=
| Return (a : A)
| Raise (e : exn)
| Diverge.
Arguments Return {A} a.
Arguments Raise {A} e.
Arguments Diverge {A}.

Definition M (A : Type) : Type := state -> outcome A * state.

Definition ret {A} (a : A) : M A := fun st => (Return a, st).

Definition bind {A B} (c : M A) (k : A -> M B) : M B :=
  fun st =>
    match c st with
    | (Return a, st') => k a st'
    | (Raise e, st') => (Raise e, st')
    | (Diverge, st') => (Diverge, st')
    end.

Definition raise {A} (e : exn) : M A := fun st => (Raise e, st).

Definition diverge {A} : M A := fun st => (Diverge, st).

Declare Scope py_scope.
Delimit Scope py_scope with py.
Notation "x <- c ;; k" := (bind c (fun x => k))
  (at level 100, c at next level, right associativity) : py_scope.
Notation "c ;; k" := (bind c (fun _ => k))
  (at level 100, right associativity) : py_scope.
Open Scope py_scope.

Definition get_self : M generator := fun st => (Return (self st), st).

Definition update_self (f : generator -> generator) : M unit :=
  fun st => (Return tt, {| self := f (self st); outside := outside st |}).

Definition update_world (f : world -> world) : M unit :=
  fun st => (Return tt, {| self := self st; outside := f (outside st) |}).

(** [try: c except Exception as e: h(e); raise] *)
Definition try_except_reraise {A} (c : M A) (h : exn -> M unit) : M A :=
  fun st =>
    match c st with
    | (Raise e, st') =>
        match h e st' with
        | (Return _, st'') => (Raise e, st'')
        | (Raise e', st'') => (Raise e', st'')
        | (Diverge, st'') => (Diverge, st'')
        end
    | r => r
    end.

(** [logger.warning(msg)], [logger.error(msg)] *)
Definition logger (lv : level) (msg : string) : M unit :=
  update_world (fun w =>
    {| requests := requests w; files := files w;
       log := log w ++ [(lv, msg)]; pauses := pauses w |}).

(** [time.sleep(...)] *)
Definition sleep : M unit :=
  update_world (fun w =>
    {| requests := requests w; files := files w;
       log := log w; pauses := S (pauses w) |}).

(** [with open(path, "w") as f: f.write(content)] and [tree.write(path)] *)
Definition write_file (path : string) (content : file) : M unit :=
  update_world (fun w =>
    {| requests := requests w; files := <[path := content]> (files w);
       log := log w; pauses := pauses w |}).

(** ** Fixed tables *)

(** [self.compiler_map] *)
Definition compiler_map : gmap string string :=
  list_to_map
    [("GCC", "1"); ("CLANG", "1");
     ("GXX", "2"); ("CLANGXX", "2"); ("C++", "2");
     ("JAVA", "3");
     ("PYTHON3", "4"); ("PYPY3", "4")].

(** The items of [self.result_map], as the literal lists them. *)
Definition result_map_items : list (string * string) :=
  [("ACCEPTED", "AC");
   ("WRONG_ANSWER", "WA");
   ("TIME_LIMIT_EXCEEDED", "TLE");
   ("COMPILE_ERROR", "CE");
   ("SEGMENTATION_FAULT", "SF");
   ("FLOAT_POINT_EXCEPTION", "FPE");
   ("MEMORY_LIMIT_EXCEEDED", "MLE");
   ("NON_ZERO_EXIT_CODE", "NZEC");
   ("RUNTIME_ERROR", "RE");
   ("PRESENTATION_ERROR", "PE");
   ("OUTPUT_LIMIT_EXCEEDED", "OLE")].

(** [self.result_map] *)
Definition result_map : gmap string string := list_to_map result_map_items.

(** [self.result_map.get(pta_status, "WA")] *)
Definition result_acronym (pta_status : string) : string :=
  default "WA" (result_map !! pta_status).

(** [judgements_conf] of [_add_static_nodes] *)
Definition judgements_conf : list (string * string * string * string * string) :=
  [("1", "AC", "ACCEPTED", "true", "false");
   ("2", "SF", "SEGMENTATION_FAULT", "false", "true");
   ("3", "WA", "WRONG_ANSWER", "false", "true");
   ("4", "TLE", "TIME_LIMIT_EXCEEDED", "false", "true");
   ("5", "CE", "COMPILE_ERROR", "false", "false");
   ("6", "FPE", "FLOAT_POINT_EXCEPTION", "false", "true");
   ("7", "MLE", "MEMORY_LIMIT_EXCEEDED", "false", "true");
   ("8", "NZEC", "NON_ZERO_EXIT_CODE", "false", "true");
   ("9", "RE", "RUNTIME_ERROR", "false", "true");
   ("10", "PE", "PRESENTATION_ERROR", "false", "true");
   ("11", "OLE", "OUTPUT_LIMIT_EXCEEDED", "false", "true")].

(** [languages] of [_add_static_nodes] *)
Definition languages : list (string * string) :=
  [("1", "c"); ("2", "c++"); ("3", "java"); ("4", "python")].

(** ** Pure parts of the methods *)

(** [problem_set.get("duration", 0)] and the fallback of
    [_process_exam_info]: a duration that is not positive is replaced by
    [int((end_dt - start_dt).total_seconds())], and by 18000 when the
    subtraction raises. *)
Definition exam_duration_sec
    (problem_set : problem_set) (start_dt end_dt : Dt.datetime) : Z :=
  let duration_sec := default 0 (ps_duration problem_set) in
  if duration_sec <=? 0 then
    match Dt.sub end_dt start_dt with
    | Some delta => Dt.int_total_seconds delta
    | None => 18000
    end
  else duration_sec.

(** [m, s = divmod(duration_sec, 60); h, m = divmod(m, 60);
    f"{h}:{m:02d}:{s:02d}"] *)
Definition duration_str (duration_sec : Z) : string :=
  let m := duration_sec / 60 in
  let s := duration_sec mod 60 in
  let h := m / 60 in
  let m := m mod 60 in
  PyStr.str h +:+ ":" +:+ PyStr.fmt_02d m +:+ ":" +:+ PyStr.fmt_02d s.

(** The children [_process_exam_info] gives the [info] node. *)
Definition info_children
    (problem_set : problem_set) (contest_start_dt : Dt.datetime)
    (local : Z -> Z) (duration_sec : Z) : list ET.element :=
  [ET.leaf "title" (Some (default "PTA Contest" (ps_name problem_set)));
   ET.leaf "short-title" (Some (default "PTA Contest" (ps_name problem_set)));
   ET.leaf "contest-id" (Some (default "0" (ps_id problem_set)));
   ET.leaf "starttime"
     (Some (Dt.format_f 1 (Dt.timestamp local contest_start_dt)));
   ET.leaf "length" (Some (duration_str duration_sec));
   ET.leaf "penalty" (Some "20");
   ET.leaf "started" (Some "False");
   ET.leaf "scoreboard-freeze-length" (Some "1:00:00")].

(** The [problem] node of the entry at index [idx], with its letter. *)
Definition problem_node (xml_id letter : string) : ET.element :=
  ET.Element "problem" None None
    [ET.leaf "id" (Some xml_id);
     ET.leaf "letter" (Some letter);
     ET.leaf "name" (Some ("Problem " +:+ letter))].

(** [rel_time_sec] of [_add_submission_node], from the [timedelta]. *)
Definition rel_time_sec (time_diff : Z) : Z :=
  let rel_time_sec := Dt.int_total_seconds time_diff in
  if rel_time_sec <? 0 then 0 else rel_time_sec.

(** The [run] node of [_add_submission_node]. *)
Definition run_node
    (sub : submission) (counter : Z) (problem_conf : label)
    (submit_at : Dt.datetime) (local : Z -> Z) (time_diff : Z) : ET.element :=
  let pta_status := default "UNKNOWN" (status sub) in
  let solved := if decide (pta_status = "ACCEPTED") then "true" else "false" in
  let penalty := if decide (pta_status = "COMPILE_ERROR") then "false" else "true" in
  let lang_id :=
    default "1" (compiler_map !! PyStr.upper (default "UNKNOWN" (compiler sub))) in
  ET.Element "run" None None
    [ET.leaf "id" (Some (PyStr.str counter));
     ET.leaf "judged" (Some "True");
     ET.leaf "language" (Some lang_id);
     ET.leaf "problem" (Some (xml_id problem_conf));
     ET.leaf "status" (Some "done");
     ET.leaf "team" (sub_userId sub);
     ET.leaf "time" (Some (PyStr.str (rel_time_sec time_diff)));
     ET.leaf "timestamp"
       (Some (Dt.format_f 2 (Dt.timestamp local submit_at)));
     ET.leaf "solved" (Some solved);
     ET.leaf "penalty" (Some penalty);
     ET.leaf "result" (Some (result_acronym pta_status))].

(** The [team] node of [_add_team_node]. *)
Definition team_node (g : generator) (user_id name : string) : ET.element :=
  ET.Element "team" None None
    [ET.leaf "id" (Some user_id);
     ET.leaf "external-id" (Some (region_id g));
     ET.leaf "region" (Some (organization g));
     ET.leaf "name" (Some name);
     ET.leaf "university" (Some (organization g))].

(** ** The methods of [PTAContestGenerator] *)

Section Generator.

(** The remote service, and the system's local UTC offset (in
    microseconds) at a given local wall time. *)
Variable server : list request -> request -> transport.
Variable local_utcoffset : Z -> Z.

(** [self.session.get(url, params=params, timeout=15)] *)
Definition session_get (url : string) (params : list (string * string))
    : M transport :=
  fun st =>
    let req := {| url := url; params := params |} in
    let w := outside st in
    (Return (server (requests w) req),
     {| self := self st;
        outside := {| requests := requests w ++ [req]; files := files w;
                      log := log w; pauses := pauses w |} |}).

(** [resp.json()] raises a [requests.JSONDecodeError], itself a
    [RequestException], on a body that is not JSON. *)
Definition _safe_request (url : string) (params : list (string * string))
    : M api_json :=
  got <- session_get url params ;;
  match got with
  | RequestException e =>
      raise (PTAAPIError ("网络连接底层错误: " +:+ e))
  | Reply resp =>
      let is_error := negb (status_code resp =? 200) in
      let is_not_json :=
        negb (PyStr.contains "application/json" (content_type resp)) in
      if is_error || is_not_json then
        (write_file "pta_error_dump.html" (TextFile (text resp)) ;;
         if status_code resp =? 401 then
           raise (PTAAuthError "认证失败 [401]。请检查 Cookie。")
         else if is_not_json then
           let snippet :=
             PyStr.replace_newline (PyStr.take_chars 100 (text resp)) in
           raise (PTAAPIError
                    ("期望 JSON 但收到 HTML (状态码 "
                     +:+ PyStr.str (status_code resp)
                     +:+ ")。内容片段: " +:+ snippet +:+ "..."))
         else
           raise (PTAAPIError
                    ("API 请求失败，状态码: " +:+ PyStr.str (status_code resp))))
      else
        match json resp with
        | Some data => ret data
        | None => raise (PTAAPIError "网络连接底层错误: JSONDecodeError")
        end
  end.

Definition select_problem_set (problem_set_id : string) : M unit :=
  update_self (set_selected_problem_set_id (Some problem_set_id)) ;;
  _safe_request
    ("https://pintia.cn/api/problem-sets/" +:+ problem_set_id +:+ "/exams")
    [] ;;
  ret tt.

Definition _init_xml_structure : M unit :=
  update_self (set_contest_root (Some (ET.new "contest"))).

(** [ET.SubElement(self.contest_root, ...)], the node given with the
    children it receives before anything else can happen. *)
Definition SubElement_root (child : ET.element) : M unit :=
  g <- get_self ;;
  match contest_root g with
  | None =>
      raise (TypeError "SubElement() argument 1 must be Element, not None")
  | Some root => update_self (set_contest_root (Some (ET.append root child)))
  end.

(** [ET.SubElement(node, ...)] for each of [cs], [node] being the node
    that was last appended to [self.contest_root]. *)
Definition SubElement_last (cs : list ET.element) : M unit :=
  update_self (fun g =>
    set_contest_root
      (ET.on_last (fun node => ET.extend node cs) <$> contest_root g) g).

(** [parse_time] of [_process_exam_info], on the field or its default. *)
Definition parse_time (field : iso_time) : M Dt.datetime :=
  match field with
  | Absent => ret Dt.epoch_utc
  | Malformed => raise (ValueError "Invalid isoformat string")
  | Parsed d => ret d
  end.

(** [self.exam_info.get("problemSet", {})] *)
Definition empty_problem_set : problem_set :=
  {| ps_name := None; ps_id := None; ps_startAt := Absent;
     ps_endAt := Absent; ps_duration := None |}.

Definition _process_exam_info : M unit :=
  g <- get_self ;;
  data <- _safe_request
            ("https://pintia.cn/api/problem-sets/"
             +:+ PyStr.str_opt (selected_problem_set_id g)) [] ;;
  update_self (set_exam_info data) ;;
  SubElement_root (ET.new "info") ;;
  let problem_set := default empty_problem_set (problemSet data) in
  start_dt <- parse_time (ps_startAt problem_set) ;;
  end_dt <- parse_time (ps_endAt problem_set) ;;
  let contest_start_dt := Dt.astimezone_utc local_utcoffset start_dt in
  update_self (set_contest_start_dt (Some contest_start_dt)) ;;
  let duration_sec := exam_duration_sec problem_set start_dt end_dt in
  SubElement_last
    (info_children problem_set contest_start_dt local_utcoffset duration_sec).

Definition _add_static_nodes : M unit :=
  g <- get_self ;;
  SubElement_root
    (ET.Element "region" None None
       [ET.leaf "external-id" (Some (region_id g));
        ET.leaf "name" (Some (organization g))]) ;;
  (fix each (conf : list (string * string * string * string * string)) : M unit :=
     match conf with
     | [] => ret tt
     | (j_id, acr, name, solved, penalty) :: rest =>
         SubElement_root
           (ET.Element "judgement" None None
              [ET.leaf "id" (Some j_id);
               ET.leaf "acronym" (Some acr);
               ET.leaf "name" (Some name);
               ET.leaf "solved" (Some solved);
               ET.leaf "penalty" (Some penalty)]) ;;
         each rest
     end) judgements_conf ;;
  (fix each (langs : list (string * string)) : M unit :=
     match langs with
     | [] => ret tt
     | (l_id, l_name) :: rest =>
         SubElement_root
           (ET.Element "language" None None
              [ET.leaf "id" (Some l_id);
               ET.leaf "name" (Some l_name)]) ;;
         each rest
     end) languages.

(** [for idx, p in enumerate(problems)], from index [idx] on. *)
Fixpoint for_problems (problems : list problem) (idx : Z) : M unit :=
  match problems with
  | [] => ret tt
  | p :: rest =>
      let p_id := problem_id p in
      let xml_id := PyStr.str (idx + 1) in
      match PyStr.chr (65 + idx) with
      | None => raise (ValueError "chr() arg not in range(0x110000)")
      | Some letter =>
          update_self (fun g =>
            set_label_map
              (<[p_id := {| xml_id := xml_id; letter := letter |}]>
                 (label_map g)) g) ;;
          SubElement_root (problem_node xml_id letter) ;;
          for_problems rest (idx + 1)
      end
  end.

Definition _process_problems : M unit :=
  g <- get_self ;;
  data <- _safe_request
            ("https://pintia.cn/api/problem-sets/"
             +:+ PyStr.str_opt (selected_problem_set_id g)
             +:+ "/preview/problems")
            [("problem_type", "PROGRAMMING"); ("page", "0"); ("limit", "500")] ;;
  let problems := default [] (problemSetProblems data) in
  for_problems problems 0.

Definition _get_team_name (user_id : string) (student_user_id : option string)
    : M string :=
  g <- get_self ;;
  let by_exam :=
    exam_info ← (_exam_by_user_id g ≫= (.!! user_id));
    let student_user := default {| su_name := None |} (studentUser exam_info) in
    Some (PyStr.strip (default "" (su_name student_user))) in
  if PyStr.truthy by_exam then ret (default "" by_exam)
  else
    let by_id :=
      sid ← student_user_id;
      student_user ← (_student_user_by_id g ≫= (.!! sid));
      Some (PyStr.strip (default "" (su_name student_user))) in
    if PyStr.truthy by_id then ret (default "" by_id)
    else
      let name := "Team_" +:+ user_id in
      logger WARNING
        ("无法找到用户 " +:+ user_id
         +:+ " 的名称信息，使用默认队伍名: " +:+ name) ;;
      ret name.

(** The warning for a member without [userId] ends with the record's
    [repr], which is left out. *)
Definition _add_team_node (member_data : member) : M unit :=
  let user_id := userId member_data in
  let student_user_id := studentUserId member_data in
  if negb (PyStr.truthy user_id) then
    logger WARNING "成员数据缺少userId: "
  else
    name <- _get_team_name (default "" user_id) student_user_id ;;
    g <- get_self ;;
    SubElement_root (team_node g (default "" user_id) name).

Fixpoint for_members (members : list member) : M unit :=
  match members with
  | [] => ret tt
  | member :: rest => _add_team_node member ;; for_members rest
  end.

(** The [while True] of [_process_teams], entered with [page]. *)
Fixpoint teams_loop (fuel : nat) (base_url : string) (page : Z) : M unit :=
  match fuel with
  | O => diverge
  | S fuel' =>
      data <- _safe_request base_url
                [("exam_status", "UNKNOWN"); ("page", PyStr.str page);
                 ("limit", "20"); ("order_by", "startAt"); ("asc", "false")] ;;
      if (page =? 0) && (default 0 (total data) =? 0) then
        logger WARNING "未找到任何队伍"
      else
        update_self (fun g =>
          set_name_maps
            (Some (default ∅ (examByUserId data)
                   ∪ default ∅ (_exam_by_user_id g)))
            (Some (default ∅ (studentUserById data)
                   ∪ default ∅ (_student_user_by_id g))) g) ;;
        let members := default [] (userGroupMembers data) in
        match members with
        | [] =>
            logger WARNING ("第 " +:+ PyStr.str (page + 1) +:+ " 页无数据")
        | _ :: _ =>
            for_members members ;;
            if (length members <? 20)%nat then ret tt
            else teams_loop fuel' base_url (page + 1)
        end
  end.

Definition _process_teams (fuel : nat) : M unit :=
  g <- get_self ;;
  let base_url :=
    "https://pintia.cn/api/problem-sets/"
    +:+ PyStr.str_opt (selected_problem_set_id g) +:+ "/user-group-members" in
  update_self (set_name_maps (Some ∅) (Some ∅)) ;;
  try_except_reraise (teams_loop fuel base_url 0)
    (fun e => logger ERROR ("获取队伍信息失败: " +:+ exn_str e)).

Definition _add_submission_node (sub : submission) (counter : Z) : M unit :=
  g <- get_self ;;
  let problem_id := problemSetProblemId sub in
  match label_map g !! problem_id with
  | None => ret tt
  | Some problem_conf =>
      submit_at <-
        match submitAt sub with
        | Absent => raise (KeyError "'submitAt'")
        | Malformed => raise (ValueError "Invalid isoformat string")
        | Parsed d => ret d
        end ;;
      contest_start <-
        match contest_start_dt g with
        | None =>
            raise (AttributeError
                     "'PTAContestGenerator' object has no attribute 'contest_start_dt'")
        | Some d => ret d
        end ;;
      time_diff <-
        match Dt.sub submit_at contest_start with
        | None =>
            raise (TypeError
                     "can't subtract offset-naive and offset-aware datetimes")
        | Some delta => ret delta
        end ;;
      SubElement_root
        (run_node sub counter problem_conf submit_at local_utcoffset time_diff)
  end.

(** [for sub in submissions] of [_process_submissions]; returns the
    counter the loop leaves. *)
Fixpoint for_submissions
    (subs : list submission) (counter processed_this_page : Z) : M Z :=
  match subs with
  | [] => ret counter
  | sub :: rest =>
      _add_submission_node sub counter ;;
      let counter := counter + 1 in
      let processed_this_page := processed_this_page + 1 in
      (if processed_this_page mod 100 =? 0 then sleep else ret tt) ;;
      for_submissions rest counter processed_this_page
  end.

(** The [while True] of [_process_submissions], entered with the
    cursor [before] and the next run id [counter]. *)
Fixpoint submissions_loop
    (fuel : nat) (base_url : string) (before : option string) (counter : Z)
    : M unit :=
  match fuel with
  | O => diverge
  | S fuel' =>
      let params :=
        ("limit", "100") ::
        (if PyStr.truthy before then [("before", default "" before)] else []) in
      data <- _safe_request base_url params ;;
      let subs := default [] (submissions data) in
      match subs with
      | [] => ret tt
      | first :: _ =>
          counter' <- for_submissions subs counter 0 ;;
          let has_more := default false (hasBefore data) in
          if has_more then
            let last_submission := default first (last subs) in
            let next_cursor := sub_id last_submission in
            if decide (next_cursor = before) then
              logger WARNING "检测到游标未变化，为防止死循环强制停止抓取"
            else
              submissions_loop fuel' base_url next_cursor counter'
          else ret tt
      end
  end.

Definition _process_submissions (fuel : nat) : M unit :=
  g <- get_self ;;
  let base_url :=
    "https://pintia.cn/api/problem-sets/"
    +:+ PyStr.str_opt (selected_problem_set_id g) +:+ "/submissions" in
  submissions_loop fuel base_url None 1.

(** [now] is [str(datetime.now().timestamp())], the clock's reading. *)
Definition _add_finalized_node (now : string) : M unit :=
  SubElement_root (ET.new "finalized") ;;
  SubElement_last
    [ET.leaf "last_gold" (Some "1");
     ET.leaf "last_silver" (Some "1");
     ET.leaf "last_bronze" (Some "1")] ;;
  g <- get_self ;;
  match contest_root g ≫= ET.find ["info"; "length"] with
  | None => raise (AttributeError "'NoneType' object has no attribute 'text'")
  | Some length_node =>
      SubElement_last [ET.leaf "time" (Some (PyStr.str_opt (ET.text length_node)))] ;;
      SubElement_last [ET.leaf "timestamp" (Some now)]
  end.

Definition _save_xml (path : string) : M unit :=
  g <- get_self ;;
  match contest_root g with
  | None => raise (TypeError "object of type 'NoneType' has no len()")
  | Some root =>
      let root' := ET._indent 0 root in
      update_self (set_contest_root (Some root')) ;;
      write_file path (XmlFile root')
  end.

Definition generate_contest_xml (fuel : nat) (now : string) (output_path : string)
    : M string :=
  g <- get_self ;;
  if negb (PyStr.truthy (selected_problem_set_id g)) then
    raise (ValueError "请先选择题目集")
  else
    _init_xml_structure ;;
    _process_exam_info ;;
    _add_static_nodes ;;
    _process_problems ;;
    _process_teams fuel ;;
    _process_submissions fuel ;;
    _add_finalized_node now ;;
    _save_xml output_path ;;
    ret output_path.

End Generator.

(** ** Observations used in the statements below *)

Definition is_auth_error (e : exn) : bool :=
  match e with
  | PTAAuthError _ => true
  | _ => false
  end.

Definition is_api_error (e : exn) : bool :=
  match e with
  | PTAAPIError _ => true
  | _ => false
  end.

(** The world once [req] has been sent. *)
Definition sent (req : request) (w : world) : world :=
  {| requests := requests w ++ [req]; files := files w;
     log := log w; pauses := pauses w |}.

(** The world once [body] has been dumped to the debug file. *)
Definition dumped (body : string) (w : world) : world :=
  {| requests := requests w;
     files := <["pta_error_dump.html" := TextFile body]> (files w);
     log := log w; pauses := pauses w |}.

(** The world once [msg] has been logged as a warning. *)
Definition warned (msg : string) (w : world) : world :=
  {| requests := requests w; files := files w;
     log := log w ++ [(WARNING, msg)]; pauses := pauses w |}.

(** The keys of [result_map]: the platform's status vocabulary. *)
Definition status_vocabulary : list string := result_map_items.*1.

(** The texts of the [id] children of the [run] nodes of a document. *)
Definition run_ids (root : ET.element) : list (option string) :=
  ET.text <$> ET.findall ["run"; "id"] root.

(** The children appended to a document since it was [before]. *)
Definition appended (before after : ET.element) : list ET.element :=
  drop (length (ET.children before)) (ET.children after).

(** [st'] has sent every request of [st], in the same order, and
    possibly more after them. *)
Definition extends (st st' : state) : Prop :=
  exists rest,
    requests (outside st') = requests (outside st) ++ rest.

(** A computation that never takes back a request. *)
Definition monotone {A} (c : M A) : Prop :=
  forall st, extends st (c st).2.

(** The twenty-six upper-case letters, in order. *)
Definition uppercase_letters : list string :=
  ["A"; "B"; "C"; "D"; "E"; "F"; "G"; "H"; "I"; "J"; "K"; "L"; "M";
   "N"; "O"; "P"; "Q"; "R"; "S"; "T"; "U"; "V"; "W"; "X"; "Y"; "Z"].

(** What [parse_time] returns for a timestamp field, if it returns. *)
Definition parsed_time (field : iso_time) : option Dt.datetime :=
  match field with
  | Absent => Some Dt.epoch_utc
  | Malformed => None
  | Parsed d => Some d
  end.

(** The state once the document is [root]. *)
Definition with_root (root : ET.element) (st : state) : state :=
  {| self := set_contest_root (Some root) (self st); outside := outside st |}.

(** The letter [_process_problems] gives the problem at index [idx]. *)
Definition problem_letter (idx : nat) : string :=
  default "" (PyStr.chr (65 + Z.of_nat idx)).

(** A child of [finalized], its text removed if it is the [timestamp]. *)
Definition blank_timestamp (e : ET.element) : ET.element :=
  if decide (ET.tag e = "timestamp")
  then ET.Element (ET.tag e) None (ET.tail e) (ET.children e)
  else e.

(** A child of the document, its [timestamp] blanked if it is the
    [finalized] node. *)
Definition blank_finalized (e : ET.element) : ET.element :=
  if decide (ET.tag e = "finalized")
  then ET.Element (ET.tag e) (ET.text e) (ET.tail e)
         (blank_timestamp <$> ET.children e)
  else e.

(** A document with the timestamp field of its finalized node blanked:
    two documents are the same except for that field when they are the
    same after this. *)
Definition without_finalized_timestamp (root : ET.element) : ET.element :=
  ET.Element (ET.tag root) (ET.text root) (ET.tail root)
    (blank_finalized <$> ET.children root).

Definition without_finalized_timestamp_file (f : file) : file :=
  match f with
  | TextFile content => TextFile content
  | XmlFile root => XmlFile (without_finalized_timestamp root)
  end.

(** What a run leaves behind (its outcome, the generator, the files,
    the requests, the log), the finalization timestamp blanked in the
    document held by the generator and in every document written. *)
Definition modulo_finalized_timestamp {A} (r : outcome A * state)
    : outcome A * state :=
  (r.1,
   {| self :=
        set_contest_root
          (without_finalized_timestamp <$> contest_root (self r.2)) (self r.2);
      outside :=
        {| requests := requests (outside r.2);
           files := without_finalized_timestamp_file <$> files (outside r.2);
           log := log (outside r.2);
           pauses := pauses (outside r.2) |} |}).

(** The document a run has written to [path], if it has. *)
Definition written (path : string) (st : state) : option ET.element :=
  match files (outside st) !! path with
  | Some (XmlFile root) => Some root
  | _ => None
  end.

(** The texts found at [path] in a document. *)
Definition texts (path : list string) (root : ET.element) : list (option string) :=
  ET.text <$> ET.findall path root.

(** ** Relating two runs *)

(** What a generator is configured with. *)
Definition config (g : generator) : string * string * option string :=
  (organization g, region_id g, selected_problem_set_id g).

(** What a run can read of a generator before writing it. *)
Definition frame (g : generator)
    : string * string * option string * gmap (option string) label :=
  (config g, label_map g).

(** A computation that leaves the view [V] of the generator alone. *)
Definition preserves {X A} (V : generator -> X) (c : M A) : Prop :=
  forall st, V (self (c st).2) = V (self st).

(** Two generators agree up to stage [k] of a run: on their
    configuration, and from stage 1 on the document, from stage 2 on
    the contest start, from stage 3 on the problem lookup, from stage 4
    on the two name maps. *)
Definition agree (k : nat) (g g' : generator) : Prop :=
  config g = config g'
  /\ (1 <= k -> contest_root g = contest_root g')%nat
  /\ (2 <= k -> contest_start_dt g = contest_start_dt g')%nat
  /\ (3 <= k -> label_map g = label_map g')%nat
  /\ (4 <= k ->
      _exam_by_user_id g = _exam_by_user_id g'
      /\ _student_user_by_id g = _student_user_by_id g')%nat.

(** Run from two states with the same world whose generators agree up
    to stage [k], [c] and [c'] end the same way in the same world, and
    when they return, the generators agree up to stage [k']. *)
Definition simulates {A} (k k' : nat) (c c' : M A) : Prop :=
  forall st st',
    outside st = outside st' -> agree k (self st) (self st') ->
    (c st).1 = (c' st').1
    /\ outside (c st).2 = outside (c' st').2
    /\ (forall a, (c st).1 = Return a ->
          agree k' (self (c st).2) (self (c' st').2)).

(** The lookup entries that [for_problems problems idx] writes. *)
Fixpoint labels (problems : list problem) (idx : Z) : gmap (option string) label :=
  match problems with
  | [] => ∅
  | p :: rest =>
      labels rest (idx + 1)
      ∪ {[ problem_id p :=
             {| xml_id := PyStr.str (idx + 1);
                letter := default "" (PyStr.chr (65 + idx)) |} ]}
  end.

(** The steps of [generate_contest_xml] before the problem listing. *)
Definition steps_before_listing
    (server : list request -> request -> transport) (local : Z -> Z) : M unit :=
  _init_xml_structure ;;
  _process_exam_info server local ;;
  _add_static_nodes.

(** The steps of [generate_contest_xml] after the problem listing. *)
Definition steps_after_listing
    (server : list request -> request -> transport) (local : Z -> Z)
    (fuel : nat) (now output_path : string) : M string :=
  _process_teams server fuel ;;
  _process_submissions server local fuel ;;
  _add_finalized_node now ;;
  _save_xml output_path ;;
  ret output_path.

(** What a run shows to the outside: how it ended, and the world it
    left, the finalization timestamp blanked in every document written. *)
Definition observable {A} (r : outcome A * state) : outcome A * world :=
  (r.1,
   {| requests := requests (outside r.2);
      files := without_finalized_timestamp_file <$> files (outside r.2);
      log := log (outside r.2);
      pauses := pauses (outside r.2) |}).

(** ** Further observations *)

(** The two name maps of a generator. *)
Definition name_maps (g : generator)
    : option (gmap string exam) * option (gmap string student_user) :=
  (_exam_by_user_id g, _student_user_by_id g).

(** The name [_get_team_name] finds for [user_id] in [examByUserId],
    stripped; [None] when the user has no entry there. *)
Definition exam_name (g : generator) (user_id : string) : option string :=
  exam_info ← (_exam_by_user_id g ≫= (.!! user_id));
  Some (PyStr.strip
          (default "" (su_name (default {| su_name := None |}
                                  (studentUser exam_info))))).

(** The name [_get_team_name] finds for [student_user_id] in
    [studentUserById], stripped; [None] when there is no entry. *)
Definition student_name (g : generator) (student_user_id : option string)
    : option string :=
  sid ← student_user_id;
  student_user ← (_student_user_by_id g ≫= (.!! sid));
  Some (PyStr.strip (default "" (su_name student_user))).

(** The text of the first child [tag] of a node. *)
Definition field (tag : string) (node : ET.element) : option string :=
  ET.find [tag] node ≫= ET.text.

(** The members of a roster page that get a team node. *)
Definition with_user_id (members : list member) : list member :=
  filter (fun m => PyStr.truthy (userId m) = true) members.

(** The name [_get_team_name] resolves for a member, from the two name
    maps as they are when it is called. *)
Definition team_name
    (g : generator) (user_id : string) (student_user_id : option string)
    : string :=
  if PyStr.truthy (exam_name g user_id)
  then default "" (exam_name g user_id)
  else if PyStr.truthy (student_name g student_user_id)
       then default "" (student_name g student_user_id)
       else "Team_" +:+ user_id.

(** The [team] node [_add_team_node] makes of a member with a user id. *)
Definition team_of (g : generator) (m : member) : ET.element :=
  team_node g (default "" (userId m))
    (team_name g (default "" (userId m)) (studentUserId m)).

(** [base_url] and [params] of [_process_teams]. *)
Definition teams_url (g : generator) : string :=
  "https://pintia.cn/api/problem-sets/"
  +:+ PyStr.str_opt (selected_problem_set_id g) +:+ "/user-group-members".

Definition teams_params (page : Z) : list (string * string) :=
  [("exam_status", "UNKNOWN"); ("page", PyStr.str page);
   ("limit", "20"); ("order_by", "startAt"); ("asc", "false")].

(** The generator when [_process_teams] enters its loop. *)
Definition teams_start (st : state) : state :=
  {| self := set_name_maps (Some ∅) (Some ∅) (self st); outside := outside st |}.

(** The generator once a roster page has been merged into the maps. *)
Definition teams_merged (data : api_json) (st : state) : state :=
  {| self :=
       set_name_maps
         (Some (default ∅ (examByUserId data)
                ∪ default ∅ (_exam_by_user_id (self st))))
         (Some (default ∅ (studentUserById data)
                ∪ default ∅ (_student_user_by_id (self st)))) (self st);
     outside := outside st |}.

(** A computation that logs nothing but warnings. *)
Definition only_warns {A} (c : M A) : Prop :=
  forall st,
    exists entries,
      log (outside (c st).2) = log (outside st) ++ entries
      /\ Forall (fun entry => entry.1 = WARNING) entries.

(** The run ids that [for_submissions], entered with [counter], gives
    the submissions whose problem is in the lookup. *)
Fixpoint kept_ids
    (lookup : gmap (option string) label) (subs : list submission)
    (counter : Z) : list Z :=
  match subs with
  | [] => []
  | sub :: rest =>
      match lookup !! problemSetProblemId sub with
      | Some _ => [counter]
      | None => []
      end
      ++ kept_ids lookup rest (counter + 1)
  end.

(** The ids of the run nodes among [nodes]. *)
Definition ids_of_runs (nodes : list ET.element) : list (option string) :=
  run_ids (ET.Element "contest" None None nodes).

(** A computation that writes no file when it returns, and no file but
    the debug dump when it does not. *)
Definition keeps_files {A} (c : M A) : Prop :=
  forall st,
    (forall path, path <> "pta_error_dump.html" ->
       files (outside (c st).2) !! path = files (outside st) !! path)
    /\ (forall a, (c st).1 = Return a ->
          files (outside (c st).2) = files (outside st)).

(** The nodes [_add_static_nodes] appends. *)
Definition static_nodes (g : generator) : list ET.element :=
  ET.Element "region" None None
    [ET.leaf "external-id" (Some (region_id g));
     ET.leaf "name" (Some (organization g))]
  :: ((fun '(j_id, acr, name, solved, penalty) =>
         ET.Element "judgement" None None
           [ET.leaf "id" (Some j_id);
            ET.leaf "acronym" (Some acr);
            ET.leaf "name" (Some name);
            ET.leaf "solved" (Some solved);
            ET.leaf "penalty" (Some penalty)]) <$> judgements_conf)
  ++ ((fun '(l_id, l_name) =>
         ET.Element "language" None None
           [ET.leaf "id" (Some l_id);
            ET.leaf "name" (Some l_name)]) <$> languages).

(** The tags of the top-level nodes of a document. *)
Definition sections (root : ET.element) : list string :=
  ET.tag <$> ET.children root.

(** The steps of [generate_contest_xml] that build the document. *)
Definition build_steps
    (server : list request -> request -> transport) (local : Z -> Z)
    (fuel : nat) (now : string) : M unit :=
  _init_xml_structure ;;
  _process_exam_info server local ;;
  _add_static_nodes ;;
  _process_problems server ;;
  _process_teams server fuel ;;
  _process_submissions server local fuel ;;
  _add_finalized_node now.

(** A document without its formatting: every text and every tail that
    is absent or white space only is dropped, the rest is kept as it
    is. *)
Fixpoint unformatted (elem : ET.element) : ET.element :=
  match elem with
  | ET.Element t tx tl cs =>
      ET.Element t
        (if PyStr.blank tx then None else tx)
        (if PyStr.blank tl then None else tl)
        (map unformatted cs)
  end.

(** A computation that never removes an entry of the problem lookup. *)
Definition keeps_labels {A} (c : M A) : Prop :=
  forall st k,
    is_Some (label_map (self st) !! k) ->
    is_Some (label_map (self (c st).2) !! k).

(** ** [get_problem_sets] *)

(** An entry of the [problemSets] list of the listing, by the keys
    read. *)
Record listed_set := {
  set_name : option string;
  set_id : option string;
  set_startAt : option string
}.

(** An entry of the list that [get_problem_sets] returns: the keys
    [name], [id] and [start_time]. *)
Record summary := {
  summary_name : string;
  summary_id : option string;
  summary_start_time : option string
}.

(** The double quote of the JSON texts sent as parameters. *)
Definition quote : string := String "034"%char "".

(** The JSON texts of [sort_by] (type UPDATE_AT, asc false) and of
    [filter] (ownerId 0), with their double quotes. *)
Definition sort_by_update : string :=
  "{" +:+ quote +:+ "type" +:+ quote +:+ ":" +:+ quote +:+ "UPDATE_AT"
  +:+ quote +:+ "," +:+ quote +:+ "asc" +:+ quote +:+ ":false}".

Definition filter_owner : string :=
  "{" +:+ quote +:+ "ownerId" +:+ quote +:+ ":" +:+ quote +:+ "0"
  +:+ quote +:+ "}".

(** [params] of [get_problem_sets] for a page. *)
Definition listing_params (page : Z) : list (string * string) :=
  [("sort_by", sort_by_update); ("page", PyStr.str page); ("limit", "50");
   ("filter", filter_owner)].

(** The element of the returned list made of an entry. *)
Definition summarise (ps : listed_set) : summary :=
  {| summary_name := default "未命名题目集" (set_name ps);
     summary_id := set_id ps;
     summary_start_time := set_startAt ps |}.

Section Listing.

Variable server : list request -> request -> transport.

(** The [problemSets] key of the listing, which the record of the keys
    read during a generation does not carry. *)
Variable problemSets : api_json -> option (list listed_set).

(** The [while True] of [get_problem_sets], entered with [page] and the
    entries gathered so far. *)
Fixpoint listing_loop (fuel : nat) (page : Z) (all_sets : list listed_set)
    : M (list listed_set) :=
  match fuel with
  | O => diverge
  | S fuel' =>
      data <- _safe_request server "https://pintia.cn/api/problem-sets/admin"
                (listing_params page) ;;
      let current := default [] (problemSets data) in
      match current with
      | [] => ret all_sets
      | _ :: _ =>
          let all_sets := all_sets ++ current in
          if (length current <? 50)%nat then ret all_sets
          else listing_loop fuel' (page + 1) all_sets
      end
  end.

Definition get_problem_sets (fuel : nat) : M (list summary) :=
  try_except_reraise
    (all_sets <- listing_loop fuel 0 [] ;;
     ret (summarise <$> all_sets))
    (fun e => logger ERROR ("获取题目集失败: " +:+ exn_str e)).

End Listing.

(** The request [get_problem_sets] sends for a page. *)
Definition listing_request (page : Z) : request :=
  {| url := "https://pintia.cn/api/problem-sets/admin";
     params := listing_params page |}.

(** ** Sample inputs *)

Module Sample.

Definition world0 : world :=
  {| requests := []; files := ∅; log := []; pauses := 0 |}.

(** A fresh generator. *)
Definition fresh : state :=
  {| self := __init__ "HBUE" "1"; outside := world0 |}.

(** A generator with problem set ["42"] selected and an empty document. *)
Definition selected : state :=
  {| self :=
       set_contest_root (Some (ET.new "contest"))
         (set_selected_problem_set_id (Some "42") (__init__ "HBUE" "1"));
     outside := world0 |}.

(** A 200 response carrying [data] as JSON. *)
Definition ok (data : api_json) : transport :=
  Reply {| status_code := 200;
           content_type := "application/json;charset=UTF-8";
           text := "{}";
           json := Some data |}.

(** A 404 page. *)
Definition not_found : response :=
  {| status_code := 404;
     content_type := "text/html";
     text := "<html>" +:+ PyStr.newline +:+ "Not Found</html>";
     json := None |}.

(** [n] seconds after the epoch, UTC. *)
Definition utc (n : Z) : Dt.datetime :=
  {| Dt.wall := n * 1000000; Dt.utcoffset := Some 0 |}.

(** A listing of [n] problems ["p0"], ["p1"], ... *)
Definition listing (n : nat) : api_json :=
  {| problemSet := None;
     problemSetProblems :=
       Some ((fun i : nat => {| problem_id := Some ("p" +:+ pretty i) |})
               <$> seq 0 n);
     total := None; examByUserId := None; studentUserById := None;
     userGroupMembers := None; submissions := None; hasBefore := None |}.

(** A problem-set detail. *)
Definition detail (startAt endAt : iso_time) (duration : option Z) : api_json :=
  {| problemSet :=
       Some {| ps_name := Some "Spring Contest"; ps_id := Some "42";
               ps_startAt := startAt; ps_endAt := endAt;
               ps_duration := duration |};
     problemSetProblems := None;
     total := None; examByUserId := None; studentUserById := None;
     userGroupMembers := None; submissions := None; hasBefore := None |}.

(** A generator that has listed problem ["pA"] as problem 1, letter A,
    for a contest that starts 1000 seconds after the epoch. *)
Definition listed : state :=
  {| self :=
       set_contest_start_dt (Some (utc 1000))
         (set_label_map {[ Some "pA" := {| xml_id := "1"; letter := "A" |} ]}
            (self selected));
     outside := world0 |}.

(** A C++ submission by user ["u1"], [at_sec] seconds after the epoch. *)
Definition sub (id problem verdict : string) (at_sec : Z) : submission :=
  {| sub_id := Some id;
     problemSetProblemId := Some problem;
     status := Some verdict;
     compiler := Some "GXX";
     submitAt := Parsed (utc at_sec);
     sub_userId := Some "u1" |}.

(** A page of submissions. *)
Definition page (subs : list submission) (more : bool) : api_json :=
  {| problemSet := None; problemSetProblems := None;
     total := None; examByUserId := None; studentUserById := None;
     userGroupMembers := None;
     submissions := Some subs; hasBefore := Some more |}.

(** A service that answers every submissions request with the same page
    and claims there is more. *)
Definition stuck_service (past : list request) (req : request) : transport :=
  ok (page [sub "s2" "pA" "ACCEPTED" 1600; sub "s1" "pA" "WRONG_ANSWER" 1300]
        true).

(** A service whose submission pages never repeat their last id from
    one page to the next: asked for the history before ["a"] it sends a
    page ending with ["b"], and otherwise a page ending with ["a"]; both
    pages announce more history. *)
Definition alternating_service (past : list request) (req : request)
    : transport :=
  if decide (("before", "a") ∈ params req)
  then ok (page [sub "b" "gone" "ACCEPTED" 1600] true)
  else ok (page [sub "a" "gone" "ACCEPTED" 1300] true).

(** A roster page with one member, whose name comes with the students. *)
Definition roster : api_json :=
  {| problemSet := None; problemSetProblems := None;
     total := Some 1; examByUserId := None;
     studentUserById := Some {[ "stu1" := {| su_name := Some " Alice " |} ]};
     userGroupMembers :=
       Some [{| userId := Some "u1"; studentUserId := Some "stu1" |}];
     submissions := None; hasBefore := None |}.

(** A small contest: detail, two problems, one team, one page of three
    submissions (one of them for a problem that is not listed). *)
Definition contest_service (past : list request) (req : request) : transport :=
  match List.length past with
  | 0%nat => ok (detail (Parsed (utc 1000)) (Parsed (utc 8200)) None)
  | 1%nat => ok (listing 2)
  | 2%nat => ok roster
  | _ => ok (page [sub "s3" "p1" "ACCEPTED" 1600;
                   sub "s2" "gone" "ACCEPTED" 1500;
                   sub "s1" "p0" "COMPILE_ERROR" 900] false)
  end.

(** A generator with problem set ["42"] selected. *)
Definition chosen : state :=
  {| self := set_selected_problem_set_id (Some "42") (__init__ "HBUE" "1");
     outside := world0 |}.

End Sample.

(** ** Further sample inputs *)

Module More.

(** A roster page of [n] members ["u0"], ["u1"], ... that reports
    [reported] teams and names nobody. *)
Definition roster_of (n : nat) (reported : option Z) : api_json :=
  {| problemSet := None; problemSetProblems := None;
     total := reported; examByUserId := None; studentUserById := None;
     userGroupMembers :=
       Some ((fun i : nat =>
                {| userId := Some ("u" +:+ pretty i); studentUserId := None |})
               <$> seq 0 n);
     submissions := None; hasBefore := None |}.

(** A service that always answers with [data]. *)
Definition always (data : api_json) (past : list request) (req : request)
    : transport :=
  Sample.ok data.

(** A listing in which problem ["p0"] comes twice. *)
Definition twice : api_json :=
  {| problemSet := None;
     problemSetProblems :=
       Some [{| problem_id := Some "p0" |}; {| problem_id := Some "p1" |};
             {| problem_id := Some "p0" |}];
     total := None; examByUserId := None; studentUserById := None;
     userGroupMembers := None; submissions := None; hasBefore := None |}.

End More.

(** * Properties *)

(** ** Computations *)

Lemma str_app_assoc (a b c : string) : (a +:+ b) +:+ c = a +:+ (b +:+ c).
Proof. induction a as [|x a IH]; [reflexivity | exact (f_equal (String x) IH)]. Qed.

Lemma bind_Return {A B} (c : M A) (k : A -> M B) st a st' :
  c st = (Return a, st') -> bind c k st = k a st'.
Proof. intros H. unfold bind. by rewrite H. Qed.

Lemma bind_Raise {A B} (c : M A) (k : A -> M B) st e st' :
  c st = (Raise e, st') -> bind c k st = (Raise e, st').
Proof. intros H. unfold bind. by rewrite H. Qed.

Lemma bind_Diverge {A B} (c : M A) (k : A -> M B) st st' :
  c st = (Diverge, st') -> bind c k st = (Diverge, st').
Proof. intros H. unfold bind. by rewrite H. Qed.

Lemma bind_assoc {A B C} (c : M A) (k1 : A -> M B) (k2 : B -> M C) st :
  bind (bind c k1) k2 st = bind c (fun a => bind (k1 a) k2) st.
Proof. unfold bind. by destruct (c st) as [[a|e|] st']. Qed.

Lemma bind_update_self {B} f (k : unit -> M B) st :
  bind (update_self f) k st
    = k tt {| self := f (self st); outside := outside st |}.
Proof. reflexivity. Qed.

Lemma bind_get_self {B} (k : generator -> M B) st :
  bind get_self k st = k (self st) st.
Proof. reflexivity. Qed.

(** ** The request wrapper *)

Section SafeRequest.

Variable server : list request -> request -> transport.


End SafeRequest.

(** ** The trace of requests only grows *)

Lemma extends_same_requests st st' :
  requests (outside st') = requests (outside st) -> extends st st'.
Proof. intros H. exists []. by rewrite app_nil_r. Qed.

Lemma extends_refl st : extends st st.
Proof. by apply extends_same_requests. Qed.

Lemma extends_trans st1 st2 st3 :
  extends st1 st2 -> extends st2 st3 -> extends st1 st3.
Proof.
  intros [r1 H1] [r2 H2]. exists (r1 ++ r2). by rewrite H2, H1, app_assoc.
Qed.

Lemma monotone_ret {A} (a : A) : monotone (ret a).
Proof. intros st. apply extends_refl. Qed.

Lemma monotone_raise {A} e : monotone (@raise A e).
Proof. intros st. apply extends_refl. Qed.

Lemma monotone_diverge {A} : monotone (@diverge A).
Proof. intros st. apply extends_refl. Qed.

Lemma monotone_bind {A B} (c : M A) (k : A -> M B) :
  monotone c -> (forall a, monotone (k a)) -> monotone (bind c k).
Proof.
  intros Hc Hk st. unfold bind. specialize (Hc st).
  destruct (c st) as [[a|e|] st']; cbn in *; [|done..].
  eapply extends_trans; [exact Hc | apply Hk].
Qed.

Lemma monotone_get_self : monotone get_self.
Proof. intros st. apply extends_refl. Qed.

Lemma monotone_update_self f : monotone (update_self f).
Proof. intros st. by apply extends_same_requests. Qed.

Lemma monotone_logger lv msg : monotone (logger lv msg).
Proof. intros st. by apply extends_same_requests. Qed.

Lemma monotone_sleep : monotone sleep.
Proof. intros st. by apply extends_same_requests. Qed.

Lemma monotone_write_file path content : monotone (write_file path content).
Proof. intros st. by apply extends_same_requests. Qed.

Lemma monotone_try_except_reraise {A} (c : M A) h :
  monotone c -> (forall e, monotone (h e)) -> monotone (try_except_reraise c h).
Proof.
  intros Hc Hh st. unfold try_except_reraise. specialize (Hc st).
  destruct (c st) as [[a|e|] st']; cbn in *; [done| |done].
  specialize (Hh e st').
  destruct (h e st') as [[?|?|] st'']; cbn in *; by eapply extends_trans.
Qed.

Create HintDb mono discriminated.
#[local] Hint Resolve monotone_ret monotone_raise monotone_diverge
  monotone_get_self monotone_update_self monotone_logger monotone_sleep
  monotone_write_file : mono.

(** Peels binds, matches and conditionals off a [monotone] goal. *)
Ltac mono :=
  repeat first
    [ progress auto with mono
    | apply monotone_bind; [|intros]
    | apply monotone_try_except_reraise; [|intros]
    | match goal with
      | |- monotone (match ?x with _ => _ end) => destruct x
      | |- monotone (if ?b then _ else _) => destruct b
      | |- monotone (let _ := _ in _) => cbv zeta
      end ].

Section Trace.

Variable server : list request -> request -> transport.
Variable local_utcoffset : Z -> Z.

(** A successful or failed [_safe_request] sends exactly its request and
    leaves the generator as it was. *)
Lemma safe_request_sends url params st :
  requests (outside (_safe_request server url params st).2)
    = requests (outside st) ++ [{| url := url; params := params |}]
  /\ self (_safe_request server url params st).2 = self st.
Proof.
  unfold _safe_request, bind, session_get. cbn.
  destruct (server _ _) as [msg|resp]; [done|].
  destruct (negb _ || negb _); cbn.
  - destruct (status_code resp =? 401); [done|].
    by destruct (negb _).
  - by destruct (json resp).
Qed.

Lemma monotone_safe_request url params :
  monotone (_safe_request server url params).
Proof.
  intros st. eexists. apply safe_request_sends.
Qed.

Lemma monotone_SubElement_root child : monotone (SubElement_root child).
Proof. unfold SubElement_root. mono. Qed.

Lemma monotone_SubElement_last cs : monotone (SubElement_last cs).
Proof. unfold SubElement_last. mono. Qed.

#[local] Hint Resolve monotone_safe_request monotone_SubElement_root
  monotone_SubElement_last : mono.

Lemma monotone_process_exam_info :
  monotone (_process_exam_info server local_utcoffset).
Proof. unfold _process_exam_info, parse_time. mono. Qed.

#[local] Hint Resolve monotone_process_exam_info : mono.

Lemma monotone_add_static_nodes : monotone _add_static_nodes.
Proof.
  unfold _add_static_nodes. mono.
Qed.

#[local] Hint Resolve monotone_add_static_nodes : mono.

Lemma monotone_for_problems problems idx : monotone (for_problems problems idx).
Proof.
  revert idx. induction problems as [|p rest IH]; intros idx; cbn; mono.
Qed.

#[local] Hint Resolve monotone_for_problems : mono.

Lemma monotone_process_problems : monotone (_process_problems server).
Proof.
  unfold _process_problems. mono.
Qed.

#[local] Hint Resolve monotone_process_problems : mono.

Lemma monotone_add_team_node member_data : monotone (_add_team_node member_data).
Proof. unfold _add_team_node, _get_team_name. mono. Qed.

#[local] Hint Resolve monotone_add_team_node : mono.

Lemma monotone_for_members members : monotone (for_members members).
Proof.
  induction members as [|m rest IH]; cbn; mono.
Qed.

#[local] Hint Resolve monotone_for_members : mono.

Lemma monotone_teams_loop fuel base_url page :
  monotone (teams_loop server fuel base_url page).
Proof.
  revert page. induction fuel as [|fuel IH]; intros page; cbn; mono.
Qed.

#[local] Hint Resolve monotone_teams_loop : mono.

Lemma monotone_process_teams fuel : monotone (_process_teams server fuel).
Proof.
  unfold _process_teams. mono.
Qed.

#[local] Hint Resolve monotone_process_teams : mono.

Lemma monotone_add_submission_node sub counter :
  monotone (_add_submission_node local_utcoffset sub counter).
Proof. unfold _add_submission_node. mono. Qed.

#[local] Hint Resolve monotone_add_submission_node : mono.

Lemma monotone_for_submissions subs counter processed :
  monotone (for_submissions local_utcoffset subs counter processed).
Proof.
  revert counter processed.
  induction subs as [|sub rest IH]; intros counter processed; cbn; mono.
Qed.

#[local] Hint Resolve monotone_for_submissions : mono.

Lemma monotone_submissions_loop fuel base_url before counter :
  monotone (submissions_loop server local_utcoffset fuel base_url before counter).
Proof.
  revert before counter.
  induction fuel as [|fuel IH]; intros before counter; cbn; mono.
Qed.

#[local] Hint Resolve monotone_submissions_loop : mono.

Lemma monotone_process_submissions fuel :
  monotone (_process_submissions server local_utcoffset fuel).
Proof.
  unfold _process_submissions. mono.
Qed.

#[local] Hint Resolve monotone_process_submissions : mono.

Lemma monotone_add_finalized_node now : monotone (_add_finalized_node now).
Proof. unfold _add_finalized_node. mono. Qed.

#[local] Hint Resolve monotone_add_finalized_node : mono.

Lemma monotone_save_xml path : monotone (_save_xml path).
Proof. unfold _save_xml. mono. Qed.

#[local] Hint Resolve monotone_save_xml : mono.

End Trace.

#[global] Hint Resolve monotone_safe_request monotone_SubElement_root
  monotone_SubElement_last monotone_process_exam_info
  monotone_add_static_nodes monotone_for_problems monotone_process_problems
  monotone_add_team_node monotone_for_members monotone_teams_loop
  monotone_process_teams monotone_add_submission_node
  monotone_for_submissions monotone_submissions_loop
  monotone_process_submissions monotone_add_finalized_node
  monotone_save_xml : mono.

(** ** Selection and the entry point *)

Section EntryPoint.

Variable server : list request -> request -> transport.
Variable local_utcoffset : Z -> Z.

(** The steps of [generate_contest_xml] that follow the metadata
    request never take back a request. *)
Lemma monotone_generation_steps fuel now output_path :
  monotone
    (_add_static_nodes ;;
     _process_problems server ;;
     _process_teams server fuel ;;
     _process_submissions server local_utcoffset fuel ;;
     _add_finalized_node now ;;
     _save_xml output_path ;;
     ret output_path).
Proof. mono. Qed.

Lemma select_problem_set_self problem_set_id st :
  self (select_problem_set server problem_set_id st).2
    = set_selected_problem_set_id (Some problem_set_id) (self st).
Proof.
  unfold select_problem_set, bind, update_self, ret.
  match goal with
  | |- context [_safe_request ?s ?u ?p ?x] =>
      destruct (safe_request_sends s u p x) as [_ Hs];
      destruct (_safe_request s u p x) as [[a|e'|] st1]
  end; exact Hs.
Qed.

(** What follows a computation that sends exactly [req] can only add
    to the trace. *)
Lemma first_request_bind {A B} (c : M A) (k : A -> M B) st req :
  requests (outside (c st).2) = requests (outside st) ++ [req] ->
  (forall a, monotone (k a)) ->
  exists rest,
    requests (outside (bind c k st).2) = requests (outside st) ++ req :: rest.
Proof.
  intros Hc Hk. unfold bind.
  destruct (c st) as [[a|e|] st1]; cbn in Hc.
  - destruct (Hk a st1) as [rest Hrest]. exists rest.
    rewrite Hrest, Hc. by rewrite <-app_assoc.
  - exists []. exact Hc.
  - exists []. exact Hc.
Qed.

(** C8. With no problem set selected, [generate_contest_xml] raises a
    [ValueError] at once: the generator and the world are left exactly
    as they were, so no request has been sent and nothing was written. *)
Theorem generate_requires_selection fuel now output_path st :
  selected_problem_set_id (self st) = None ->
  generate_contest_xml server local_utcoffset fuel now output_path st
    = (Raise (ValueError "请先选择题目集"), st).
Proof.
  intros Hsel. unfold generate_contest_xml, bind, get_self. by rewrite Hsel.
Qed.

(** C10. [select_problem_set] stores the id before it probes: when the
    probe raises, the id is still selected, and a later
    [generate_contest_xml] gets past the selection check and sends its
    first request, the problem-set detail of the unvalidated id. *)
Theorem select_keeps_unvalidated_id problem_set_id st e st' :
  select_problem_set server problem_set_id st = (Raise e, st') ->
  problem_set_id <> "" ->
  selected_problem_set_id (self st') = Some problem_set_id
  /\ forall fuel now output_path,
       exists rest,
         requests
           (outside
              (generate_contest_xml server local_utcoffset fuel now
                 output_path st').2)
         = requests (outside st')
           ++ {| url := "https://pintia.cn/api/problem-sets/" +:+ problem_set_id;
                 params := [] |} :: rest.
Proof.
  intros Hsel Hne.
  assert (self st' = set_selected_problem_set_id (Some problem_set_id) (self st))
    as Hself.
  { pose proof (select_problem_set_self problem_set_id st) as H.
    by rewrite Hsel in H. }
  assert (selected_problem_set_id (self st') = Some problem_set_id) as Hid
    by (by rewrite Hself).
  split; [exact Hid|].
  intros fuel now output_path.
  unfold generate_contest_xml.
  rewrite (bind_Return get_self _ st' (self st') st' eq_refl).
  cbv beta. rewrite Hid.
  destruct problem_set_id as [|c s]; [done|]. cbn [PyStr.truthy negb].
  set (st1 := {| self := set_contest_root (Some (ET.new "contest")) (self st');
                 outside := outside st' |}).
  rewrite (bind_Return _init_xml_structure _ st' tt st1 eq_refl).
  unfold _process_exam_info. rewrite bind_assoc.
  rewrite (bind_Return get_self _ st1 (self st1) st1 eq_refl).
  rewrite bind_assoc.
  assert (selected_problem_set_id (self st1) = Some (String c s)) as ->
    by exact Hid.
  cbn [PyStr.str_opt].
  match goal with
  | |- context [bind (_safe_request server ?u []) ?k st1] =>
      apply (first_request_bind (_safe_request server u []) k st1
               {| url := u; params := [] |})
  end.
  - apply safe_request_sends.
  - intros data. unfold parse_time.
    pose proof (monotone_generation_steps fuel now output_path). mono.
Qed.

End EntryPoint.

(** ** The status table *)

Lemma status_vocabulary_injective :
  Forall (fun s1 =>
    Forall (fun s2 => result_acronym s1 = result_acronym s2 -> s1 = s2)
      status_vocabulary) status_vocabulary.
Proof.
  apply (bool_decide_unpack _). vm_compute. exact I.
Qed.

(** C5. [result_map] has eleven keys, all different; two statuses of
    that vocabulary with the same acronym are the same status; every
    status of the vocabulary gets the acronym the table lists for it,
    and every status outside it gets ["WA"]. *)
Theorem status_mapping_complete :
  length status_vocabulary = 11%nat
  /\ NoDup status_vocabulary
  /\ (forall s1 s2,
        s1 ∈ status_vocabulary -> s2 ∈ status_vocabulary ->
        result_acronym s1 = result_acronym s2 -> s1 = s2)
  /\ (forall s a, (s, a) ∈ result_map_items -> result_acronym s = a)
  /\ (forall s, s ∉ status_vocabulary -> result_acronym s = "WA").
Proof.
  assert (NoDup status_vocabulary) as Hnd.
  { apply (bool_decide_unpack _). vm_compute. exact I. }
  split_and!.
  - reflexivity.
  - exact Hnd.
  - intros s1 s2 H1 H2.
    pose proof status_vocabulary_injective as Hinj.
    rewrite Forall_forall in Hinj. specialize (Hinj s1 H1).
    rewrite Forall_forall in Hinj. exact (Hinj s2 H2).
  - intros s a Hin. unfold result_acronym, result_map.
    by rewrite (elem_of_list_to_map_1 _ _ _ Hnd Hin).
  - intros s Hnot. unfold result_acronym, result_map.
    by rewrite (not_elem_of_list_to_map_1 _ _ Hnot).
Qed.

(** ** Building the document *)

Lemma SubElement_root_Some child st root :
  contest_root (self st) = Some root ->
  SubElement_root child st = (Return tt, with_root (ET.append root child) st).
Proof.
  intros H. unfold SubElement_root, bind, get_self. by rewrite H.
Qed.

Lemma on_last_append f root child :
  ET.on_last f (ET.append root child) = ET.append root (f child).
Proof.
  destruct root as [t tx tl cs]. cbn.
  by rewrite reverse_snoc, reverse_involutive.
Qed.

Lemma SubElement_last_append cs st root node :
  contest_root (self st) = Some (ET.append root node) ->
  SubElement_last cs st
    = (Return tt, with_root (ET.append root (ET.extend node cs)) st).
Proof.
  intros H. unfold SubElement_last, update_self, with_root.
  rewrite H. unfold fmap, option_fmap, option_map.
  by rewrite on_last_append.
Qed.

Lemma append_extend root cs child :
  ET.append (ET.extend root cs) child = ET.extend root (cs ++ [child]).
Proof. destruct root. cbn. by rewrite <-app_assoc. Qed.

Lemma extend_nil root : ET.extend root [] = root.
Proof. destruct root. cbn. by rewrite app_nil_r. Qed.

Lemma extend_extend root cs1 cs2 :
  ET.extend (ET.extend root cs1) cs2 = ET.extend root (cs1 ++ cs2).
Proof. destruct root. cbn. by rewrite <-app_assoc. Qed.

Lemma append_as_extend root child : ET.append root child = ET.extend root [child].
Proof. by destruct root. Qed.

Lemma appended_extend root cs : appended root (ET.extend root cs) = cs.
Proof.
  destruct root as [t tx tl cs0]. unfold appended. cbn.
  by rewrite drop_app_length.
Qed.

(** ** Problems *)

Lemma chr_in_range n :
  0 <= n < 1114112 -> is_Some (PyStr.chr n).
Proof.
  intros [H0 H1]. unfold PyStr.chr.
  assert ((n <? 0) = false) as -> by lia.
  assert ((n <? 1114112) = true) as -> by lia.
  repeat case_match; eauto.
Qed.

Lemma chr_uppercase (i : nat) :
  (i < 26)%nat -> uppercase_letters !! i = PyStr.chr (65 + Z.of_nat i).
Proof.
  intros Hi.
  do 26 (destruct i as [|i]; [reflexivity|]). lia.
Qed.

Lemma for_problems_nodes problems : forall (idx : nat) st root,
  contest_root (self st) = Some root ->
  Z.of_nat (idx + length problems) <= 1114047 ->
  exists st',
    for_problems problems (Z.of_nat idx) st = (Return tt, st')
    /\ outside st' = outside st
    /\ contest_root (self st')
       = Some (ET.extend root
                 (imap (fun i _ =>
                          problem_node (PyStr.str (Z.of_nat (idx + i) + 1))
                            (problem_letter (idx + i)))
                    problems)).
Proof.
  induction problems as [|p rest IH]; intros idx st root Hroot Hlen.
  - exists st. cbn. by rewrite extend_nil.
  - cbn [for_problems length] in *.
    destruct (chr_in_range (65 + Z.of_nat idx)) as [letter Hletter]; [lia|].
    rewrite Hletter.
    rewrite bind_update_self.
    match goal with
    | |- context [bind _ _ ?s] => set (st1 := s)
    end.
    rewrite (bind_Return (SubElement_root _) _ st1 tt _
               (SubElement_root_Some _ st1 root Hroot)).
    replace (Z.of_nat idx + 1) with (Z.of_nat (S idx)) by lia.
    edestruct (IH (S idx)) as (st' & Hrun & Hout & Hdoc);
      [ | | exists st'; split; [exact Hrun|split; [exact Hout|]]].
    + reflexivity.
    + lia.
    + rewrite Hdoc. f_equal. rewrite append_as_extend, extend_extend.
      f_equal. cbn [imap app]. f_equal.
      * unfold problem_letter. rewrite Nat.add_0_r, Hletter. cbn.
        by replace (Z.of_nat (S idx)) with (Z.of_nat idx + 1) by lia.
      * apply imap_ext. intros i x _. cbn.
        by replace (idx + S i)%nat with (S idx + i)%nat by lia.
Qed.

Section Problems.

Variable server : list request -> request -> transport.

(** C6, as amended. When the listing request returns [N] problems, the
    document gains [N] problem nodes in the listing's order; the node at
    position [i] (from 0) has id [str(i + 1)], as letter the character
    of code point [65 + i], and the name ["Problem <letter>"]. For the
    first twenty-six problems that letter is the upper-case letter of
    the same rank. *)
Theorem problems_numbered_and_lettered st data st1 root :
  contest_root (self st) = Some root ->
  _safe_request server
    ("https://pintia.cn/api/problem-sets/"
     +:+ PyStr.str_opt (selected_problem_set_id (self st))
     +:+ "/preview/problems")
    [("problem_type", "PROGRAMMING"); ("page", "0"); ("limit", "500")] st
    = (Return data, st1) ->
  let problems := default [] (problemSetProblems data) in
  Z.of_nat (length problems) <= 1114047 ->
  exists st2 root2,
    _process_problems server st = (Return tt, st2)
    /\ contest_root (self st2) = Some root2
    /\ length (appended root root2) = length problems
    /\ forall i : nat, (i < length problems)%nat ->
         exists letter,
           PyStr.chr (65 + Z.of_nat i) = Some letter
           /\ appended root root2 !! i
              = Some (ET.Element "problem" None None
                        [ET.leaf "id" (Some (PyStr.str (Z.of_nat i + 1)));
                         ET.leaf "letter" (Some letter);
                         ET.leaf "name" (Some ("Problem " +:+ letter))])
           /\ ((i < 26)%nat -> uppercase_letters !! i = Some letter).
Proof.
  intros Hroot Hreq problems Hlen.
  destruct (safe_request_sends server
              ("https://pintia.cn/api/problem-sets/"
               +:+ PyStr.str_opt (selected_problem_set_id (self st))
               +:+ "/preview/problems")
              [("problem_type", "PROGRAMMING"); ("page", "0"); ("limit", "500")]
              st) as [_ Hself].
  rewrite Hreq in Hself. cbn [snd] in Hself.
  destruct (for_problems_nodes problems 0 st1 root) as (st2 & Hrun & _ & Hdoc).
  { by rewrite Hself. }
  { exact Hlen. }
  eexists st2, _. split_and!.
  - unfold _process_problems. rewrite bind_get_self.
    rewrite (bind_Return _ _ _ _ _ Hreq). exact Hrun.
  - exact Hdoc.
  - by rewrite appended_extend, length_imap.
  - intros i Hi. rewrite appended_extend.
    destruct (chr_in_range (65 + Z.of_nat i)) as [letter Hletter]; [lia|].
    exists letter. split_and!.
    + exact Hletter.
    + destruct (lookup_lt_is_Some_2 problems i Hi) as [p Hp].
      rewrite list_lookup_imap, Hp. cbn. unfold problem_letter.
      by rewrite Hletter.
    + intros H26. by rewrite chr_uppercase.
Qed.

End Problems.

(** A listing of 27 problems: the last one gets ["["], which is no
    upper-case letter. *)
Lemma problem_27_has_no_uppercase_letter :
  let server := fun _ _ => Sample.ok (Sample.listing 27) in
  let st := (_process_problems server Sample.selected).2 in
  exists root,
    contest_root (self st) = Some root
    /\ ET.text <$> (ET.findall ["problem"; "letter"] root !! 26%nat)
       = Some (Some "[")
    /\ "[" ∉ uppercase_letters.
Proof.
  eexists. split; [vm_compute; reflexivity|]. split.
  - vm_compute. reflexivity.
  - apply (bool_decide_unpack _). vm_compute. exact I.
Qed.

Lemma problems_numbered_and_lettered_witness :
  exists st2 root2,
    _process_problems (fun _ _ => Sample.ok (Sample.listing 3)) Sample.selected
      = (Return tt, st2)
    /\ contest_root (self st2) = Some root2
    /\ length (appended (ET.new "contest") root2) = 3%nat
    /\ forall i : nat, (i < 3)%nat ->
         exists letter,
           PyStr.chr (65 + Z.of_nat i) = Some letter
           /\ appended (ET.new "contest") root2 !! i
              = Some (ET.Element "problem" None None
                        [ET.leaf "id" (Some (PyStr.str (Z.of_nat i + 1)));
                         ET.leaf "letter" (Some letter);
                         ET.leaf "name" (Some ("Problem " +:+ letter))])
           /\ ((i < 26)%nat -> uppercase_letters !! i = Some letter).
Proof.
  apply (problems_numbered_and_lettered
           (fun _ _ => Sample.ok (Sample.listing 3)) Sample.selected
           (Sample.listing 3)
           {| self := self Sample.selected;
              outside :=
                sent {| url := "https://pintia.cn/api/problem-sets/42/preview/problems";
                        params := [("problem_type", "PROGRAMMING");
                                   ("page", "0"); ("limit", "500")] |}
                  Sample.world0 |}).
  - reflexivity.
  - reflexivity.
  - cbn. lia.
Defined.

(** ** Contest metadata *)

Example duration_str_5400 : duration_str 5400 = "1:30:00".
Proof. reflexivity. Qed.

Example duration_str_7200 : duration_str 7200 = "2:00:00".
Proof. reflexivity. Qed.

(** For a duration that is not negative, [duration_str] splits it into
    hours, minutes below 60 and seconds below 60. *)
Lemma duration_str_parts d :
  0 <= d ->
  exists h m s,
    d = 3600 * h + 60 * m + s /\ 0 <= h /\ 0 <= m < 60 /\ 0 <= s < 60
    /\ duration_str d
       = PyStr.str h +:+ ":" +:+ PyStr.fmt_02d m +:+ ":" +:+ PyStr.fmt_02d s.
Proof.
  intros Hd. exists (d / 60 / 60), ((d / 60) mod 60), (d mod 60).
  pose proof (Z.div_mod d 60 ltac:(lia)).
  pose proof (Z.div_mod (d / 60) 60 ltac:(lia)).
  pose proof (Z.mod_pos_bound d 60 ltac:(lia)).
  pose proof (Z.mod_pos_bound (d / 60) 60 ltac:(lia)).
  assert (0 <= d / 60) by (apply Z.div_pos; lia).
  assert (0 <= d / 60 / 60) by (apply Z.div_pos; lia).
  split_and!; try lia. reflexivity.
Qed.

Section ExamInfo.

Variable server : list request -> request -> transport.
Variable local_utcoffset : Z -> Z.

(** C1, as amended. When the detail request returns and both timestamps
    parse, [_process_exam_info] appends an [info] node whose [length] is
    the H:MM:SS text of the resolved duration: the explicit [duration]
    when it is positive; otherwise [end - start] in whole seconds,
    whatever its sign; and 18000 only when that subtraction raises
    (one timestamp has a UTC offset and the other has none). *)
Theorem exam_info_duration st data st1 root start_dt end_dt :
  contest_root (self st) = Some root ->
  _safe_request server
    ("https://pintia.cn/api/problem-sets/"
     +:+ PyStr.str_opt (selected_problem_set_id (self st))) [] st
    = (Return data, st1) ->
  let problem_set := default empty_problem_set (problemSet data) in
  parsed_time (ps_startAt problem_set) = Some start_dt ->
  parsed_time (ps_endAt problem_set) = Some end_dt ->
  let explicit := default 0 (ps_duration problem_set) in
  let resolved :=
    if 0 <? explicit then explicit
    else match Dt.sub end_dt start_dt with
         | Some delta => Z.quot delta 1000000
         | None => 18000
         end in
  exists st2 info,
    _process_exam_info server local_utcoffset st = (Return tt, st2)
    /\ contest_root (self st2) = Some (ET.append root info)
    /\ ET.tag info = "info"
    /\ ET.find ["length"] info
       = Some (ET.leaf "length" (Some (duration_str resolved)))
    /\ (Dt.sub end_dt start_dt = None
        <-> (Dt.utcoffset start_dt = None <-> Dt.utcoffset end_dt <> None)).
Proof.
  intros Hroot Hreq problem_set Hstart Hend explicit resolved.
  destruct (safe_request_sends server
              ("https://pintia.cn/api/problem-sets/"
               +:+ PyStr.str_opt (selected_problem_set_id (self st))) [] st)
    as [_ Hself].
  rewrite Hreq in Hself. cbn [snd] in Hself.
  assert (forall f d, parsed_time f = Some d -> forall st', parse_time f st' = (Return d, st'))
    as Hparse.
  { intros [| |d'] d Hd st'; cbn in *; by simplify_eq. }
  eexists _, _. split_and!.
  - unfold _process_exam_info. rewrite bind_get_self.
    rewrite (bind_Return _ _ _ _ _ Hreq). rewrite bind_update_self.
    match goal with |- context [bind _ _ ?s] => set (st1' := s) end.
    assert (contest_root (self st1') = Some root) as Hroot1
      by (subst st1'; cbn; by rewrite Hself).
    rewrite (bind_Return _ _ _ _ _ (SubElement_root_Some _ st1' root Hroot1)).
    fold problem_set.
    rewrite (bind_Return _ _ _ _ _ (Hparse _ _ Hstart _)).
    rewrite (bind_Return _ _ _ _ _ (Hparse _ _ Hend _)).
    rewrite bind_update_self.
    rewrite (SubElement_last_append _ _ root (ET.new "info")); [reflexivity|].
    reflexivity.
  - reflexivity.
  - reflexivity.
  - cbn. do 4 f_equal. unfold exam_duration_sec. fold explicit. subst resolved.
    unfold Dt.int_total_seconds.
    destruct (Z.ltb_spec 0 explicit), (Z.leb_spec explicit 0); try lia; done.
  - unfold Dt.sub.
    destruct (Dt.utcoffset start_dt), (Dt.utcoffset end_dt);
      intuition congruence.
Qed.

End ExamInfo.

(** With neither a duration nor timestamps in the detail, the explicit
    duration is 0 and so is the computed difference, yet the length is
    ["0:00:00"], not the five hours of the default. *)
Lemma nonpositive_difference_is_not_defaulted :
  let server := fun _ _ => Sample.ok (Sample.detail Absent Absent None) in
  let st := (_process_exam_info server (fun _ => 0) Sample.selected).2 in
  ET.text <$> (contest_root (self st) ≫= ET.find ["info"; "length"])
    = Some (Some "0:00:00")
  /\ "0:00:00" <> duration_str 18000.
Proof. split; [vm_compute; reflexivity | discriminate]. Qed.

Lemma exam_info_duration_witness :
  exists st2 info,
    _process_exam_info
      (fun _ _ =>
         Sample.ok
           (Sample.detail (Parsed (Sample.utc 1000)) (Parsed (Sample.utc 8200))
              (Some 0)))
      (fun _ => 0) Sample.selected
      = (Return tt, st2)
    /\ contest_root (self st2) = Some (ET.append (ET.new "contest") info)
    /\ ET.tag info = "info"
    /\ ET.find ["length"] info = Some (ET.leaf "length" (Some "2:00:00"))
    /\ (Dt.sub (Sample.utc 8200) (Sample.utc 1000) = None
        <-> (Dt.utcoffset (Sample.utc 1000) = None
             <-> Dt.utcoffset (Sample.utc 8200) <> None)).
Proof.
  apply (exam_info_duration
           (fun _ _ =>
              Sample.ok
                (Sample.detail (Parsed (Sample.utc 1000))
                   (Parsed (Sample.utc 8200)) (Some 0)))
           (fun _ => 0) Sample.selected
           (Sample.detail (Parsed (Sample.utc 1000)) (Parsed (Sample.utc 8200))
              (Some 0))
           {| self := self Sample.selected;
              outside :=
                sent {| url := "https://pintia.cn/api/problem-sets/42";
                        params := [] |} Sample.world0 |}
           (ET.new "contest") (Sample.utc 1000) (Sample.utc 8200));
    reflexivity.
Defined.

(** ** Submissions *)

Section Submissions.

Variable server : list request -> request -> transport.
Variable local_utcoffset : Z -> Z.

Lemma rel_time_sec_max time_diff :
  rel_time_sec time_diff = Z.max 0 (time_diff ÷ 1000000).
Proof.
  unfold rel_time_sec, Dt.int_total_seconds. cbv zeta.
  destruct (Z.ltb_spec (time_diff ÷ 1000000) 0); lia.
Qed.

(** C3. A submission that produces a run node gets a [time] that is
    never negative: it is the whole seconds from the contest start to
    the submission, and 0 when the submission precedes the start. *)
Theorem run_time_never_negative sub counter st st' problem_conf :
  label_map (self st) !! problemSetProblemId sub = Some problem_conf ->
  _add_submission_node local_utcoffset sub counter st = (Return tt, st') ->
  exists root run submit_at contest_start time_diff t,
    contest_root (self st) = Some root
    /\ contest_root (self st') = Some (ET.append root run)
    /\ ET.tag run = "run"
    /\ submitAt sub = Parsed submit_at
    /\ contest_start_dt (self st) = Some contest_start
    /\ Dt.sub submit_at contest_start = Some time_diff
    /\ ET.find ["time"] run = Some (ET.leaf "time" (Some (PyStr.str t)))
    /\ 0 <= t
    /\ (time_diff < 0 -> t = 0)
    /\ (0 <= time_diff -> t = time_diff / 1000000).
Proof.
  intros Hconf Hrun.
  unfold _add_submission_node in Hrun. rewrite bind_get_self, Hconf in Hrun.
  destruct (submitAt sub) as [| |submit_at] eqn:Hat; [done..|].
  rewrite (bind_Return (ret submit_at) _ st submit_at st eq_refl) in Hrun.
  destruct (contest_start_dt (self st)) as [contest_start|] eqn:Hstart; [|done].
  rewrite (bind_Return (ret contest_start) _ st contest_start st eq_refl) in Hrun.
  destruct (Dt.sub submit_at contest_start) as [time_diff|] eqn:Hdiff; [|done].
  rewrite (bind_Return (ret time_diff) _ st time_diff st eq_refl) in Hrun.
  destruct (contest_root (self st)) as [root|] eqn:Hroot.
  2: { unfold SubElement_root in Hrun. rewrite bind_get_self, Hroot in Hrun.
       done. }
  rewrite (SubElement_root_Some _ st root Hroot) in Hrun.
  injection Hrun as <-.
  eexists root, _, submit_at, contest_start, time_diff, (rel_time_sec time_diff).
  split_and!; try reflexivity; try assumption.
  - rewrite rel_time_sec_max. lia.
  - intros Hneg. rewrite rel_time_sec_max.
    pose proof (Z.quot_opp_l time_diff 1000000 ltac:(lia)).
    pose proof (Z.quot_pos (- time_diff) 1000000 ltac:(lia) ltac:(lia)).
    lia.
  - intros Hpos. rewrite rel_time_sec_max.
    rewrite Z.quot_div_nonneg by lia.
    pose proof (Z.div_pos time_diff 1000000 Hpos ltac:(lia)).
    lia.
Qed.

(** A submission for a problem that is not in the lookup changes
    nothing. *)
Lemma add_submission_node_unknown sub counter st :
  label_map (self st) !! problemSetProblemId sub = None ->
  _add_submission_node local_utcoffset sub counter st = (Return tt, st).
Proof.
  intros Hnone. unfold _add_submission_node. by rewrite bind_get_self, Hnone.
Qed.

(** Only the [id] of a run node depends on the counter. *)
Lemma run_node_counter sub c1 c2 problem_conf submit_at time_diff :
  ET.children (run_node sub c1 problem_conf submit_at local_utcoffset time_diff)
    !! 0%nat = Some (ET.leaf "id" (Some (PyStr.str c1)))
  /\ drop 1 (ET.children
               (run_node sub c1 problem_conf submit_at local_utcoffset time_diff))
     = drop 1 (ET.children
                 (run_node sub c2 problem_conf submit_at local_utcoffset time_diff)).
Proof. split; reflexivity. Qed.


(** The loop with fuel to spare is one round followed by the loop. *)
Lemma submissions_loop_S fuel base_url before counter :
  submissions_loop server local_utcoffset (S fuel) base_url before counter
  = (data <- _safe_request server base_url
               (("limit", "100") ::
                (if PyStr.truthy before then [("before", default "" before)]
                 else [])) ;;
     match default [] (submissions data) with
     | [] => ret tt
     | first :: _ =>
         counter' <- for_submissions local_utcoffset
                       (default [] (submissions data)) counter 0 ;;
         if default false (hasBefore data) then
           if decide (sub_id (default first (last (default [] (submissions data))))
                      = before)
           then logger WARNING "检测到游标未变化，为防止死循环强制停止抓取"
           else submissions_loop server local_utcoffset fuel base_url
                  (sub_id (default first (last (default [] (submissions data)))))
                  counter'
         else ret tt
     end).
Proof. reflexivity. Qed.


(** More fuel does not change what the loop returns or raises. *)
Lemma submissions_loop_fuel_mono fuel : forall base_url before counter st,
  (submissions_loop server local_utcoffset fuel base_url before counter st).1
    <> Diverge ->
  submissions_loop server local_utcoffset (S fuel) base_url before counter st
    = submissions_loop server local_utcoffset fuel base_url before counter st.
Proof.
  induction fuel as [|fuel IH]; intros base_url before counter st Hnd; [done|].
  rewrite (submissions_loop_S (S fuel)).
  rewrite (submissions_loop_S fuel) in Hnd |- *.
  unfold bind in *.
  destruct (_safe_request server base_url _ st) as [[data|e|] st1]; [|done..].
  destruct (default [] (submissions data)) as [|first rest]; [done|].
  destruct (for_submissions local_utcoffset (first :: rest) counter 0 st1)
    as [[counter'|e|] st2]; [|done..].
  destruct (default false (hasBefore data)); [|done].
  destruct (decide _); [done|].
  by apply IH.
Qed.

End Submissions.

Lemma run_time_never_negative_witness :
  let early := Sample.sub "s1" "pA" "ACCEPTED" 900 in
  exists root run submit_at contest_start time_diff t,
    contest_root (self Sample.listed) = Some root
    /\ contest_root
         (self (_add_submission_node (fun _ => 0) early 1 Sample.listed).2)
       = Some (ET.append root run)
    /\ ET.tag run = "run"
    /\ submitAt early = Parsed submit_at
    /\ contest_start_dt (self Sample.listed) = Some contest_start
    /\ Dt.sub submit_at contest_start = Some time_diff
    /\ ET.find ["time"] run = Some (ET.leaf "time" (Some (PyStr.str t)))
    /\ 0 <= t
    /\ (time_diff < 0 -> t = 0)
    /\ (0 <= time_diff -> t = time_diff / 1000000).
Proof.
  intros early.
  apply (run_time_never_negative (fun _ => 0) early 1 Sample.listed
           (_add_submission_node (fun _ => 0) early 1 Sample.listed).2
           {| xml_id := "1"; letter := "A" |});
    reflexivity.
Defined.




(** On the stuck service the whole of [_process_submissions] returns
    after two requests, for any fuel from two up. *)
Lemma process_submissions_stuck_service fuel :
  exists st2,
    _process_submissions Sample.stuck_service (fun _ => 0) (S (S fuel))
      Sample.listed = (Return tt, st2)
    /\ length (requests (outside st2)) = 2%nat
    /\ log (outside st2)
       = [(WARNING, "检测到游标未变化，为防止死循环强制停止抓取")].
Proof.
  assert (forall n,
            _process_submissions Sample.stuck_service (fun _ => 0) (S (S n))
              Sample.listed
            = _process_submissions Sample.stuck_service (fun _ => 0) 2
                Sample.listed) as Hfuel.
  { induction n as [|n IH]; [reflexivity|]. rewrite <-IH.
    unfold _process_submissions. rewrite !bind_get_self.
    apply submissions_loop_fuel_mono.
    fold (_process_submissions Sample.stuck_service (fun _ => 0) (S (S n))
            Sample.listed) in IH.
    unfold _process_submissions in IH. rewrite bind_get_self in IH.
    rewrite IH. vm_compute. discriminate. }
  rewrite Hfuel.
  exists (_process_submissions Sample.stuck_service (fun _ => 0) 2
            Sample.listed).2.
  split_and!; vm_compute; reflexivity.
Qed.

(** The guard compares the last id of a page with the cursor of that
    page only. Against a service whose pages never repeat their last id
    and always announce more, the loop goes on for as long as it is
    given fuel. *)
Lemma alternating_service_keeps_going fuel : forall before counter st,
  label_map (self st) !! Some "gone" = None ->
  before = None \/ before = Some "a" \/ before = Some "b" ->
  (submissions_loop Sample.alternating_service (fun _ => 0) fuel
     "https://pintia.cn/api/problem-sets/42/submissions" before counter st).1
  = Diverge.
Proof.
  induction fuel as [|fuel IH]; intros before counter st Hgone Hbefore;
    [reflexivity|].
  set (url := "https://pintia.cn/api/problem-sets/42/submissions").
  set (params :=
         ("limit", "100") ::
         (if PyStr.truthy before then [("before", default "" before)] else [])).
  destruct (safe_request_sends Sample.alternating_service url params st)
    as [_ Hself].
  assert (exists last_id,
            (last_id = "a" \/ last_id = "b") /\ Some last_id <> before
            /\ (_safe_request Sample.alternating_service url params st).1
               = Return (Sample.page [Sample.sub last_id "gone" "ACCEPTED"
                                        (if decide (last_id = "a") then 1300 else 1600)]
                           true))
    as (last_id & Hid & Hne & Hpage).
  { destruct Hbefore as [->|[->| ->]].
    - exists "a". split_and!; [by left|done|reflexivity].
    - exists "b". split_and!; [by right|done|reflexivity].
    - exists "a". split_and!; [by left|done|reflexivity]. }
  destruct (_safe_request Sample.alternating_service url params st)
    as [r st1] eqn:Hreq.
  cbn [fst snd] in Hpage, Hself. subst r.
  set (s := Sample.sub last_id "gone" "ACCEPTED" (if decide (last_id = "a") then 1300 else 1600)).
  assert (for_submissions (fun _ => 0) [s] counter 0 st1
          = (Return (counter + 1), st1)) as Hsubs.
  { cbn [for_submissions].
    rewrite (bind_Return _ _ _ _ _
               (add_submission_node_unknown (fun _ => 0) s counter st1
                  ltac:(by rewrite Hself))).
    reflexivity. }
  rewrite submissions_loop_S.
  rewrite (bind_Return _ _ _ _ _ Hreq).
  cbn [Sample.page submissions hasBefore default from_option id].
  rewrite (bind_Return _ _ _ _ _ Hsubs).
  cbn [last Sample.sub sub_id default from_option id].
  destruct (decide (Some last_id = before)); [done|].
  apply IH; [by rewrite Hself|].
  destruct Hid as [->| ->]; auto.
Qed.

(** ** The clock *)

Lemma bind_modulo_finalized_timestamp {A B} (c : M A) (k1 k2 : A -> M B) st :
  (forall a st',
     modulo_finalized_timestamp (k1 a st') = modulo_finalized_timestamp (k2 a st')) ->
  modulo_finalized_timestamp (bind c k1 st)
    = modulo_finalized_timestamp (bind c k2 st).
Proof.
  intros Hk. unfold bind. destruct (c st) as [[a|e|] st']; [apply Hk|done..].
Qed.

Lemma indent_root_append root child :
  ET._indent 0 (ET.append root child)
  = ET.Element (ET.tag root)
      (if PyStr.blank (ET.text root) then Some (PyStr.newline +:+ "  ")
       else ET.text root)
      (if PyStr.blank (ET.tail root) then Some PyStr.newline else ET.tail root)
      (map (ET._indent 1) (ET.children root) ++ [ET._indent 1 child]).
Proof.
  destruct root as [t tx tl cs]. cbn [ET.append ET.tag ET.text ET.tail ET.children].
  rewrite <-map_app with (l' := [child]).
  destruct (cs ++ [child]) as [|c cs'] eqn:Hcs.
  { by destruct cs. }
  cbn [ET._indent]. f_equal.
  destruct (PyStr.blank tl) eqn:Htl; [reflexivity|]. by rewrite Htl.
Qed.

Section Determinism.

Variable server : list request -> request -> transport.
Variable local_utcoffset : Z -> Z.

(** The last two steps of a run, from any state, for two clock
    readings. *)
Lemma finalize_and_save now1 now2 output_path st :
  modulo_finalized_timestamp
    ((_add_finalized_node now1 ;; _save_xml output_path ;; ret output_path) st)
  = modulo_finalized_timestamp
      ((_add_finalized_node now2 ;; _save_xml output_path ;; ret output_path) st).
Proof.
  unfold _add_finalized_node.
  destruct (contest_root (self st)) as [root|] eqn:Hroot.
  2: { rewrite ?bind_assoc.
       assert (forall B (k : unit -> M B),
                 bind (SubElement_root (ET.new "finalized")) k st
                 = (Raise (TypeError
                             "SubElement() argument 1 must be Element, not None"),
                    st)) as Hraise.
       { intros B k. apply bind_Raise. unfold SubElement_root.
         by rewrite bind_get_self, Hroot. }
       by rewrite !Hraise. }
  rewrite ?bind_assoc.
  rewrite !(bind_Return _ _ _ _ _ (SubElement_root_Some _ st root Hroot)).
  rewrite ?bind_assoc.
  set (st1 := with_root (ET.append root (ET.new "finalized")) st).
  rewrite !(bind_Return _ _ _ _ _
              (SubElement_last_append _ st1 root (ET.new "finalized") eq_refl)).
  match goal with |- context [bind _ _ ?s] => set (st2 := s) end.
  rewrite ?bind_assoc, !bind_get_self.
  destruct (contest_root (self st2) ≫= ET.find ["info"; "length"])
    as [length_node|] eqn:Hlen.
  2: { reflexivity. }
  rewrite ?bind_assoc.
  set (fin3 := ET.extend (ET.new "finalized") _) in st2.
  rewrite !(bind_Return _ _ _ _ _
              (SubElement_last_append _ st2 root fin3 eq_refl)).
  rewrite ?bind_assoc.
  match goal with |- context [bind _ _ ?s] => set (st3 := s) end.
  set (fin4 := ET.extend fin3 _) in st3.
  rewrite !(bind_Return _ _ _ _ _
              (SubElement_last_append _ st3 root fin4 eq_refl)).
  unfold _save_xml. rewrite !bind_assoc, !bind_get_self.
  cbn [with_root self contest_root set_contest_root].
  rewrite !bind_assoc, !bind_update_self.
  unfold bind, write_file, update_world, ret, modulo_finalized_timestamp.
  cbn [fst snd self outside contest_root set_contest_root files requests log
       pauses with_root organization region_id selected_problem_set_id
       label_map exam_info contest_start_dt _exam_by_user_id
       _student_user_by_id].
  rewrite !fmap_insert.
  cbn [without_finalized_timestamp_file fmap option_fmap option_map].
  assert (forall now,
            without_finalized_timestamp
              (ET._indent 0
                 (ET.append root
                    (ET.extend fin4 [ET.leaf "timestamp" (Some now)])))
            = without_finalized_timestamp
                (ET._indent 0
                   (ET.append root
                      (ET.extend fin4 [ET.leaf "timestamp" None])))) as Hdoc.
  { intros now. rewrite !indent_root_append.
    unfold without_finalized_timestamp.
    cbn [ET.tag ET.text ET.tail ET.children]. f_equal.
    rewrite !fmap_app. by f_equal. }
  by rewrite (Hdoc now1), (Hdoc now2).
Qed.

(** The clock shows in the timestamp of the finalized node only: two
    runs from the same state, with two readings of the clock, end the
    same way and leave the same generator, files, requests and log,
    once that timestamp is blanked in the documents. *)
Lemma generation_clock_independent fuel now1 now2 output_path st :
  modulo_finalized_timestamp
    (generate_contest_xml server local_utcoffset fuel now1 output_path st)
  = modulo_finalized_timestamp
      (generate_contest_xml server local_utcoffset fuel now2 output_path st).
Proof.
  unfold generate_contest_xml.
  apply bind_modulo_finalized_timestamp. intros g st0.
  destruct (negb _); [reflexivity|].
  do 6 (apply bind_modulo_finalized_timestamp; intros ? ?).
  apply finalize_and_save.
Qed.

End Determinism.

(** ** Running the same generator again *)

Lemma preserves_ret {X A} (V : generator -> X) (a : A) : preserves V (ret a).
Proof. by intros st. Qed.

Lemma preserves_raise {X A} (V : generator -> X) e : preserves V (@raise A e).
Proof. by intros st. Qed.

Lemma preserves_diverge {X A} (V : generator -> X) : preserves V (@diverge A).
Proof. by intros st. Qed.

Lemma preserves_get_self {X} (V : generator -> X) : preserves V get_self.
Proof. by intros st. Qed.

Lemma preserves_bind {X A B} (V : generator -> X) (c : M A) (k : A -> M B) :
  preserves V c -> (forall a, preserves V (k a)) -> preserves V (bind c k).
Proof.
  intros Hc Hk st. unfold bind. specialize (Hc st).
  destruct (c st) as [[a|e|] st']; cbn in *; [|done..].
  by rewrite Hk.
Qed.

Lemma preserves_update_self {X} (V : generator -> X) f :
  (forall g, V (f g) = V g) -> preserves V (update_self f).
Proof. intros Hf st. apply Hf. Qed.

Lemma preserves_update_world {X} (V : generator -> X) f :
  preserves V (update_world f).
Proof. by intros st. Qed.

Lemma preserves_try_except_reraise {X A} (V : generator -> X) (c : M A) h :
  preserves V c -> (forall e, preserves V (h e)) ->
  preserves V (try_except_reraise c h).
Proof.
  intros Hc Hh st. unfold try_except_reraise. specialize (Hc st).
  destruct (c st) as [[a|e|] st']; cbn in *; [done| |done].
  specialize (Hh e st').
  destruct (h e st') as [[?|?|] st'']; cbn in *; congruence.
Qed.

Lemma preserves_safe_request {X} (V : generator -> X) server url params :
  preserves V (_safe_request server url params).
Proof. intros st. f_equal. apply safe_request_sends. Qed.

Lemma preserves_config {A} (c : M A) : preserves frame c -> preserves config c.
Proof. intros H st. specialize (H st). unfold frame in H. congruence. Qed.

Create HintDb pres discriminated.
#[global] Hint Resolve preserves_ret preserves_raise preserves_diverge
  preserves_get_self preserves_update_world preserves_safe_request : pres.

(** Peels binds, matches and conditionals off a [preserves] goal. *)
Ltac pres :=
  repeat first
    [ progress auto with pres
    | apply preserves_bind; [|intros]
    | apply preserves_try_except_reraise; [|intros]
    | apply preserves_update_self; intros; reflexivity
    | match goal with
      | |- preserves _ (logger _ _) => apply preserves_update_world
      | |- preserves _ sleep => apply preserves_update_world
      | |- preserves _ (write_file _ _) => apply preserves_update_world
      | |- preserves _ (match ?x with _ => _ end) => destruct x
      | |- preserves _ (if ?b then _ else _) => destruct b
      | |- preserves _ (let _ := _ in _) => cbv zeta
      end ].

Section Preserved.

Variable server : list request -> request -> transport.
Variable local_utcoffset : Z -> Z.

Lemma preserves_SubElement_root child : preserves frame (SubElement_root child).
Proof. unfold SubElement_root. pres. Qed.

Lemma preserves_SubElement_last cs : preserves frame (SubElement_last cs).
Proof. unfold SubElement_last. pres. Qed.

#[local] Hint Resolve preserves_SubElement_root preserves_SubElement_last : pres.

Lemma preserves_init_xml_structure : preserves frame _init_xml_structure.
Proof. unfold _init_xml_structure. pres. Qed.

Lemma preserves_process_exam_info :
  preserves frame (_process_exam_info server local_utcoffset).
Proof. unfold _process_exam_info, parse_time. pres. Qed.

Lemma preserves_add_static_nodes : preserves frame _add_static_nodes.
Proof. unfold _add_static_nodes. pres. Qed.

Lemma preserves_for_problems problems idx :
  preserves config (for_problems problems idx).
Proof.
  revert idx. induction problems as [|p rest IH]; intros idx; cbn; pres.
Qed.

Lemma preserves_process_problems : preserves config (_process_problems server).
Proof.
  unfold _process_problems. pres. apply preserves_for_problems.
Qed.

Lemma preserves_add_team_node member_data :
  preserves frame (_add_team_node member_data).
Proof. unfold _add_team_node, _get_team_name. pres. Qed.

#[local] Hint Resolve preserves_add_team_node : pres.

Lemma preserves_for_members members : preserves frame (for_members members).
Proof. induction members as [|m rest IH]; cbn; pres. Qed.

#[local] Hint Resolve preserves_for_members : pres.

Lemma preserves_teams_loop fuel base_url page :
  preserves frame (teams_loop server fuel base_url page).
Proof.
  revert page. induction fuel as [|fuel IH]; intros page; cbn; pres.
Qed.

#[local] Hint Resolve preserves_teams_loop : pres.

Lemma preserves_process_teams fuel : preserves frame (_process_teams server fuel).
Proof. unfold _process_teams. pres. Qed.

Lemma preserves_add_submission_node sub counter :
  preserves frame (_add_submission_node local_utcoffset sub counter).
Proof. unfold _add_submission_node. pres. Qed.

#[local] Hint Resolve preserves_add_submission_node : pres.

Lemma preserves_for_submissions subs counter processed :
  preserves frame (for_submissions local_utcoffset subs counter processed).
Proof.
  revert counter processed.
  induction subs as [|sub rest IH]; intros counter processed; cbn; pres.
Qed.

#[local] Hint Resolve preserves_for_submissions : pres.

Lemma preserves_submissions_loop fuel base_url before counter :
  preserves frame
    (submissions_loop server local_utcoffset fuel base_url before counter).
Proof.
  revert before counter.
  induction fuel as [|fuel IH]; intros before counter; cbn; pres.
Qed.

#[local] Hint Resolve preserves_submissions_loop : pres.

Lemma preserves_process_submissions fuel :
  preserves frame (_process_submissions server local_utcoffset fuel).
Proof. unfold _process_submissions. pres. Qed.

Lemma preserves_add_finalized_node now : preserves frame (_add_finalized_node now).
Proof. unfold _add_finalized_node. pres. Qed.

Lemma preserves_save_xml path : preserves frame (_save_xml path).
Proof. unfold _save_xml. pres. Qed.

End Preserved.

Lemma agree_le k k' g g' : (k' <= k)%nat -> agree k g g' -> agree k' g g'.
Proof.
  intros Hle (Hc & H1 & H2 & H3 & H4).
  split_and!; [done|intros; (apply H1 || apply H2 || apply H3 || apply H4); lia..].
Qed.

Lemma simulates_ret {A} k (a : A) : simulates k k (ret a) (ret a).
Proof. intros st st' Hw Hag. by split_and!. Qed.

Lemma simulates_raise {A} k k' e : simulates k k' (@raise A e) (raise e).
Proof. intros st st' Hw Hag. by split_and!. Qed.

Lemma simulates_diverge {A} k k' : simulates k k' (@diverge A) diverge.
Proof. intros st st' Hw Hag. by split_and!. Qed.

Lemma simulates_bind {A B} k k1 k2 (c c' : M A) (f f' : A -> M B) :
  simulates k k1 c c' ->
  (forall a, simulates k1 k2 (f a) (f' a)) ->
  simulates k k2 (bind c f) (bind c' f').
Proof.
  intros Hc Hf st st' Hw Hag. unfold bind.
  destruct (Hc st st' Hw Hag) as (Ho & How & Hret).
  destruct (c st) as [[a|e|] s], (c' st') as [[a'|e'|] s'];
    cbn in *; simplify_eq; try done.
  apply Hf; [done|]. by apply (Hret a').
Qed.

Lemma simulates_get_self {B} k k' (f f' : generator -> M B) :
  (forall g g', agree k g g' -> simulates k k' (f g) (f' g')) ->
  simulates k k' (bind get_self f) (bind get_self f').
Proof.
  intros Hf st st' Hw Hag. rewrite !bind_get_self. by apply Hf.
Qed.

Lemma simulates_update_self k k' f f' :
  (forall g g', agree k g g' -> agree k' (f g) (f' g')) ->
  simulates k k' (update_self f) (update_self f').
Proof.
  intros Hf st st' Hw Hag. split_and!; [done..|].
  intros _ _. by apply Hf.
Qed.

Lemma simulates_update_world k f : simulates k k (update_world f) (update_world f).
Proof.
  intros st st' Hw Hag. split_and!; [done| |done].
  cbn. by rewrite Hw.
Qed.

Lemma safe_request_same_world server url params st st' :
  outside st = outside st' ->
  (_safe_request server url params st).1
    = (_safe_request server url params st').1
  /\ outside (_safe_request server url params st).2
     = outside (_safe_request server url params st').2.
Proof.
  intros Hw. unfold _safe_request, bind, session_get. rewrite Hw.
  destruct (server _ _) as [msg|resp]; cbn; [done|].
  destruct (negb _ || negb _); cbn.
  - destruct (status_code resp =? 401); [done|]. by destruct (negb _).
  - by destruct (json resp).
Qed.

Lemma simulates_safe_request server k url params :
  simulates k k (_safe_request server url params)
    (_safe_request server url params).
Proof.
  intros st st' Hw Hag.
  destruct (safe_request_sends server url params st) as [_ Hs].
  destruct (safe_request_sends server url params st') as [_ Hs'].
  destruct (safe_request_same_world server url params st st' Hw) as [Ho How].
  split_and!; [done..|]. intros _ _. by rewrite Hs, Hs'.
Qed.

Lemma simulates_try_except_reraise {A} k k' (c c' : M A) h :
  simulates k k' c c' ->
  (forall e s s',
     outside s = outside s' ->
     (h e s).1 = (h e s').1 /\ outside (h e s).2 = outside (h e s').2) ->
  simulates k k' (try_except_reraise c h) (try_except_reraise c' h).
Proof.
  intros Hc Hh st st' Hw Hag. unfold try_except_reraise.
  destruct (Hc st st' Hw Hag) as (Ho & How & Hret).
  destruct (c st) as [[a|e|] s], (c' st') as [[a'|e'|] s'];
    cbn in *; simplify_eq; try done.
  destruct (Hh e' s s' How) as (Ho' & How').
  destruct (h e' s) as [[?|?|] t], (h e' s') as [[?|?|] t'];
    cbn in *; simplify_eq; done.
Qed.

(** Closes a goal on [agree] after a field update. *)
Ltac agree_solve :=
  intros; unfold agree, config in *; cbn in *;
  repeat match goal with
         | H : _ /\ _ |- _ => destruct H
         end;
  split_and!; intros;
  repeat match goal with
         | H : (_ <= _)%nat -> _ |- _ =>
             first [specialize (H ltac:(lia)) | clear H]
         | H : _ /\ _ |- _ => destruct H
         end;
  repeat split; try congruence; try lia.

(** Turns the fields of [g'] that [Hag] equates into those of [g]. *)
Ltac use_agree Hag :=
  let Hc := fresh "Hc" in
  let H1 := fresh "H1" in
  let H2 := fresh "H2" in
  let H3 := fresh "H3" in
  let H4 := fresh "H4" in
  pose proof Hag as (Hc & H1 & H2 & H3 & H4);
  unfold config in Hc; injection Hc as Hc ? ?;
  first [specialize (H1 ltac:(lia)) | clear H1];
  first [specialize (H2 ltac:(lia)) | clear H2];
  first [specialize (H3 ltac:(lia)) | clear H3];
  first [specialize (H4 ltac:(lia)); destruct H4 | clear H4];
  repeat match goal with
         | E : ?f ?g = ?f ?g' |- _ => try rewrite <-E; clear E
         end.

(** One step of a simulation at a fixed stage. *)
Ltac sim_step k :=
  first
    [ apply simulates_ret
    | apply simulates_raise
    | apply simulates_diverge
    | apply simulates_safe_request
    | apply simulates_update_world
    | apply (simulates_update_self k k); agree_solve
    | apply (simulates_bind k k k); [|intros ?]
    | match goal with
      | |- simulates _ _ (match ?x with _ => _ end) (match ?x with _ => _ end) =>
          destruct x
      | |- simulates _ _ (if ?b then _ else _) (if ?b then _ else _) =>
          destruct b
      | |- simulates _ _ (let _ := _ in _) _ => cbv zeta
      end ].

Section Simulation.

Variable server : list request -> request -> transport.
Variable local_utcoffset : Z -> Z.

Lemma simulates_SubElement_root k child :
  (1 <= k)%nat -> simulates k k (SubElement_root child) (SubElement_root child).
Proof.
  intros Hk. unfold SubElement_root.
  apply simulates_get_self. intros g g' Hag. use_agree Hag.
  repeat sim_step k.
Qed.

Lemma simulates_SubElement_last k cs :
  (1 <= k)%nat -> simulates k k (SubElement_last cs) (SubElement_last cs).
Proof.
  intros Hk. unfold SubElement_last. repeat sim_step k.
Qed.

Lemma simulates_init_xml_structure :
  simulates 0 1 _init_xml_structure _init_xml_structure.
Proof.
  unfold _init_xml_structure. apply simulates_update_self. agree_solve.
Qed.

Lemma simulates_process_exam_info :
  simulates 1 2 (_process_exam_info server local_utcoffset)
    (_process_exam_info server local_utcoffset).
Proof.
  unfold _process_exam_info, parse_time.
  apply simulates_get_self. intros g g' Hag. use_agree Hag.
  apply (simulates_bind 1 1 2); [sim_step 1|intros data].
  apply (simulates_bind 1 1 2); [sim_step 1|intros _].
  apply (simulates_bind 1 1 2); [by apply simulates_SubElement_root|intros _].
  cbv zeta.
  apply (simulates_bind 1 1 2); [repeat sim_step 1|intros start_dt].
  apply (simulates_bind 1 1 2); [repeat sim_step 1|intros end_dt].
  apply (simulates_bind 1 2 2).
  - apply simulates_update_self. agree_solve.
  - intros _. apply simulates_SubElement_last. lia.
Qed.

Create HintDb sim discriminated.

(** Steps at stage [k], through binds and the self-reading prefix. *)
Ltac sim k :=
  repeat first
    [ solve [auto with sim]
    | apply simulates_SubElement_root; lia
    | apply simulates_SubElement_last; lia
    | match goal with
      | |- simulates _ _ (bind get_self _) (bind get_self _) =>
          let Hag := fresh "Hag" in
          apply simulates_get_self; intros ? ? Hag; use_agree Hag; clear Hag
      end
    | sim_step k
    | match goal with
      | |- simulates _ _ (logger _ _) _ => apply simulates_update_world
      | |- simulates _ _ sleep _ => apply simulates_update_world
      | |- simulates _ _ (write_file _ _) _ => apply simulates_update_world
      end ].

Lemma simulates_add_static_nodes : simulates 2 2 _add_static_nodes _add_static_nodes.
Proof. unfold _add_static_nodes. sim 2%nat. Qed.

Lemma simulates_for_problems problems idx :
  simulates 2 2 (for_problems problems idx) (for_problems problems idx).
Proof.
  revert idx. induction problems as [|p rest IH]; intros idx; cbn; sim 2%nat.
Qed.

#[local] Hint Resolve simulates_for_problems : sim.

Lemma simulates_process_problems :
  simulates 2 2 (_process_problems server) (_process_problems server).
Proof.
  unfold _process_problems. sim 2%nat.
Qed.

Lemma simulates_add_team_node member_data :
  simulates 4 4 (_add_team_node member_data) (_add_team_node member_data).
Proof. unfold _add_team_node, _get_team_name, team_node. sim 4%nat. Qed.

#[local] Hint Resolve simulates_add_team_node : sim.

Lemma simulates_for_members members :
  simulates 4 4 (for_members members) (for_members members).
Proof.
  induction members as [|m rest IH]; cbn; sim 4%nat.
Qed.

#[local] Hint Resolve simulates_for_members : sim.

Lemma simulates_teams_loop fuel base_url page :
  simulates 4 4 (teams_loop server fuel base_url page)
    (teams_loop server fuel base_url page).
Proof.
  revert page. induction fuel as [|fuel IH]; intros page; cbn; sim 4%nat.
Qed.

#[local] Hint Resolve simulates_teams_loop : sim.

Lemma simulates_process_teams fuel :
  simulates 3 4 (_process_teams server fuel) (_process_teams server fuel).
Proof.
  unfold _process_teams.
  apply simulates_get_self. intros g g' Hag. use_agree Hag. cbv zeta.
  apply (simulates_bind 3 4 4).
  - apply simulates_update_self. agree_solve.
  - intros _. apply simulates_try_except_reraise.
    + apply simulates_teams_loop.
    + intros e s s' Hw. cbn. by rewrite Hw.
Qed.

Lemma simulates_add_submission_node sub counter :
  simulates 4 4 (_add_submission_node local_utcoffset sub counter)
    (_add_submission_node local_utcoffset sub counter).
Proof. unfold _add_submission_node. sim 4%nat. Qed.

#[local] Hint Resolve simulates_add_submission_node : sim.

Lemma simulates_for_submissions subs counter processed :
  simulates 4 4 (for_submissions local_utcoffset subs counter processed)
    (for_submissions local_utcoffset subs counter processed).
Proof.
  revert counter processed.
  induction subs as [|sub rest IH]; intros counter processed; cbn; sim 4%nat.
Qed.

#[local] Hint Resolve simulates_for_submissions : sim.

Lemma simulates_submissions_loop fuel base_url before counter :
  simulates 4 4
    (submissions_loop server local_utcoffset fuel base_url before counter)
    (submissions_loop server local_utcoffset fuel base_url before counter).
Proof.
  revert before counter.
  induction fuel as [|fuel IH]; intros before counter; cbn; sim 4%nat.
Qed.

#[local] Hint Resolve simulates_submissions_loop : sim.

Lemma simulates_process_submissions fuel :
  simulates 4 4 (_process_submissions server local_utcoffset fuel)
    (_process_submissions server local_utcoffset fuel).
Proof.
  unfold _process_submissions. sim 4%nat.
Qed.

Lemma simulates_add_finalized_node now :
  simulates 4 4 (_add_finalized_node now) (_add_finalized_node now).
Proof. unfold _add_finalized_node. sim 4%nat. Qed.

Lemma simulates_save_xml path : simulates 4 4 (_save_xml path) (_save_xml path).
Proof. unfold _save_xml. sim 4%nat. Qed.

End Simulation.

Section Repeat.

Variable server : list request -> request -> transport.
Variable local_utcoffset : Z -> Z.

Lemma generate_contest_xml_steps fuel now output_path st :
  generate_contest_xml server local_utcoffset fuel now output_path st
  = if negb (PyStr.truthy (selected_problem_set_id (self st))) then
      (Raise (ValueError "请先选择题目集"), st)
    else
      (steps_before_listing server local_utcoffset ;;
       _process_problems server ;;
       steps_after_listing server local_utcoffset fuel now output_path) st.
Proof.
  unfold generate_contest_xml. rewrite bind_get_self.
  destruct (negb _); [reflexivity|].
  unfold steps_before_listing, steps_after_listing, bind.
  destruct (_init_xml_structure st) as [[[]|?|] s0]; [|done..].
  destruct (_process_exam_info server local_utcoffset s0) as [[[]|?|] s1];
    [|done..].
  by destruct (_add_static_nodes s1) as [[[]|?|] s2].
Qed.

Lemma preserves_steps_before_listing :
  preserves frame (steps_before_listing server local_utcoffset).
Proof.
  unfold steps_before_listing.
  pose proof preserves_init_xml_structure.
  pose proof (preserves_process_exam_info server local_utcoffset).
  pose proof preserves_add_static_nodes.
  pres.
Qed.

Lemma preserves_steps_after_listing fuel now output_path :
  preserves frame
    (steps_after_listing server local_utcoffset fuel now output_path).
Proof.
  unfold steps_after_listing.
  pose proof (preserves_process_teams server fuel).
  pose proof (preserves_process_submissions server local_utcoffset fuel).
  pose proof (preserves_add_finalized_node now).
  pose proof (preserves_save_xml output_path).
  pres.
Qed.

Lemma preserves_generate_contest_xml fuel now output_path :
  preserves config
    (generate_contest_xml server local_utcoffset fuel now output_path).
Proof.
  intros st. rewrite generate_contest_xml_steps.
  destruct (negb _); [reflexivity|].
  pose proof (preserves_config _ preserves_steps_before_listing) as H1.
  pose proof (preserves_process_problems server) as H2.
  pose proof (preserves_config _
                (preserves_steps_after_listing fuel now output_path)) as H3.
  assert (preserves config
            (steps_before_listing server local_utcoffset ;;
             _process_problems server ;;
             steps_after_listing server local_utcoffset fuel now output_path))
    as H by pres.
  apply H.
Qed.

Lemma simulates_steps_before_listing :
  simulates 0 2 (steps_before_listing server local_utcoffset)
    (steps_before_listing server local_utcoffset).
Proof.
  unfold steps_before_listing.
  apply (simulates_bind 0 1 2); [apply simulates_init_xml_structure|intros _].
  apply (simulates_bind 1 2 2); [apply simulates_process_exam_info|intros _].
  apply simulates_add_static_nodes.
Qed.

Lemma simulates_steps_after_listing fuel now output_path :
  simulates 3 4
    (steps_after_listing server local_utcoffset fuel now output_path)
    (steps_after_listing server local_utcoffset fuel now output_path).
Proof.
  unfold steps_after_listing.
  apply (simulates_bind 3 4 4); [apply simulates_process_teams|intros _].
  apply (simulates_bind 4 4 4); [apply simulates_process_submissions|intros _].
  apply (simulates_bind 4 4 4); [apply simulates_add_finalized_node|intros _].
  apply (simulates_bind 4 4 4); [apply simulates_save_xml|intros _].
  apply simulates_ret.
Qed.

(** What [for_problems] leaves in the lookup when it returns. *)
Lemma for_problems_labels problems : forall idx st st',
  for_problems problems idx st = (Return tt, st') ->
  label_map (self st') = labels problems idx ∪ label_map (self st).
Proof.
  induction problems as [|p rest IH]; intros idx st st' Hrun.
  - cbn in Hrun. injection Hrun as <-. cbn. by rewrite (left_id_L ∅ (∪)).
  - cbn [for_problems] in Hrun.
    destruct (PyStr.chr (65 + idx)) as [letter|] eqn:Hchr; [|done].
    rewrite bind_update_self in Hrun.
    match type of Hrun with
    | bind (SubElement_root ?c) _ ?s = _ =>
        pose proof (preserves_SubElement_root c s) as Hframe;
        destruct (SubElement_root c s) as [[[]|e|] s1] eqn:Hsub;
        [rewrite (bind_Return _ _ _ _ _ Hsub) in Hrun
        |by rewrite (bind_Raise _ _ _ _ _ Hsub) in Hrun
        |by rewrite (bind_Diverge _ _ _ _ Hsub) in Hrun]
    end.
    rewrite (IH _ _ _ Hrun).
    unfold frame in Hframe. cbn in Hframe.
    assert (label_map (self s1)
            = <[problem_id p := {| xml_id := PyStr.str (idx + 1);
                                   letter := letter |}]> (label_map (self st)))
      as -> by congruence.
    cbn [labels]. rewrite Hchr. cbn [default from_option id].
    by rewrite insert_union_singleton_l, (assoc_L (∪)).
Qed.

(** What [_process_problems] leaves in the lookup, from two states
    with the same world and the same selection. *)
Lemma process_problems_labels st st' s s' :
  outside st = outside st' ->
  selected_problem_set_id (self st) = selected_problem_set_id (self st') ->
  _process_problems server st = (Return tt, s) ->
  _process_problems server st' = (Return tt, s') ->
  exists K,
    label_map (self s) = K ∪ label_map (self st)
    /\ label_map (self s') = K ∪ label_map (self st').
Proof.
  intros Hw Hsel Hrun Hrun'.
  unfold _process_problems in Hrun, Hrun'.
  rewrite bind_get_self in Hrun, Hrun'. rewrite <-Hsel in Hrun'.
  match type of Hrun with
  | bind (_safe_request ?srv ?u ?p) _ _ = _ =>
      destruct (safe_request_same_world srv u p st st' Hw) as [Ho _];
      destruct (safe_request_sends srv u p st) as [_ Hs];
      destruct (safe_request_sends srv u p st') as [_ Hs'];
      destruct (_safe_request srv u p st) as [[data|e|] s1] eqn:Hreq;
      destruct (_safe_request srv u p st') as [[data'|e'|] s1'] eqn:Hreq'
  end; cbn in Ho, Hs, Hs'; try done.
  - injection Ho as <-.
    rewrite (bind_Return _ _ _ _ _ Hreq) in Hrun.
    rewrite (bind_Return _ _ _ _ _ Hreq') in Hrun'.
    exists (labels (default [] (problemSetProblems data)) 0).
    rewrite (for_problems_labels _ _ _ _ Hrun).
    rewrite (for_problems_labels _ _ _ _ Hrun').
    by rewrite Hs, Hs'.
  - by rewrite (bind_Raise _ _ _ _ _ Hreq) in Hrun.
  - by rewrite (bind_Diverge _ _ _ _ Hreq) in Hrun.
Qed.

(** The same generator, run again against the same service from the
    same world: the second run ends as the first did and leaves the same
    world (the same file, requests and log). What the first run has
    left in the generator, the problem lookup included, does not show. *)
Lemma generation_repeatable fuel now output_path st :
  let first :=
    generate_contest_xml server local_utcoffset fuel now output_path st in
  let again :=
    generate_contest_xml server local_utcoffset fuel now output_path
      {| self := self first.2; outside := outside st |} in
  again.1 = first.1 /\ outside again.2 = outside first.2.
Proof.
  intros first again.
  pose proof (preserves_generate_contest_xml fuel now output_path st) as Hcfg.
  fold first in Hcfg.
  set (st_again := {| self := self first.2; outside := outside st |}) in *.
  assert (agree 0 (self st) (self st_again)) as Hag0.
  { split_and!; [by rewrite <-Hcfg|intros; lia..]. }
  subst again. rewrite generate_contest_xml_steps.
  assert (first
          = if negb (PyStr.truthy (selected_problem_set_id (self st))) then
              (Raise (ValueError "请先选择题目集"), st)
            else
              (steps_before_listing server local_utcoffset ;;
               _process_problems server ;;
               steps_after_listing server local_utcoffset fuel now output_path)
                st) as Hfirst
    by apply generate_contest_xml_steps.
  assert (selected_problem_set_id (self st_again)
          = selected_problem_set_id (self st)) as ->
    by (unfold config in Hcfg; injection Hcfg; done).
  destruct (negb _); [by rewrite Hfirst|].
  (* before the listing *)
  destruct (simulates_steps_before_listing st st_again eq_refl Hag0)
    as (Ho1 & Hw1 & Hag1).
  destruct (steps_before_listing server local_utcoffset st)
    as [[[]|e1|] s1] eqn:Hrun1;
    destruct (steps_before_listing server local_utcoffset st_again)
      as [[[]|e1'|] s1'] eqn:Hrun1';
    cbn [fst snd] in *; simplify_eq.
  2: { rewrite Hfirst, (bind_Raise _ _ _ _ _ Hrun1), (bind_Raise _ _ _ _ _ Hrun1').
       done. }
  2: { rewrite Hfirst, (bind_Diverge _ _ _ _ Hrun1), (bind_Diverge _ _ _ _ Hrun1').
       done. }
  specialize (Hag1 tt eq_refl).
  rewrite (bind_Return _ _ _ _ _ Hrun1) in Hfirst.
  rewrite (bind_Return _ _ _ _ _ Hrun1').
  (* the listing *)
  destruct (simulates_process_problems server s1 s1' Hw1 Hag1)
    as (Ho2 & Hw2 & Hag2).
  destruct (_process_problems server s1) as [[[]|e2|] s2] eqn:Hrun2;
    destruct (_process_problems server s1') as [[[]|e2'|] s2'] eqn:Hrun2';
    cbn [fst snd] in *; simplify_eq.
  2: { rewrite Hfirst, (bind_Raise _ _ _ _ _ Hrun2), (bind_Raise _ _ _ _ _ Hrun2').
       done. }
  2: { rewrite Hfirst, (bind_Diverge _ _ _ _ Hrun2), (bind_Diverge _ _ _ _ Hrun2').
       done. }
  specialize (Hag2 tt eq_refl).
  rewrite (bind_Return _ _ _ _ _ Hrun2) in Hfirst.
  rewrite (bind_Return _ _ _ _ _ Hrun2').
  (* the lookup of the second run is that of the first *)
  assert (label_map (self s2) = label_map (self s2')) as Hlabels.
  { destruct (process_problems_labels s1 s1' s2 s2' Hw1) as (K & HK & HK').
    { destruct Hag1 as [Hc _]. unfold config in Hc. by injection Hc. }
    { done. }
    { done. }
    assert (label_map (self s1') = label_map (self s2)) as Hsame.
    { pose proof (preserves_steps_before_listing st_again) as Hb.
      rewrite Hrun1' in Hb.
      pose proof (preserves_steps_after_listing fuel now output_path s2) as Ha.
      rewrite <-Hfirst in Ha.
      unfold frame in Hb, Ha. injection Hb as _ _ _ Hb. injection Ha as _ _ _ Ha.
      rewrite Hb, <-Ha. reflexivity. }
    rewrite HK', Hsame, HK.
    by rewrite (assoc_L (∪)), (idemp_L (∪)). }
  assert (agree 3 (self s2) (self s2')) as Hag3.
  { destruct Hag2 as (Hc & Hr & Hs & _ & _).
    split_and!; [done|intros; (apply Hr || apply Hs); lia..|done|intros; lia]. }
  destruct (simulates_steps_after_listing fuel now output_path s2 s2' Hw2 Hag3)
    as (Ho3 & Hw3 & _).
  by rewrite Hfirst.
Qed.


End Repeat.

(** ** A whole run *)

(** The small contest, from selection to the written file: four
    requests, the sections in their fixed order, two lettered problems,
    the team named from the roster, and two runs (ids 1 and 3: the
    submission for an unlisted problem took id 2), the early one at
    time 0. *)
Example generation_example :
  let run :=
    generate_contest_xml Sample.contest_service (fun _ => 0) 5
      "1700000000.25" "contest.xml" Sample.chosen in
  run.1 = Return "contest.xml"
  /\ length (requests (outside run.2)) = 4%nat
  /\ fmap (fmap ET.tag) (ET.children <$> written "contest.xml" run.2)
     = Some (["info"; "region"] ++ replicate 11 "judgement"
             ++ replicate 4 "language"
             ++ ["problem"; "problem"; "team"; "run"; "run"; "finalized"])
  /\ texts ["info"; "length"] <$> written "contest.xml" run.2
     = Some [Some "2:00:00"]
  /\ texts ["problem"; "letter"] <$> written "contest.xml" run.2
     = Some [Some "A"; Some "B"]
  /\ texts ["team"; "name"] <$> written "contest.xml" run.2
     = Some [Some "Alice"]
  /\ run_ids <$> written "contest.xml" run.2 = Some [Some "1"; Some "3"]
  /\ texts ["run"; "time"] <$> written "contest.xml" run.2
     = Some [Some "600"; Some "0"]
  /\ texts ["run"; "result"] <$> written "contest.xml" run.2
     = Some [Some "AC"; Some "CE"]
  /\ texts ["finalized"; "timestamp"] <$> written "contest.xml" run.2
     = Some [Some "1700000000.25"].
Proof. vm_compute. by repeat split. Qed.

(** Two readings of the clock do give two different files; they are
    the same file once the finalization timestamp is blanked. *)
Example generation_clock_example :
  let run now :=
    generate_contest_xml Sample.contest_service (fun _ => 0) 5
      now "contest.xml" Sample.chosen in
  written "contest.xml" (run "1700000000.25").2
    <> written "contest.xml" (run "1700000321.5").2
  /\ without_finalized_timestamp
       <$> written "contest.xml" (run "1700000000.25").2
     = without_finalized_timestamp
         <$> written "contest.xml" (run "1700000321.5").2.
Proof. split; [vm_compute; discriminate | vm_compute; reflexivity]. Qed.

(** The same generator run a second time against the same responses
    writes the same file again, up to the finalization timestamp. *)
Example generation_again_example :
  let first :=
    generate_contest_xml Sample.contest_service (fun _ => 0) 5
      "1700000000.25" "contest.xml" Sample.chosen in
  let again :=
    generate_contest_xml Sample.contest_service (fun _ => 0) 5
      "1700000321.5" "contest.xml"
      {| self := self first.2; outside := Sample.world0 |} in
  again.1 = first.1
  /\ without_finalized_timestamp <$> written "contest.xml" again.2
     = without_finalized_timestamp <$> written "contest.xml" first.2.
Proof. split; vm_compute; reflexivity. Qed.

(** ** The theorems above at sample inputs *)


Lemma generate_requires_selection_witness :
  generate_contest_xml (fun _ _ => Reply Sample.not_found) (fun _ => 0)
    10 "1700000000.5" "contest.xml" Sample.fresh
  = (Raise (ValueError "请先选择题目集"), Sample.fresh).
Proof.
  apply (generate_requires_selection (fun _ _ => Reply Sample.not_found)
           (fun _ => 0) 10 "1700000000.5" "contest.xml" Sample.fresh).
  reflexivity.
Defined.

Lemma select_keeps_unvalidated_id_witness :
  let server := fun _ _ => Reply Sample.not_found in
  let st' := (select_problem_set server "42" Sample.fresh).2 in
  selected_problem_set_id (self st') = Some "42"
  /\ forall fuel now output_path,
       exists rest,
         requests
           (outside
              (generate_contest_xml server (fun _ => 0) fuel now output_path
                 st').2)
         = requests (outside st')
           ++ {| url := "https://pintia.cn/api/problem-sets/" +:+ "42";
                 params := [] |} :: rest.
Proof.
  intros server st'.
  apply (select_keeps_unvalidated_id server (fun _ => 0) "42" Sample.fresh
           (PTAAPIError
              ("期望 JSON 但收到 HTML (状态码 404)。内容片段: "
               +:+ "<html> Not Found</html>" +:+ "..."))
           st').
  - reflexivity.
  - discriminate.
Defined.

Lemma status_mapping_complete_witness :
  result_acronym "ACCEPTED" = "AC" /\ result_acronym "JUDGING" = "WA".
Proof.
  destruct status_mapping_complete as (_ & _ & _ & Hin & Hout).
  split.
  - apply Hin. apply (bool_decide_unpack _). vm_compute. exact I.
  - apply Hout. apply (bool_decide_unpack _). vm_compute. exact I.
Defined.

(** * More of the code *)

(** ** Requests, whatever the service does *)

Section SafeRequestOutcomes.

Variable server : list request -> request -> transport.

(** X1. Whatever the service answers, [_safe_request] leaves the
    generator, the log and the pauses alone, records exactly its own
    request, and touches no file but the debug dump; it returns without
    writing anything, or raises a [PTAAuthError] or a [PTAAPIError] and
    nothing else. When [session.get] itself fails, the error is a
    [PTAAPIError] carrying the failure's text and no dump is written. *)
Theorem safe_request_outcomes url params st :
  let r := _safe_request server url params st in
  self r.2 = self st
  /\ requests (outside r.2)
     = requests (outside st) ++ [{| url := url; params := params |}]
  /\ log (outside r.2) = log (outside st)
  /\ pauses (outside r.2) = pauses (outside st)
  /\ (forall path, path <> "pta_error_dump.html" ->
        files (outside r.2) !! path = files (outside st) !! path)
  /\ match r.1 with
     | Return _ => files (outside r.2) = files (outside st)
     | Raise e => is_auth_error e || is_api_error e = true
     | Diverge => False
     end
  /\ (forall msg,
        server (requests (outside st)) {| url := url; params := params |}
          = RequestException msg ->
        r.1 = Raise (PTAAPIError ("网络连接底层错误: " +:+ msg))
        /\ files (outside r.2) = files (outside st)).
Proof.
  unfold _safe_request, bind, session_get. cbn.
  destruct (server _ _) as [msg|resp] eqn:Hsrv.
  { cbn. split_and!; try done. by intros ? [= ->]. }
  destruct (negb _ || negb _); cbn.
  - assert (forall path, path <> "pta_error_dump.html" ->
              <["pta_error_dump.html" := TextFile (text resp)]>
                (files (outside st)) !! path
              = files (outside st) !! path) as Hfiles.
    { intros path Hne. by rewrite lookup_insert_ne. }
    destruct (status_code resp =? 401); [by split_and!|].
    destruct (negb _); by split_and!.
  - destruct (json resp); by split_and!.
Qed.

End SafeRequestOutcomes.

Lemma safe_request_outcomes_witness :
  let r :=
    _safe_request (fun _ _ => RequestException "Connection refused")
      "https://pintia.cn/api/problem-sets/42" [] Sample.selected in
  r.1 = Raise (PTAAPIError ("网络连接底层错误: " +:+ "Connection refused"))
  /\ files (outside r.2) = files (outside Sample.selected).
Proof.
  intros r.
  destruct (safe_request_outcomes (fun _ _ => RequestException "Connection refused")
              "https://pintia.cn/api/problem-sets/42" [] Sample.selected)
    as (_ & _ & _ & _ & _ & _ & H).
  exact (H "Connection refused" eq_refl).
Defined.

(** ** Teams *)

Lemma preserves_name_maps_SubElement_root child :
  preserves name_maps (SubElement_root child).
Proof. unfold SubElement_root. pres. Qed.

Lemma get_team_name_returns user_id student_user_id st :
  exists name,
    _get_team_name user_id student_user_id st
    = (Return name,
       if PyStr.truthy (exam_name (self st) user_id)
          || PyStr.truthy (student_name (self st) student_user_id)
       then st
       else {| self := self st;
               outside :=
                 warned ("无法找到用户 " +:+ user_id
                         +:+ " 的名称信息，使用默认队伍名: "
                         +:+ ("Team_" +:+ user_id)) (outside st) |})
    /\ name <> ""
    /\ name
       = if PyStr.truthy (exam_name (self st) user_id)
         then default "" (exam_name (self st) user_id)
         else if PyStr.truthy (student_name (self st) student_user_id)
              then default "" (student_name (self st) student_user_id)
              else "Team_" +:+ user_id.
Proof.
  unfold _get_team_name. rewrite bind_get_self.
  fold (exam_name (self st) user_id).
  fold (student_name (self st) student_user_id).
  destruct (exam_name (self st) user_id) as [[|c s]|] eqn:He; cbn [PyStr.truthy orb].
  2: { eexists. split; [reflexivity|]. split; [done|reflexivity]. }
  all: destruct (student_name (self st) student_user_id) as [[|c s]|] eqn:Hs;
    cbn [PyStr.truthy];
    eexists; (split; [reflexivity|split; [done|reflexivity]]).
Qed.



Lemma add_team_node_returns member_data st root :
  contest_root (self st) = Some root ->
  exists st',
    _add_team_node member_data st = (Return tt, st')
    /\ requests (outside st') = requests (outside st)
    /\ files (outside st') = files (outside st)
    /\ name_maps (self st') = name_maps (self st)
    /\ frame (self st') = frame (self st)
    /\ match userId member_data with
       | Some (String c s) =>
           contest_root (self st')
           = Some (ET.append root (team_of (self st) member_data))
           /\ team_name (self st) (String c s) (studentUserId member_data) <> ""
       | _ =>
           contest_root (self st') = Some root
           /\ log (outside st')
              = log (outside st) ++ [(WARNING, "成员数据缺少userId: ")]
       end.
Proof.
  intros Hroot. unfold _add_team_node, team_of.
  destruct (userId member_data) as [[|c s]|] eqn:Huid; cbn [PyStr.truthy negb].
  1,3: eexists; split; [reflexivity|]; by split_and!.
  cbn [default from_option id].
  destruct (get_team_name_returns (String c s) (studentUserId member_data) st)
    as (name & Hrun & Hne & Hname).
  fold (team_name (self st) (String c s) (studentUserId member_data)) in Hname.
  subst name.
  rewrite (bind_Return _ _ _ _ _ Hrun). rewrite bind_get_self.
  match goal with
  | |- context [SubElement_root ?child ?s] =>
      assert (contest_root (self s) = Some root) as Hroot'
        by (by destruct (_ || _));
      rewrite (SubElement_root_Some child s root Hroot')
  end.
  eexists. split; [reflexivity|].
  destruct (_ || _); cbn [self outside with_root]; by split_and!.
Qed.

Lemma team_of_ext g g' m :
  frame g = frame g' -> name_maps g = name_maps g' -> team_of g m = team_of g' m.
Proof.
  unfold frame, config, name_maps, team_of, team_node, team_name, exam_name,
    student_name.
  intros [= -> -> _ _] [= -> ->]. reflexivity.
Qed.

Lemma for_members_returns members : forall st root,
  contest_root (self st) = Some root ->
  exists st',
    for_members members st = (Return tt, st')
    /\ requests (outside st') = requests (outside st)
    /\ files (outside st') = files (outside st)
    /\ name_maps (self st') = name_maps (self st)
    /\ frame (self st') = frame (self st)
    /\ contest_root (self st')
       = Some (ET.extend root (team_of (self st) <$> with_user_id members)).
Proof.
  induction members as [|m rest IH]; intros st root Hroot.
  - exists st. cbn. by rewrite extend_nil.
  - cbn [for_members].
    destruct (add_team_node_returns m st root Hroot)
      as (st1 & Hrun & Hreq & Hfiles & Hmaps & Hframe & Hnode).
    rewrite (bind_Return _ _ _ _ _ Hrun).
    unfold with_user_id. rewrite filter_cons. fold (with_user_id rest).
    destruct (userId m) as [[|c s]|] eqn:Huid; cbn [PyStr.truthy] in *.
    1,3: destruct Hnode as [Hroot1 _];
      destruct (IH st1 root Hroot1) as (st' & Hrest & ? & ? & ? & ? & Hdoc);
      exists st'; rewrite decide_False by done;
      split_and!; [done|congruence..|];
      rewrite Hdoc; do 2 f_equal; apply list_fmap_ext; intros _ x _;
      by apply team_of_ext.
    destruct Hnode as [Hroot1 _].
    destruct (IH st1 _ Hroot1) as (st' & Hrest & ? & ? & ? & ? & Hdoc).
    exists st'. rewrite decide_True by done.
    split_and!; [done|congruence..|].
    rewrite Hdoc, append_as_extend, extend_extend. do 2 f_equal.
    cbn [fmap list_fmap app]. f_equal.
    apply list_fmap_ext; intros _ x _. by apply team_of_ext.
Qed.



(** ** The roster *)

Section Roster.

Variable server : list request -> request -> transport.

Lemma process_teams_enters fuel st :
  _process_teams server fuel st
  = try_except_reraise (teams_loop server fuel (teams_url (self st)) 0)
      (fun e => logger ERROR ("获取队伍信息失败: " +:+ exn_str e))
      (teams_start st).
Proof. reflexivity. Qed.

Lemma teams_loop_no_teams fuel base_url st data st1 :
  _safe_request server base_url (teams_params 0) st = (Return data, st1) ->
  default 0 (total data) = 0 ->
  teams_loop server (S fuel) base_url 0 st
  = (Return tt, {| self := self st1; outside := warned "未找到任何队伍" (outside st1) |}).
Proof.
  intros Hreq Htotal. cbn [teams_loop]. unfold teams_params in Hreq.
  rewrite (bind_Return _ _ _ _ _ Hreq), Htotal. reflexivity.
Qed.

Lemma teams_loop_page fuel base_url page st data st1 root :
  contest_root (self st) = Some root ->
  _safe_request server base_url (teams_params page) st = (Return data, st1) ->
  (page =? 0) && (default 0 (total data) =? 0) = false ->
  let members := default [] (userGroupMembers data) in
  members <> [] ->
  exists st2,
    for_members members (teams_merged data st1) = (Return tt, st2)
    /\ teams_loop server (S fuel) base_url page st
       = (if (length members <? 20)%nat then (Return tt, st2)
          else teams_loop server fuel base_url (page + 1) st2)
    /\ requests (outside st2)
       = requests (outside st) ++ [{| url := base_url; params := teams_params page |}]
    /\ files (outside st2) = files (outside st)
    /\ frame (self st2) = frame (self st)
    /\ name_maps (self st2) = name_maps (self (teams_merged data st))
    /\ contest_root (self st2)
       = Some (ET.extend root
                 (team_of (self (teams_merged data st)) <$> with_user_id members)).
Proof.
  intros Hroot Hreq Hgo members Hmembers.
  destruct (safe_request_sends server base_url (teams_params page) st)
    as [Hsent Hself].
  rewrite Hreq in Hsent, Hself. cbn [snd] in Hsent, Hself.
  assert (files (outside st1) = files (outside st)) as Hfiles.
  { revert Hreq. unfold _safe_request, bind, session_get. cbn.
    destruct (server _ _) as [msg|resp]; [done|].
    destruct (negb _ || negb _); cbn.
    - destruct (status_code resp =? 401); [done|]. by destruct (negb _).
    - destruct (json resp); [|done]. by intros [= _ <-]. }
  assert (self (teams_merged data st1) = self (teams_merged data st)) as Hmerged.
  { unfold teams_merged. cbn [self]. by rewrite Hself. }
  destruct (for_members_returns members (teams_merged data st1) root)
    as (st2 & Hrun & Hreq2 & Hfiles2 & Hmaps & Hframe & Hdoc).
  { cbn. by rewrite Hself. }
  exists st2. split_and!.
  - exact Hrun.
  - cbn [teams_loop]. unfold teams_params in Hreq.
    rewrite (bind_Return _ _ _ _ _ Hreq), Hgo, bind_update_self.
    fold members. fold (teams_merged data st1).
    destruct members as [|m rest] eqn:Hm; [done|].
    rewrite (bind_Return _ _ _ _ _ Hrun). by destruct (_ <? _)%nat.
  - by rewrite Hreq2.
  - by rewrite Hfiles2.
  - rewrite Hframe. unfold frame, config. cbn. by rewrite Hself.
  - by rewrite Hmaps, Hmerged.
  - by rewrite Hdoc, Hmerged.
Qed.

(** X4. When the first roster page reports no team ([total] is 0 or
    absent), [_process_teams] stops there: it returns after that one
    request with a warning, adds no node whatever members the page
    lists, and leaves both name maps empty. *)
Theorem roster_without_teams fuel st data st1 :
  _safe_request server (teams_url (self st)) (teams_params 0) (teams_start st)
    = (Return data, st1) ->
  default 0 (total data) = 0 ->
  let r := _process_teams server (S fuel) st in
  r.1 = Return tt
  /\ contest_root (self r.2) = contest_root (self st)
  /\ name_maps (self r.2) = (Some ∅, Some ∅)
  /\ requests (outside r.2)
     = requests (outside st)
       ++ [{| url := teams_url (self st); params := teams_params 0 |}]
  /\ log (outside r.2) = log (outside st) ++ [(WARNING, "未找到任何队伍")].
Proof.
  intros Hreq Htotal r. subst r.
  rewrite process_teams_enters. unfold try_except_reraise.
  rewrite (teams_loop_no_teams fuel _ _ data st1 Hreq Htotal).
  destruct (safe_request_sends server (teams_url (self st)) (teams_params 0)
              (teams_start st)) as [Hsent Hself].
  rewrite Hreq in Hsent, Hself. cbn [snd] in Hsent, Hself.
  cbn [fst snd self outside warned log requests].
  rewrite Hself, Hsent. split_and!; try done.
  revert Hreq. unfold _safe_request, bind, session_get. cbn.
  destruct (server _ _) as [msg|resp]; [done|].
  destruct (negb _ || negb _); cbn.
  - destruct (status_code resp =? 401); [done|]. by destruct (negb _).
  - destruct (json resp); [|done]. by intros [= _ <-].
Qed.



End Roster.

Lemma roster_without_teams_witness :
  let r :=
    _process_teams (More.always (More.roster_of 3 None)) 1 Sample.selected in
  r.1 = Return tt /\ contest_root (self r.2) = Some (ET.new "contest").
Proof.
  intros r.
  destruct (roster_without_teams (More.always (More.roster_of 3 None)) 0
              Sample.selected (More.roster_of 3 None) _ eq_refl eq_refl)
    as (Hrun & Hdoc & _).
  split; [exact Hrun|exact Hdoc].
Defined.



(** ** What the roster logs *)

Lemma only_warns_ret {A} (a : A) : only_warns (ret a).
Proof. intros st. exists []. by rewrite app_nil_r. Qed.

Lemma only_warns_raise {A} e : only_warns (@raise A e).
Proof. intros st. exists []. by rewrite app_nil_r. Qed.

Lemma only_warns_diverge {A} : only_warns (@diverge A).
Proof. intros st. exists []. by rewrite app_nil_r. Qed.

Lemma only_warns_get_self : only_warns get_self.
Proof. intros st. exists []. by rewrite app_nil_r. Qed.

Lemma only_warns_update_self f : only_warns (update_self f).
Proof. intros st. exists []. by rewrite app_nil_r. Qed.

Lemma only_warns_warning msg : only_warns (logger WARNING msg).
Proof. intros st. exists [(WARNING, msg)]. split; [done|]. by repeat constructor. Qed.

Lemma only_warns_bind {A B} (c : M A) (k : A -> M B) :
  only_warns c -> (forall a, only_warns (k a)) -> only_warns (bind c k).
Proof.
  intros Hc Hk st. unfold bind.
  destruct (Hc st) as (l1 & Hl1 & Hw1).
  destruct (c st) as [[a| |] st1]; cbn [snd] in *; [|by exists l1..].
  destruct (Hk a st1) as (l2 & Hl2 & Hw2).
  exists (l1 ++ l2). split.
  - by rewrite Hl2, Hl1, app_assoc.
  - by apply Forall_app.
Qed.

Lemma only_warns_safe_request server url params :
  only_warns (_safe_request server url params).
Proof.
  intros st. exists []. rewrite app_nil_r.
  split; [|done].
  unfold _safe_request, bind, session_get. cbn.
  destruct (server _ _) as [msg|resp]; [done|].
  destruct (negb _ || negb _); cbn.
  - destruct (status_code resp =? 401); [done|]. by destruct (negb _).
  - by destruct (json resp).
Qed.

Create HintDb warns.

#[global] Hint Resolve only_warns_ret only_warns_raise only_warns_diverge
  only_warns_get_self only_warns_update_self only_warns_warning
  only_warns_safe_request : warns.

(** Peels binds, matches and conditionals off an [only_warns] goal. *)
Ltac warns :=
  repeat first
    [ progress auto with warns
    | apply only_warns_bind; [|intros]
    | match goal with
      | |- only_warns (match ?x with _ => _ end) => destruct x
      | |- only_warns (if ?b then _ else _) => destruct b
      | |- only_warns (let _ := _ in _) => cbv zeta
      end ].

Lemma only_warns_SubElement_root child : only_warns (SubElement_root child).
Proof. unfold SubElement_root. warns. Qed.

Lemma only_warns_get_team_name user_id student_user_id :
  only_warns (_get_team_name user_id student_user_id).
Proof. unfold _get_team_name. warns. Qed.

#[global] Hint Resolve only_warns_SubElement_root only_warns_get_team_name : warns.

Lemma only_warns_add_team_node member_data :
  only_warns (_add_team_node member_data).
Proof. unfold _add_team_node. warns. Qed.

#[global] Hint Resolve only_warns_add_team_node : warns.

Lemma only_warns_for_members members : only_warns (for_members members).
Proof.
  induction members as [|m rest IH]; cbn [for_members]; warns.
Qed.

#[global] Hint Resolve only_warns_for_members : warns.

Lemma only_warns_teams_loop server fuel : forall base_url page,
  only_warns (teams_loop server fuel base_url page).
Proof.
  induction fuel as [|fuel IH]; intros base_url page; cbn [teams_loop]; warns.
Qed.

Section RosterLog.

Variable server : list request -> request -> transport.

(** X7. [_process_teams] ends as its loop over the roster pages ends.
    When that is with an exception, the same exception is raised again
    after one ERROR entry carrying its text has been logged, the last
    of the log; everything else the method logs, and everything it logs
    when it returns, is a warning. *)
Theorem roster_failure_logged fuel st :
  let r := _process_teams server fuel st in
  r.1 = (teams_loop server fuel (teams_url (self st)) 0 (teams_start st)).1
  /\ exists entries,
       log (outside r.2) = log (outside st) ++ entries
       /\ match r.1 with
          | Raise e =>
              exists warnings,
                entries
                = warnings ++ [(ERROR, "获取队伍信息失败: " +:+ exn_str e)]
                /\ Forall (fun entry => entry.1 = WARNING) warnings
          | _ => Forall (fun entry => entry.1 = WARNING) entries
          end.
Proof.
  intros r. subst r. rewrite process_teams_enters. unfold try_except_reraise.
  destruct (only_warns_teams_loop server fuel (teams_url (self st)) 0
              (teams_start st)) as (entries & Hlog & Hwarn).
  destruct (teams_loop _ _ _ _ _) as [[[]|e|] st1]; cbn [fst snd] in *.
  - split; [done|]. by exists entries.
  - split; [done|]. eexists. split; [|by exists entries].
    cbn. by rewrite Hlog, app_assoc.
  - split; [done|]. by exists entries.
Qed.

End RosterLog.

(** ** Runs *)

Lemma bind_Return_inv {A B} (c : M A) (k : A -> M B) st b st' :
  bind c k st = (Return b, st') ->
  exists a st1, c st = (Return a, st1) /\ k a st1 = (Return b, st').
Proof.
  unfold bind. destruct (c st) as [[a| |] st1]; [|done..].
  intros H. by exists a, st1.
Qed.

Lemma in_status_vocabulary s :
  s ∈ status_vocabulary ->
  s = "ACCEPTED" \/ s = "WRONG_ANSWER" \/ s = "TIME_LIMIT_EXCEEDED"
  \/ s = "COMPILE_ERROR" \/ s = "SEGMENTATION_FAULT"
  \/ s = "FLOAT_POINT_EXCEPTION" \/ s = "MEMORY_LIMIT_EXCEEDED"
  \/ s = "NON_ZERO_EXIT_CODE" \/ s = "RUNTIME_ERROR"
  \/ s = "PRESENTATION_ERROR" \/ s = "OUTPUT_LIMIT_EXCEEDED".
Proof.
  unfold status_vocabulary, result_map_items. cbn [fmap list_fmap fst].
  rewrite !elem_of_cons, elem_of_nil. tauto.
Qed.

Lemma language_declared compiler :
  default "1" (compiler_map !! compiler) ∈ languages.*1.
Proof.
  destruct (compiler_map !! compiler) as [lang|] eqn:Hlang; cbn.
  - apply elem_of_list_to_map_2 in Hlang.
    rewrite !elem_of_cons, elem_of_nil in Hlang.
    destruct Hlang as [[= _ ->]|[[= _ ->]|[[= _ ->]|[[= _ ->]|[[= _ ->]|
      [[= _ ->]|[[= _ ->]|[[= _ ->]|[]]]]]]]]];
      apply (bool_decide_unpack _); vm_compute; exact I.
  - apply (bool_decide_unpack _). vm_compute. exact I.
Qed.

(** X8. Every run node refers to entries that [_add_static_nodes]
    declares: its [language] is the id of a declared language and its
    [result] the acronym of a declared judgement, whatever the status
    and the compiler of the submission. Its [solved] flag is the one
    that judgement declares; so is its [penalty] flag, except for an
    accepted submission, whose run says ["true"] where the judgement AC
    declares ["false"]. *)
Theorem run_refers_to_declarations
    sub counter problem_conf submit_at local time_diff :
  let run := run_node sub counter problem_conf submit_at local time_diff in
  exists lang result j_id name solved penalty,
    field "language" run = Some lang
    /\ lang ∈ languages.*1
    /\ field "result" run = Some result
    /\ (j_id, result, name, solved, penalty) ∈ judgements_conf
    /\ field "solved" run = Some solved
    /\ (if decide (status sub = Some "ACCEPTED")
        then field "penalty" run = Some "true" /\ penalty = "false"
        else field "penalty" run = Some penalty).
Proof.
  intros run. subst run. unfold run_node. cbv zeta.
  pose proof (language_declared
                (PyStr.upper (default "UNKNOWN" (compiler sub)))) as Hlang.
  set (lang := default "1" (compiler_map !! _)) in *.
  assert (forall x : string * string * string * string * string,
            bool_decide (x ∈ judgements_conf) = true -> x ∈ judgements_conf)
    as Hmem.
  { intros x Hx. by apply bool_decide_eq_true in Hx. }
  destruct (status sub) as [s|] eqn:Hs; cbn [default from_option id].
  2: { exists lang, "WA", "3", "WRONG_ANSWER", "false", "true".
       split_and!; [reflexivity|exact Hlang|reflexivity|by apply Hmem
                   |reflexivity|].
       destruct (decide _) as [Heq|_]; [discriminate Heq|reflexivity]. }
  destruct (decide (s ∈ status_vocabulary)) as [Hin|Hout].
  - apply in_status_vocabulary in Hin.
    destruct Hin as [->|[->|[->|[->|[->|[->|[->|[->|[->|[->| ->]]]]]]]]]];
      [ exists lang, "AC", "1", "ACCEPTED", "true", "false"
      | exists lang, "WA", "3", "WRONG_ANSWER", "false", "true"
      | exists lang, "TLE", "4", "TIME_LIMIT_EXCEEDED", "false", "true"
      | exists lang, "CE", "5", "COMPILE_ERROR", "false", "false"
      | exists lang, "SF", "2", "SEGMENTATION_FAULT", "false", "true"
      | exists lang, "FPE", "6", "FLOAT_POINT_EXCEPTION", "false", "true"
      | exists lang, "MLE", "7", "MEMORY_LIMIT_EXCEEDED", "false", "true"
      | exists lang, "NZEC", "8", "NON_ZERO_EXIT_CODE", "false", "true"
      | exists lang, "RE", "9", "RUNTIME_ERROR", "false", "true"
      | exists lang, "PE", "10", "PRESENTATION_ERROR", "false", "true"
      | exists lang, "OLE", "11", "OUTPUT_LIMIT_EXCEEDED", "false", "true" ];
      (split_and!; [reflexivity|exact Hlang|reflexivity|by apply Hmem
                   |reflexivity|]);
      (destruct (decide _) as [Heq|Hne];
       [first [discriminate Heq|split; reflexivity]
       |first [by exfalso; apply Hne|reflexivity]]).
  - assert (result_acronym s = "WA") as Hwa.
    { unfold result_acronym, result_map.
      by rewrite (not_elem_of_list_to_map_1 _ _ Hout). }
    assert (s <> "ACCEPTED") as Hna.
    { intros ->. apply Hout. apply (bool_decide_unpack _). vm_compute. exact I. }
    assert (s <> "COMPILE_ERROR") as Hnc.
    { intros ->. apply Hout. apply (bool_decide_unpack _). vm_compute. exact I. }
    exists lang, "WA", "3", "WRONG_ANSWER", "false", "true".
    destruct (decide (s = "ACCEPTED")) as [|_]; [done|].
    destruct (decide (s = "COMPILE_ERROR")) as [|_]; [done|].
    split_and!; [reflexivity|exact Hlang|unfold field; cbn; by rewrite Hwa
                |by apply Hmem|reflexivity|].
    destruct (decide _) as [[= Heq]|_]; [done|reflexivity].
Qed.

Lemma ids_of_runs_app nodes1 nodes2 :
  ids_of_runs (nodes1 ++ nodes2) = ids_of_runs nodes1 ++ ids_of_runs nodes2.
Proof.
  unfold ids_of_runs, run_ids. cbn [ET.findall ET.children].
  by rewrite filter_app, flat_map_app, fmap_app.
Qed.

Lemma run_ids_extend root nodes :
  run_ids (ET.extend root nodes) = run_ids root ++ ids_of_runs nodes.
Proof.
  destruct root as [t tx tl cs0]. unfold ids_of_runs, run_ids.
  cbn [ET.extend ET.findall ET.children].
  by rewrite filter_app, flat_map_app, fmap_app.
Qed.

Lemma kept_ids_bounds lookup subs : forall counter,
  Forall (fun i => counter <= i < counter + Z.of_nat (length subs))
    (kept_ids lookup subs counter).
Proof.
  induction subs as [|sub rest IH]; intros counter; cbn [kept_ids length].
  { constructor. }
  apply Forall_app. split.
  - destruct (lookup !! _); repeat constructor; lia.
  - eapply Forall_impl; [apply IH|]. cbn. intros i Hi. lia.
Qed.

Lemma kept_ids_sorted lookup subs : forall counter,
  StronglySorted Z.lt (kept_ids lookup subs counter).
Proof.
  induction subs as [|sub rest IH]; intros counter; cbn [kept_ids].
  { constructor. }
  apply StronglySorted_app_2; [|destruct (lookup !! _); repeat constructor|apply IH].
  intros x1 x2 H1 H2.
  pose proof (kept_ids_bounds lookup rest (counter + 1)) as Hb.
  rewrite Forall_forall in Hb. specialize (Hb x2 H2).
  destruct (lookup !! _); [|by apply elem_of_nil in H1].
  apply list_elem_of_singleton in H1. lia.
Qed.

Lemma pause_every_100 p :
  0 <= p ->
  (p + 1) / 100 - p / 100 = if (p + 1) mod 100 =? 0 then 1 else 0.
Proof.
  intros Hp. destruct (Z.eqb_spec ((p + 1) mod 100) 0);
    Z.div_mod_to_equations; lia.
Qed.

Section Runs.

Variable server : list request -> request -> transport.
Variable local_utcoffset : Z -> Z.

Lemma add_submission_node_cases sub counter st :
  let r := _add_submission_node local_utcoffset sub counter st in
  match r.1 with
  | Diverge => False
  | Raise e =>
      r.2 = st /\ is_Some (label_map (self st) !! problemSetProblemId sub)
  | Return _ =>
      match label_map (self st) !! problemSetProblemId sub with
      | None => r.2 = st
      | Some conf =>
          exists root submit_at time_diff,
            contest_root (self st) = Some root
            /\ r.2 = with_root
                       (ET.append root
                          (run_node sub counter conf submit_at local_utcoffset
                             time_diff)) st
      end
  end.
Proof.
  unfold _add_submission_node. rewrite bind_get_self.
  destruct (label_map (self st) !! problemSetProblemId sub) as [conf|] eqn:Hconf;
    [|done].
  unfold bind, ret, raise.
  destruct (submitAt sub) as [| |submit_at]; [by eauto..|].
  destruct (contest_start_dt (self st)) as [start|]; [|by eauto].
  destruct (Dt.sub submit_at start) as [time_diff|]; [|by eauto].
  unfold SubElement_root, bind, get_self.
  destruct (contest_root (self st)) as [root|] eqn:Hroot; [|by eauto].
  cbn. by exists root, submit_at, time_diff.
Qed.

Lemma for_submissions_returns subs : forall counter p st c' st',
  0 <= p ->
  for_submissions local_utcoffset subs counter p st = (Return c', st') ->
  c' = counter + Z.of_nat (length subs)
  /\ requests (outside st') = requests (outside st)
  /\ files (outside st') = files (outside st)
  /\ log (outside st') = log (outside st)
  /\ Z.of_nat (pauses (outside st'))
     = Z.of_nat (pauses (outside st))
       + ((p + Z.of_nat (length subs)) / 100 - p / 100)
  /\ frame (self st') = frame (self st)
  /\ forall root,
       contest_root (self st) = Some root ->
       exists nodes,
         contest_root (self st') = Some (ET.extend root nodes)
         /\ Forall (fun node => ET.tag node = "run") nodes
         /\ ids_of_runs nodes
            = Some ∘ PyStr.str <$> kept_ids (label_map (self st)) subs counter.
Proof.
  induction subs as [|sub rest IH]; intros counter p st c' st' Hp Hrun.
  { cbn in Hrun. injection Hrun as <- <-. cbn [length kept_ids].
    rewrite !Z.add_0_r. split_and!; try done; try lia.
    intros root Hroot. exists []. by rewrite extend_nil. }
  cbn [for_submissions] in Hrun.
  apply bind_Return_inv in Hrun as ([] & st1 & Hadd & Hrun).
  apply bind_Return_inv in Hrun as ([] & st2 & Hpause & Hrun).
  apply IH in Hrun as (-> & Hreq & Hfiles & Hlog & Hpauses & Hframe & Hdoc);
    [|lia].
  pose proof (add_submission_node_cases sub counter st) as Hcases.
  cbv zeta in Hcases. rewrite Hadd in Hcases. cbn [fst snd] in Hcases.
  assert (self st2 = self st1
          /\ requests (outside st2) = requests (outside st1)
          /\ files (outside st2) = files (outside st1)
          /\ log (outside st2) = log (outside st1)
          /\ Z.of_nat (pauses (outside st2))
             = Z.of_nat (pauses (outside st1))
               + ((p + 1) / 100 - p / 100))
    as (Hself2 & Hreq2 & Hfiles2 & Hlog2 & Hpauses2).
  { rewrite pause_every_100 by done.
    destruct ((p + 1) mod 100 =? 0); injection Hpause as <-; cbn;
      split_and!; try done; lia. }
  assert (outside st1 = outside st /\ frame (self st1) = frame (self st))
    as [Hout1 Hframe1].
  { destruct (label_map (self st) !! problemSetProblemId sub).
    - destruct Hcases as (root & submit_at & time_diff & _ & ->). done.
    - by rewrite Hcases. }
  cbn [length]. rewrite Nat2Z.inj_succ.
  split_and!.
  - lia.
  - by rewrite Hreq, Hreq2, Hout1.
  - by rewrite Hfiles, Hfiles2, Hout1.
  - by rewrite Hlog, Hlog2, Hout1.
  - rewrite Hpauses, Hpauses2, Hout1.
    replace (p + Z.succ (Z.of_nat (length rest)))
      with (p + 1 + Z.of_nat (length rest)) by lia.
    lia.
  - by rewrite Hframe, Hself2, Hframe1.
  - intros root Hroot. cbn [kept_ids].
    assert (label_map (self st2) = label_map (self st)) as Hlabels.
    { rewrite Hself2. unfold frame in Hframe1. by injection Hframe1. }
    rewrite Hlabels in Hdoc.
    destruct (label_map (self st) !! problemSetProblemId sub) as [conf|].
    + destruct Hcases as (root0 & submit_at & time_diff & Hroot0 & ->).
      rewrite Hroot in Hroot0. injection Hroot0 as <-.
      destruct (Hdoc (ET.append root
                        (run_node sub counter conf submit_at local_utcoffset
                           time_diff)))
        as (nodes & Hnodes & Htags & Hids).
      { by rewrite Hself2. }
      exists (run_node sub counter conf submit_at local_utcoffset time_diff
              :: nodes).
      split_and!.
      * by rewrite Hnodes, append_as_extend, extend_extend.
      * by constructor.
      * change (?x :: nodes) with ([x] ++ nodes).
        rewrite ids_of_runs_app, Hids. reflexivity.
    + rewrite Hcases in Hself2.
      destruct (Hdoc root) as (nodes & Hnodes & Htags & Hids).
      { by rewrite Hself2. }
      by exists nodes.
Qed.

(** X9. A page of submissions that [for_submissions] gets through
    takes one run id per submission, dropped or not: the counter it
    returns is the one it was entered with plus the length of the
    page. It pauses once for every hundred submissions of the page (so
    never on a page of fewer than a hundred), sends nothing, logs
    nothing, writes no file and leaves the problem lookup alone; the
    document gains run nodes only, whose ids are those of the
    submissions with a listed problem. *)
Theorem submissions_page subs counter st c' st' root :
  contest_root (self st) = Some root ->
  for_submissions local_utcoffset subs counter 0 st = (Return c', st') ->
  c' = counter + Z.of_nat (length subs)
  /\ Z.of_nat (pauses (outside st'))
     = Z.of_nat (pauses (outside st)) + Z.of_nat (length subs) / 100
  /\ requests (outside st') = requests (outside st)
  /\ files (outside st') = files (outside st)
  /\ log (outside st') = log (outside st)
  /\ label_map (self st') = label_map (self st)
  /\ exists nodes,
       contest_root (self st') = Some (ET.extend root nodes)
       /\ Forall (fun node => ET.tag node = "run") nodes
       /\ run_ids (ET.extend root nodes)
          = run_ids root
            ++ (Some ∘ PyStr.str
                  <$> kept_ids (label_map (self st)) subs counter).
Proof.
  intros Hroot Hrun.
  apply for_submissions_returns in Hrun
    as (Hc & Hreq & Hfiles & Hlog & Hpauses & Hframe & Hdoc); [|lia].
  destruct (Hdoc root Hroot) as (nodes & Hnodes & Htags & Hids).
  split_and!; try done.
  - rewrite Hpauses, Z.add_0_l, Zdiv_0_l. lia.
  - unfold frame in Hframe. by injection Hframe.
  - exists nodes. split_and!; try done. by rewrite run_ids_extend, Hids.
Qed.

Lemma submissions_loop_returns fuel : forall base_url before counter st st' root,
  submissions_loop server local_utcoffset fuel base_url before counter st
    = (Return tt, st') ->
  contest_root (self st) = Some root ->
  exists nodes ids,
    contest_root (self st') = Some (ET.extend root nodes)
    /\ Forall (fun node => ET.tag node = "run") nodes
    /\ ids_of_runs nodes = Some ∘ PyStr.str <$> ids
    /\ StronglySorted Z.lt ids
    /\ Forall (fun i => counter <= i) ids
    /\ frame (self st') = frame (self st)
    /\ files (outside st') = files (outside st).
Proof.
  induction fuel as [|fuel IH];
    intros base_url before counter st st' root Hrun Hroot; [done|].
  rewrite submissions_loop_S in Hrun.
  apply bind_Return_inv in Hrun as (data & st1 & Hreq & Hrun).
  destruct (safe_request_sends server base_url
              (("limit", "100") ::
               (if PyStr.truthy before then [("before", default "" before)]
                else [])) st) as [_ Hself].
  assert (files (outside st1) = files (outside st)) as Hfiles1.
  { revert Hreq. unfold _safe_request, bind, session_get. cbn.
    destruct (server _ _) as [msg|resp]; [done|].
    destruct (negb _ || negb _); cbn.
    - destruct (status_code resp =? 401); [done|]. by destruct (negb _).
    - destruct (json resp); [|done]. by intros [= _ <-]. }
  rewrite Hreq in Hself. cbn [snd] in Hself.
  destruct (default [] (submissions data)) as [|first rest] eqn:Hsubs.
  { injection Hrun as <-. exists [], [].
    rewrite extend_nil, Hself, Hfiles1. split_and!; try done; constructor. }
  apply bind_Return_inv in Hrun as (counter' & st2 & Hpage & Hrun).
  apply for_submissions_returns in Hpage
    as (-> & _ & Hfiles2 & _ & _ & Hframe2 & Hdoc); [|lia].
  destruct (Hdoc root) as (nodes & Hnodes & Htags & Hids);
    [by rewrite Hself|].
  pose proof (kept_ids_sorted (label_map (self st1)) (first :: rest) counter)
    as Hsorted.
  pose proof (kept_ids_bounds (label_map (self st1)) (first :: rest) counter)
    as Hbounds.
  set (ids := kept_ids (label_map (self st1)) (first :: rest) counter) in *.
  assert (exists nodes0 ids0,
            contest_root (self st2) = Some (ET.extend root nodes0)
            /\ Forall (fun node => ET.tag node = "run") nodes0
            /\ ids_of_runs nodes0 = Some ∘ PyStr.str <$> ids0
            /\ StronglySorted Z.lt ids0
            /\ Forall (fun i => counter <= i) ids0) as Hhere.
  { exists nodes, ids. split_and!; try done.
    eapply Forall_impl; [exact Hbounds|]. cbn. intros i Hi. lia. }
  assert (frame (self st2) = frame (self st)) as Hframe.
  { by rewrite Hframe2, Hself. }
  assert (files (outside st2) = files (outside st)) as Hfiles.
  { by rewrite Hfiles2, Hfiles1. }
  destruct (default false (hasBefore data)).
  2: { injection Hrun as <-. destruct Hhere as (nodes0 & ids0 & ? & ? & ? & ? & ?).
       exists nodes0, ids0. by split_and!. }
  destruct (decide _).
  { injection Hrun as <-. destruct Hhere as (nodes0 & ids0 & ? & ? & ? & ? & ?).
    exists nodes0, ids0. cbn [self outside warned files]. by split_and!. }
  apply (IH _ _ _ _ _ (ET.extend root nodes)) in Hrun
    as (nodes' & ids' & Hnodes' & Htags' & Hids' & Hsorted' & Hbounds'
        & Hframe' & Hfiles'); [|exact Hnodes].
  exists (nodes ++ nodes'), (ids ++ ids').
  split_and!.
  - by rewrite Hnodes', extend_extend.
  - by apply Forall_app.
  - by rewrite ids_of_runs_app, Hids, Hids', fmap_app.
  - apply StronglySorted_app_2; [|done..].
    intros x1 x2 H1 H2.
    rewrite Forall_forall in Hbounds, Hbounds'.
    specialize (Hbounds x1 H1). specialize (Hbounds' x2 H2). lia.
  - apply Forall_app. split.
    + eapply Forall_impl; [exact Hbounds|]. cbn. intros i Hi. lia.
    + eapply Forall_impl; [exact Hbounds'|]. cbn. intros i Hi. lia.
  - by rewrite Hframe'.
  - by rewrite Hfiles'.
Qed.

(** X10. When [_process_submissions] returns, the document has gained
    run nodes only, and their ids are the decimal forms of strictly
    increasing integers that start at 1 or above: no two runs of one
    generation share an id, across all pages. The problem lookup and
    the files are as before. *)
Theorem run_ids_increase fuel st st' root :
  _process_submissions server local_utcoffset fuel st = (Return tt, st') ->
  contest_root (self st) = Some root ->
  exists nodes ids,
    contest_root (self st') = Some (ET.extend root nodes)
    /\ Forall (fun node => ET.tag node = "run") nodes
    /\ run_ids (ET.extend root nodes) = run_ids root ++ (Some ∘ PyStr.str <$> ids)
    /\ StronglySorted Z.lt ids
    /\ Forall (fun i => 1 <= i) ids
    /\ NoDup (Some ∘ PyStr.str <$> ids)
    /\ label_map (self st') = label_map (self st)
    /\ files (outside st') = files (outside st).
Proof.
  intros Hrun Hroot. unfold _process_submissions in Hrun.
  rewrite bind_get_self in Hrun.
  apply (submissions_loop_returns _ _ _ _ _ _ root) in Hrun
    as (nodes & ids & Hnodes & Htags & Hids & Hsorted & Hbounds & Hframe
        & Hfiles); [|done].
  exists nodes, ids. split_and!; try done.
  - by rewrite run_ids_extend, Hids.
  - apply NoDup_fmap_2.
    { intros x y [= Heq]. by apply (inj pretty) in Heq. }
    clear -Hsorted. induction Hsorted as [|x l _ IH Hx]; constructor; [|done].
    intros Hin. rewrite Forall_forall in Hx. specialize (Hx x Hin). lia.
  - unfold frame in Hframe. by injection Hframe.
Qed.

(** X11. [_add_submission_node] is all or nothing and never touches
    the outside world: when it does not return, generator and document
    are exactly as before, and the submission is for a listed problem
    (a submission for an unlisted problem is never looked at further,
    so it cannot fail). A listed submission without [submitAt] raises
    a [KeyError]. When it returns for a listed problem, exactly one
    node has been added, a run whose id is the counter. *)
Theorem submission_node_all_or_nothing sub counter st :
  let r := _add_submission_node local_utcoffset sub counter st in
  outside r.2 = outside st
  /\ (r.1 <> Return tt ->
      r.2 = st /\ is_Some (label_map (self st) !! problemSetProblemId sub))
  /\ (label_map (self st) !! problemSetProblemId sub = None ->
      r = (Return tt, st))
  /\ (is_Some (label_map (self st) !! problemSetProblemId sub) ->
      submitAt sub = Absent -> r.1 = Raise (KeyError "'submitAt'"))
  /\ (is_Some (label_map (self st) !! problemSetProblemId sub) ->
      r.1 = Return tt ->
      exists root run,
        contest_root (self st) = Some root
        /\ contest_root (self r.2) = Some (ET.append root run)
        /\ ET.tag run = "run"
        /\ field "id" run = Some (PyStr.str counter)).
Proof.
  intros r. pose proof (add_submission_node_cases sub counter st) as Hcases.
  cbv zeta in Hcases. fold r in Hcases.
  split_and!.
  - destruct r.1 as [[]| |]; [|by destruct Hcases as [-> _]|done].
    destruct (label_map (self st) !! _).
    + by destruct Hcases as (? & ? & ? & _ & ->).
    + by rewrite Hcases.
  - intros Hne. destruct r.1 as [[]| |]; done.
  - intros Hnone. subst r. unfold _add_submission_node.
    by rewrite bind_get_self, Hnone.
  - intros [conf Hconf] Hat. subst r. unfold _add_submission_node.
    by rewrite bind_get_self, Hconf, Hat.
  - intros [conf Hconf] Hret. rewrite Hret, Hconf in Hcases.
    destruct Hcases as (root & submit_at & time_diff & Hroot & ->).
    by eexists root, _.
Qed.

End Runs.

Lemma submissions_page_witness :
  let subs :=
    [Sample.sub "s2" "gone" "ACCEPTED" 1600;
     Sample.sub "s1" "pA" "WRONG_ANSWER" 1300] in
  let r := for_submissions (fun _ => 0) subs 1 0 Sample.listed in
  r.1 = Return 3
  /\ exists nodes,
       contest_root (self r.2) = Some (ET.extend (ET.new "contest") nodes)
       /\ run_ids (ET.extend (ET.new "contest") nodes) = [Some "2"].
Proof.
  intros subs r. split; [reflexivity|].
  destruct (submissions_page (fun _ => 0) subs 1 Sample.listed 3 r.2
              (ET.new "contest") eq_refl eq_refl)
    as (_ & _ & _ & _ & _ & _ & nodes & Hnodes & _ & Hids).
  exists nodes. split; [exact Hnodes|]. rewrite Hids. reflexivity.
Defined.

Lemma run_ids_increase_witness :
  let r :=
    _process_submissions Sample.stuck_service (fun _ => 0) 2 Sample.listed in
  r.1 = Return tt
  /\ exists nodes ids,
       contest_root (self r.2) = Some (ET.extend (ET.new "contest") nodes)
       /\ StronglySorted Z.lt ids
       /\ NoDup (Some ∘ PyStr.str <$> ids).
Proof.
  intros r.
  assert (_process_submissions Sample.stuck_service (fun _ => 0) 2
            Sample.listed = (Return tt, r.2)) as Hrun
    by (vm_compute; reflexivity).
  split; [exact (f_equal fst Hrun)|].
  destruct (run_ids_increase Sample.stuck_service (fun _ => 0) 2 Sample.listed
              r.2 (ET.new "contest") Hrun eq_refl)
    as (nodes & ids & Hnodes & _ & _ & Hsorted & _ & Hnodup & _).
  exists nodes, ids. split; [exact Hnodes|]. split; [exact Hsorted|exact Hnodup].
Defined.

Lemma submission_node_all_or_nothing_witness :
  let sub :=
    {| sub_id := Some "s1"; problemSetProblemId := Some "pA";
       status := Some "ACCEPTED"; compiler := Some "GXX";
       submitAt := Absent; sub_userId := Some "u1" |} in
  let r := _add_submission_node (fun _ => 0) sub 1 Sample.listed in
  r.1 = Raise (KeyError "'submitAt'") /\ r.2 = Sample.listed.
Proof.
  intros sub r.
  destruct (submission_node_all_or_nothing (fun _ => 0) sub 1 Sample.listed)
    as (_ & Hsame & _ & Hkey & _).
  assert (r.1 = Raise (KeyError "'submitAt'")) as Hr.
  { apply Hkey; [by eexists|reflexivity]. }
  split; [exact Hr|].
  apply Hsame. fold r. rewrite Hr. discriminate.
Defined.

(** ** Files *)

Lemma keeps_files_ret {A} (a : A) : keeps_files (ret a).
Proof. by intros st. Qed.

Lemma keeps_files_raise {A} e : keeps_files (@raise A e).
Proof. by intros st. Qed.

Lemma keeps_files_diverge {A} : keeps_files (@diverge A).
Proof. by intros st. Qed.

Lemma keeps_files_get_self : keeps_files get_self.
Proof. by intros st. Qed.

Lemma keeps_files_update_self f : keeps_files (update_self f).
Proof. by intros st. Qed.

Lemma keeps_files_logger lv msg : keeps_files (logger lv msg).
Proof. by intros st. Qed.

Lemma keeps_files_sleep : keeps_files sleep.
Proof. by intros st. Qed.

Lemma keeps_files_bind {A B} (c : M A) (k : A -> M B) :
  keeps_files c -> (forall a, keeps_files (k a)) -> keeps_files (bind c k).
Proof.
  intros Hc Hk st. unfold bind.
  destruct (Hc st) as [Hpath Hret].
  destruct (c st) as [[a| |] st1]; cbn [fst snd] in *; [|by split..].
  destruct (Hk a st1) as [Hpath' Hret']. split.
  - intros path Hne. by rewrite Hpath', Hpath.
  - intros b Hb. by rewrite (Hret' b Hb), (Hret a).
Qed.

Lemma keeps_files_try_except_reraise {A} (c : M A) h :
  keeps_files c -> (forall e, keeps_files (h e)) ->
  keeps_files (try_except_reraise c h).
Proof.
  intros Hc Hh st. unfold try_except_reraise.
  destruct (Hc st) as [Hpath Hret].
  destruct (c st) as [[a|e|] st1]; cbn [fst snd] in *; [by split| |by split].
  destruct (Hh e st1) as [Hpath' _].
  destruct (h e st1) as [[[]|e'|] st2]; cbn [fst snd] in *;
    (split; [intros path Hne; by rewrite Hpath', Hpath|done]).
Qed.

Lemma keeps_files_safe_request server url params :
  keeps_files (_safe_request server url params).
Proof.
  intros st. unfold _safe_request, bind, session_get. cbn.
  destruct (server _ _) as [msg|resp]; [done|].
  destruct (negb _ || negb _); cbn.
  - assert (forall path, path <> "pta_error_dump.html" ->
              <["pta_error_dump.html" := TextFile (text resp)]>
                (files (outside st)) !! path
              = files (outside st) !! path) as Hfiles.
    { intros path Hne. by rewrite lookup_insert_ne. }
    destruct (status_code resp =? 401); [done|]. by destruct (negb _).
  - by destruct (json resp).
Qed.

Create HintDb files.

#[global] Hint Resolve keeps_files_ret keeps_files_raise keeps_files_diverge
  keeps_files_get_self keeps_files_update_self keeps_files_logger
  keeps_files_sleep keeps_files_safe_request : files.

(** Peels binds, matches and conditionals off a [keeps_files] goal. *)
Ltac files :=
  repeat first
    [ progress auto with files
    | apply keeps_files_bind; [|intros]
    | apply keeps_files_try_except_reraise; [|intros]
    | match goal with
      | |- keeps_files (match ?x with _ => _ end) => destruct x
      | |- keeps_files (if ?b then _ else _) => destruct b
      | |- keeps_files (let _ := _ in _) => cbv zeta
      end ].

Lemma keeps_files_SubElement_root child : keeps_files (SubElement_root child).
Proof. unfold SubElement_root. files. Qed.

Lemma keeps_files_SubElement_last cs : keeps_files (SubElement_last cs).
Proof. unfold SubElement_last. files. Qed.

#[global] Hint Resolve keeps_files_SubElement_root keeps_files_SubElement_last
  : files.

Section Files.

Variable server : list request -> request -> transport.
Variable local_utcoffset : Z -> Z.

Lemma keeps_files_init_xml_structure : keeps_files _init_xml_structure.
Proof. unfold _init_xml_structure. files. Qed.

Lemma keeps_files_process_exam_info :
  keeps_files (_process_exam_info server local_utcoffset).
Proof. unfold _process_exam_info, parse_time. files. Qed.

Lemma keeps_files_add_static_nodes : keeps_files _add_static_nodes.
Proof. unfold _add_static_nodes. cbn [judgements_conf languages]. files. Qed.

Lemma keeps_files_for_problems problems : forall idx,
  keeps_files (for_problems problems idx).
Proof.
  induction problems as [|p rest IH]; intros idx; cbn [for_problems]; files.
Qed.

Lemma keeps_files_process_problems : keeps_files (_process_problems server).
Proof.
  unfold _process_problems. pose proof keeps_files_for_problems. files.
Qed.

Lemma keeps_files_add_team_node member_data :
  keeps_files (_add_team_node member_data).
Proof. unfold _add_team_node, _get_team_name. files. Qed.

Lemma keeps_files_for_members members : keeps_files (for_members members).
Proof.
  pose proof keeps_files_add_team_node.
  induction members as [|m rest IH]; cbn [for_members]; files.
Qed.

Lemma keeps_files_teams_loop fuel : forall base_url page,
  keeps_files (teams_loop server fuel base_url page).
Proof.
  pose proof keeps_files_for_members.
  induction fuel as [|fuel IH]; intros base_url page; cbn [teams_loop]; files.
Qed.

Lemma keeps_files_process_teams fuel : keeps_files (_process_teams server fuel).
Proof.
  unfold _process_teams. pose proof (keeps_files_teams_loop fuel). files.
Qed.

Lemma keeps_files_add_submission_node sub counter :
  keeps_files (_add_submission_node local_utcoffset sub counter).
Proof. unfold _add_submission_node. files. Qed.

Lemma keeps_files_for_submissions subs : forall counter processed,
  keeps_files (for_submissions local_utcoffset subs counter processed).
Proof.
  pose proof keeps_files_add_submission_node.
  induction subs as [|sub rest IH]; intros counter processed;
    cbn [for_submissions]; files.
Qed.

Lemma keeps_files_submissions_loop fuel : forall base_url before counter,
  keeps_files (submissions_loop server local_utcoffset fuel base_url before counter).
Proof.
  pose proof keeps_files_for_submissions.
  induction fuel as [|fuel IH]; intros base_url before counter;
    cbn [submissions_loop]; files.
Qed.

Lemma keeps_files_process_submissions fuel :
  keeps_files (_process_submissions server local_utcoffset fuel).
Proof.
  unfold _process_submissions. pose proof (keeps_files_submissions_loop fuel).
  files.
Qed.

Lemma keeps_files_add_finalized_node now : keeps_files (_add_finalized_node now).
Proof. unfold _add_finalized_node. files. Qed.

Lemma keeps_files_build_steps fuel now :
  keeps_files (build_steps server local_utcoffset fuel now).
Proof.
  unfold build_steps.
  pose proof keeps_files_init_xml_structure.
  pose proof keeps_files_process_exam_info.
  pose proof keeps_files_add_static_nodes.
  pose proof keeps_files_process_problems.
  pose proof (keeps_files_process_teams fuel).
  pose proof (keeps_files_process_submissions fuel).
  pose proof (keeps_files_add_finalized_node now).
  files.
Qed.

Lemma generate_contest_xml_build fuel now output_path st :
  generate_contest_xml server local_utcoffset fuel now output_path st
  = if negb (PyStr.truthy (selected_problem_set_id (self st))) then
      (Raise (ValueError "请先选择题目集"), st)
    else
      (build_steps server local_utcoffset fuel now ;;
       _save_xml output_path ;;
       ret output_path) st.
Proof.
  unfold generate_contest_xml. rewrite bind_get_self.
  destruct (negb _); [reflexivity|].
  unfold build_steps, bind.
  destruct (_init_xml_structure st) as [[[]|?|] s0]; [|done..].
  destruct (_process_exam_info server local_utcoffset s0) as [[[]|?|] s1];
    [|done..].
  destruct (_add_static_nodes s1) as [[[]|?|] s2]; [|done..].
  destruct (_process_problems server s2) as [[[]|?|] s3]; [|done..].
  destruct (_process_teams server fuel s3) as [[[]|?|] s4]; [|done..].
  destruct (_process_submissions server local_utcoffset fuel s4)
    as [[[]|?|] s5]; [|done..].
  by destruct (_add_finalized_node now s5) as [[[]|?|] s6].
Qed.

(** X12. [generate_contest_xml] writes its output in one piece or not
    at all. When it returns, it returns the output path, the only file
    it has written is that one, and the file holds the document the
    generator keeps. When it raises or does not finish, no file other
    than the debug dump has been created or changed; the output file in
    particular is as it was. *)
Theorem output_written_last fuel now output_path st :
  let r := generate_contest_xml server local_utcoffset fuel now output_path st in
  match r.1 with
  | Return p =>
      p = output_path
      /\ exists root,
           contest_root (self r.2) = Some root
           /\ files (outside r.2)
              = <[output_path := XmlFile root]> (files (outside st))
  | _ =>
      forall path, path <> "pta_error_dump.html" ->
        files (outside r.2) !! path = files (outside st) !! path
  end.
Proof.
  intros r. subst r. rewrite generate_contest_xml_build.
  destruct (negb _); [done|].
  destruct (keeps_files_build_steps fuel now st) as [Hpath Hret].
  destruct (build_steps server local_utcoffset fuel now st)
    as [[[]|e|] st1] eqn:Hbuild; cbn [fst snd] in *.
  2: { by rewrite (bind_Raise _ _ _ _ _ Hbuild). }
  2: { by rewrite (bind_Diverge _ _ _ _ Hbuild). }
  rewrite (bind_Return _ _ _ _ _ Hbuild).
  specialize (Hret tt eq_refl).
  unfold _save_xml, bind, get_self.
  destruct (contest_root (self st1)) as [root|] eqn:Hroot; cbn.
  - split; [done|]. exists (ET._indent 0 root). by rewrite Hret.
  - exact Hpath.
Qed.

End Files.

(** ** The sections of the document *)

Lemma sections_extend root nodes :
  sections (ET.extend root nodes) = sections root ++ (ET.tag <$> nodes).
Proof. destruct root. unfold sections. cbn. by rewrite fmap_app. Qed.

Lemma all_tagged (t : string) (nodes : list ET.element) :
  Forall (fun node => ET.tag node = t) nodes ->
  ET.tag <$> nodes = replicate (length nodes) t.
Proof.
  induction 1 as [|node nodes Hnode _ IH]; [done|].
  cbn. by rewrite Hnode, IH.
Qed.

Lemma indent_tag level elem : ET.tag (ET._indent level elem) = ET.tag elem.
Proof.
  destruct elem as [t tx tl [|c cs]]; cbn; [|done].
  by destruct (negb _ && _).
Qed.

Lemma indent_sections level elem :
  sections (ET._indent level elem) = sections elem.
Proof.
  destruct elem as [t tx tl [|c cs]]; unfold sections; cbn.
  { by destruct (negb _ && _). }
  rewrite indent_tag. f_equal.
  rewrite <-list_fmap_compose. apply list_fmap_ext.
  intros _ x _. apply indent_tag.
Qed.

Lemma findall_append_other t rest root child :
  ET.tag child <> t ->
  ET.findall (t :: rest) (ET.append root child) = ET.findall (t :: rest) root.
Proof.
  intros Hne. destruct root as [t0 tx tl cs]. cbn [ET.findall ET.append ET.children].
  rewrite filter_app, filter_cons_False, filter_nil, app_nil_r; done.
Qed.

Lemma for_problems_returns problems : forall idx st st' root,
  for_problems problems idx st = (Return tt, st') ->
  contest_root (self st) = Some root ->
  exists nodes,
    contest_root (self st') = Some (ET.extend root nodes)
    /\ Forall (fun node => ET.tag node = "problem") nodes
    /\ length nodes = length problems.
Proof.
  induction problems as [|p rest IH]; intros idx st st' root Hrun Hroot.
  { injection Hrun as <-. exists []. by rewrite extend_nil. }
  cbn [for_problems] in Hrun.
  destruct (PyStr.chr (65 + idx)) as [letter|]; [|done].
  rewrite bind_update_self in Hrun.
  match type of Hrun with
  | context [bind (SubElement_root ?child) _ ?s] =>
      rewrite (bind_Return _ _ _ _ _ (SubElement_root_Some child s root Hroot))
        in Hrun
  end.
  apply (IH _ _ _ (ET.append root (problem_node (PyStr.str (idx + 1)) letter)))
    in Hrun as (nodes & Hnodes & Htags & Hlen); [|done].
  exists (problem_node (PyStr.str (idx + 1)) letter :: nodes). split_and!.
  - by rewrite Hnodes, append_as_extend, extend_extend.
  - by constructor.
  - cbn. by rewrite Hlen.
Qed.

Lemma add_static_nodes_returns st root :
  contest_root (self st) = Some root ->
  _add_static_nodes st
  = (Return tt, with_root (ET.extend root (static_nodes (self st))) st).
Proof.
  intros Hroot. unfold _add_static_nodes. rewrite bind_get_self.
  cbv beta iota fix delta [judgements_conf languages].
  repeat first
    [ rewrite bind_assoc
    | match goal with
      | |- context [bind (SubElement_root ?child) ?k ?s] =>
          erewrite (bind_Return (SubElement_root child) k s);
            [|apply SubElement_root_Some; first [exact Hroot|reflexivity]]
      | |- context [bind (ret tt) ?k ?s] =>
          rewrite (bind_Return (ret tt) k s tt s eq_refl)
      end ].
  unfold ret, with_root, static_nodes. cbn [self outside].
  rewrite !append_as_extend, !extend_extend. reflexivity.
Qed.

Section Sections.

Variable server : list request -> request -> transport.
Variable local_utcoffset : Z -> Z.

Lemma process_exam_info_returns st st' root :
  _process_exam_info server local_utcoffset st = (Return tt, st') ->
  contest_root (self st) = Some root ->
  exists info,
    contest_root (self st') = Some (ET.append root info)
    /\ ET.tag info = "info"
    /\ exists length_node,
         ET.find ["length"] info = Some length_node
         /\ is_Some (ET.text length_node).
Proof.
  intros Hrun Hroot. unfold _process_exam_info in Hrun.
  rewrite bind_get_self in Hrun.
  apply bind_Return_inv in Hrun as (data & st1 & Hreq & Hrun).
  match type of Hreq with
  | _safe_request _ ?url ?params _ = _ =>
      destruct (safe_request_sends server url params st) as [_ Hself]
  end.
  rewrite Hreq in Hself. cbn [snd] in Hself.
  rewrite bind_update_self in Hrun.
  match type of Hrun with
  | context [bind (SubElement_root ?child) _ ?s] =>
      assert (contest_root (self s) = Some root) as Hroot1
        by (cbn; by rewrite Hself);
      rewrite (bind_Return _ _ _ _ _ (SubElement_root_Some child s root Hroot1))
        in Hrun
  end.
  apply bind_Return_inv in Hrun as (start_dt & s2 & Hstart & Hrun).
  assert (forall f d s s', parse_time f s = (Return d, s') -> s' = s) as Hparse.
  { intros [| |d'] d s s'; cbn; unfold ret, raise; congruence. }
  apply Hparse in Hstart as ->.
  apply bind_Return_inv in Hrun as (end_dt & s3 & Hend & Hrun).
  apply Hparse in Hend as ->.
  rewrite bind_update_self in Hrun.
  rewrite (SubElement_last_append _ _ root (ET.new "info")) in Hrun;
    [|reflexivity].
  injection Hrun as <-.
  eexists. split; [reflexivity|]. split; [reflexivity|].
  eexists. split; [reflexivity|]. by eexists.
Qed.

Lemma teams_loop_returns fuel : forall base_url page st st' root,
  teams_loop server fuel base_url page st = (Return tt, st') ->
  contest_root (self st) = Some root ->
  exists nodes,
    contest_root (self st') = Some (ET.extend root nodes)
    /\ Forall (fun node => ET.tag node = "team") nodes.
Proof.
  induction fuel as [|fuel IH]; intros base_url page st st' root Hrun Hroot;
    [done|].
  cbn [teams_loop] in Hrun.
  apply bind_Return_inv in Hrun as (data & st1 & Hreq & Hrun).
  match type of Hreq with
  | _safe_request _ ?url ?params _ = _ =>
      destruct (safe_request_sends server url params st) as [_ Hself]
  end.
  rewrite Hreq in Hself. cbn [snd] in Hself.
  destruct ((page =? 0) && _).
  { injection Hrun as <-. exists []. cbn. by rewrite extend_nil, Hself. }
  rewrite bind_update_self in Hrun. fold (teams_merged data st1) in Hrun.
  destruct (default [] (userGroupMembers data)) as [|m rest] eqn:Hmembers.
  { injection Hrun as <-. exists []. cbn. by rewrite extend_nil, Hself. }
  destruct (for_members_returns (m :: rest) (teams_merged data st1) root)
    as (st2 & Hfor & _ & _ & _ & _ & Hdoc).
  { cbn. by rewrite Hself. }
  rewrite (bind_Return _ _ _ _ _ Hfor) in Hrun.
  assert (Forall (fun node => ET.tag node = "team")
            (team_of (self (teams_merged data st1)) <$> with_user_id (m :: rest)))
    as Htags.
  { apply Forall_fmap, Forall_true. done. }
  destruct (_ <? _)%nat.
  { injection Hrun as <-. by eexists. }
  apply (IH _ _ _ _ _ Hrun) in Hdoc as (nodes & Hnodes & Htags').
  eexists. split.
  - by rewrite Hnodes, extend_extend.
  - by apply Forall_app.
Qed.

Lemma add_finalized_node_cases now st root :
  contest_root (self st) = Some root ->
  let started :=
    ET.Element "finalized" None None
      [ET.leaf "last_gold" (Some "1");
       ET.leaf "last_silver" (Some "1");
       ET.leaf "last_bronze" (Some "1")] in
  _add_finalized_node now st
  = match ET.find ["info"; "length"] root with
    | None =>
        (Raise (AttributeError "'NoneType' object has no attribute 'text'"),
         with_root (ET.append root started) st)
    | Some length_node =>
        (Return tt,
         with_root
           (ET.append root
              (ET.extend started
                 [ET.leaf "time" (Some (PyStr.str_opt (ET.text length_node)));
                  ET.leaf "timestamp" (Some now)])) st)
    end.
Proof.
  intros Hroot started. unfold _add_finalized_node.
  rewrite (bind_Return _ _ _ _ _ (SubElement_root_Some _ st root Hroot)).
  match goal with
  | |- context [bind (SubElement_last ?cs) ?k ?s] =>
      rewrite (bind_Return _ _ _ _ _
                 (SubElement_last_append cs s root (ET.new "finalized") eq_refl))
  end.
  rewrite bind_get_self.
  cbn [with_root self contest_root set_contest_root mbind option_bind].
  unfold ET.find. rewrite findall_append_other by done.
  fold (ET.find ["info"; "length"] root).
  destruct (ET.find ["info"; "length"] root) as [length_node|]; [|reflexivity].
  match goal with
  | |- context [bind (SubElement_last ?cs) ?k ?s] =>
      rewrite (bind_Return _ _ _ _ _
                 (SubElement_last_append cs s root _ eq_refl))
  end.
  match goal with
  | |- SubElement_last ?cs ?s = _ =>
      rewrite (SubElement_last_append cs s root _ eq_refl)
  end.
  reflexivity.
Qed.

(** X13. The closing node mirrors the contest length: with an
    [info/length] node in the document, [_add_finalized_node] returns
    having appended one [finalized] node whose [time] is the text of
    that node, whose [timestamp] is the clock's reading and whose three
    medal fields are ["1"]. Without one it raises an [AttributeError],
    and the document keeps a [finalized] node that has neither [time]
    nor [timestamp]. The outside world is not touched either way. *)
Theorem finalized_mirrors_length now st root :
  contest_root (self st) = Some root ->
  let r := _add_finalized_node now st in
  outside r.2 = outside st
  /\ frame (self r.2) = frame (self st)
  /\ exists fin,
       contest_root (self r.2) = Some (ET.append root fin)
       /\ ET.tag fin = "finalized"
       /\ field "last_gold" fin = Some "1"
       /\ field "last_silver" fin = Some "1"
       /\ field "last_bronze" fin = Some "1"
       /\ match ET.find ["info"; "length"] root with
          | Some length_node =>
              r.1 = Return tt
              /\ field "time" fin = Some (PyStr.str_opt (ET.text length_node))
              /\ field "timestamp" fin = Some now
          | None =>
              r.1 = Raise (AttributeError
                             "'NoneType' object has no attribute 'text'")
              /\ ET.find ["time"] fin = None
              /\ ET.find ["timestamp"] fin = None
          end.
Proof.
  intros Hroot r. subst r.
  rewrite (add_finalized_node_cases now st root Hroot).
  destruct (ET.find ["info"; "length"] root) as [length_node|];
    cbn [fst snd with_root self outside]; (split; [done|]); (split; [done|]);
    eexists; split; [reflexivity| |reflexivity|]; by split_and!.
Qed.

(** X14. When [generate_contest_xml] returns, the file at the output
    path holds a [contest] document whose top-level nodes come in this
    order: one [info], one [region], eleven [judgement], four
    [language], then the [problem] nodes, the [team] nodes, the [run]
    nodes, and one [finalized] node at the end. *)
Theorem document_sections fuel now output_path st p st' :
  generate_contest_xml server local_utcoffset fuel now output_path st
    = (Return p, st') ->
  exists root problems teams runs,
    written output_path st' = Some root
    /\ contest_root (self st') = Some root
    /\ ET.tag root = "contest"
    /\ sections root
       = ["info"; "region"] ++ replicate 11 "judgement"
         ++ replicate 4 "language" ++ replicate problems "problem"
         ++ replicate teams "team" ++ replicate runs "run" ++ ["finalized"].
Proof.
  intros Hrun. rewrite generate_contest_xml_build in Hrun.
  destruct (negb _); [done|].
  apply bind_Return_inv in Hrun as ([] & st7 & Hbuild & Hsave).
  unfold build_steps in Hbuild.
  apply bind_Return_inv in Hbuild as ([] & st0 & Hinit & Hbuild).
  injection Hinit as <-.
  apply bind_Return_inv in Hbuild as ([] & st1 & Hinfo & Hbuild).
  apply (process_exam_info_returns _ _ (ET.new "contest")) in Hinfo
    as (info & Hroot1 & Hinfo & _); [|reflexivity].
  apply bind_Return_inv in Hbuild as ([] & st2 & Hstatic & Hbuild).
  rewrite (add_static_nodes_returns st1 _ Hroot1) in Hstatic.
  injection Hstatic as <-.
  apply bind_Return_inv in Hbuild as ([] & st3 & Hproblems & Hbuild).
  unfold _process_problems in Hproblems. rewrite bind_get_self in Hproblems.
  apply bind_Return_inv in Hproblems as (data & s & Hreq & Hproblems).
  match type of Hreq with
  | _safe_request _ ?url ?params ?s0 = _ =>
      destruct (safe_request_sends server url params s0) as [_ Hself]
  end.
  rewrite Hreq in Hself. cbn [snd] in Hself.
  eapply for_problems_returns in Hproblems
    as (problems & Hroot3 & Hproblems & _); [|by rewrite Hself].
  apply bind_Return_inv in Hbuild as ([] & st4 & Hteams & Hbuild).
  rewrite process_teams_enters in Hteams. unfold try_except_reraise in Hteams.
  destruct (teams_loop server fuel (teams_url (self st3)) 0 (teams_start st3))
    as [[[]|e|] s4] eqn:Hloop.
  2: { by destruct (logger _ _ _) as [[[]|?|] ?]. }
  2: { done. }
  injection Hteams as ->.
  eapply teams_loop_returns in Hloop as (teams & Hroot4 & Hteams);
    [|exact Hroot3].
  apply bind_Return_inv in Hbuild as ([] & st5 & Hruns & Hfin).
  unfold _process_submissions in Hruns. rewrite bind_get_self in Hruns.
  eapply submissions_loop_returns in Hruns
    as (runs & ids & Hroot5 & Hruns & _); [|exact Hroot4].
  rewrite (add_finalized_node_cases now st5 _ Hroot5) in Hfin.
  destruct (ET.find _ _) as [length_node|]; [|done].
  injection Hfin as <-.
  unfold _save_xml in Hsave. rewrite bind_assoc, bind_get_self in Hsave.
  cbn [with_root self contest_root set_contest_root] in Hsave.
  rewrite bind_assoc, bind_update_self in Hsave.
  match type of Hsave with
  | context [ET._indent 0 ?r] => set (doc := r) in Hsave
  end.
  injection Hsave as <- <-.
  exists (ET._indent 0 doc), (length problems), (length teams), (length runs).
  split_and!.
  - unfold written. cbn -[ET._indent]. by rewrite lookup_insert_eq.
  - reflexivity.
  - subst doc. by rewrite indent_tag.
  - subst doc. rewrite indent_sections. unfold sections.
    cbn [ET.children]. rewrite !fmap_cons, !fmap_app.
    rewrite (all_tagged _ _ Hproblems), (all_tagged _ _ Hteams),
      (all_tagged _ _ Hruns).
    rewrite Hinfo, <-?app_assoc. reflexivity.
Qed.

End Sections.

Lemma finalized_mirrors_length_witness :
  let root :=
    ET.append (ET.new "contest")
      (ET.Element "info" None None [ET.leaf "length" (Some "2:00:00")]) in
  let r := _add_finalized_node "1700000000.25" (with_root root Sample.selected) in
  r.1 = Return tt
  /\ texts ["finalized"; "time"] <$> contest_root (self r.2)
     = Some [Some "2:00:00"].
Proof.
  intros root r.
  destruct (finalized_mirrors_length "1700000000.25"
              (with_root root Sample.selected) root eq_refl)
    as (_ & _ & fin & Hdoc & _ & _ & _ & _ & Hret & _ & _).
  split; [exact Hret|]. reflexivity.
Defined.

Lemma document_sections_witness :
  let run :=
    generate_contest_xml Sample.contest_service (fun _ => 0) 5
      "1700000000.25" "contest.xml" Sample.chosen in
  exists root problems teams runs,
    written "contest.xml" run.2 = Some root
    /\ sections root
       = ["info"; "region"] ++ replicate 11 "judgement"
         ++ replicate 4 "language" ++ replicate problems "problem"
         ++ replicate teams "team" ++ replicate runs "run" ++ ["finalized"].
Proof.
  intros run.
  assert (generate_contest_xml Sample.contest_service (fun _ => 0) 5
            "1700000000.25" "contest.xml" Sample.chosen
          = (Return "contest.xml", run.2)) as Hrun
    by (vm_compute; reflexivity).
  destruct (document_sections Sample.contest_service (fun _ => 0) 5
              "1700000000.25" "contest.xml" Sample.chosen "contest.xml" run.2
              Hrun)
    as (root & problems & teams & runs & Hfile & _ & _ & Hsections).
  exists root, problems, teams, runs. split; [exact Hfile|exact Hsections].
Defined.

(** ** Formatting *)

Lemma element_nested_ind (P : ET.element -> Prop) :
  (forall t tx tl cs, Forall P cs -> P (ET.Element t tx tl cs)) ->
  forall elem, P elem.
Proof.
  intros H. fix IH 1. intros [t tx tl cs]. apply H.
  induction cs as [|c cs IHcs]; constructor; [apply IH|exact IHcs].
Qed.

Lemma lstrip_indentation n rest :
  PyStr.lstrip (PyStr.repeat_str n "  " +:+ rest) = PyStr.lstrip rest.
Proof. induction n as [|n IH]; [done|]. cbn. exact IH. Qed.

Lemma str_app_nil_r (s : string) : s +:+ "" = s.
Proof. induction s as [|c s IH]; [done|]. exact (f_equal (String c) IH). Qed.

Lemma lstrip_spaces n : PyStr.lstrip (PyStr.repeat_str n "  ") = "".
Proof. induction n as [|n IH]; [done|]. cbn. exact IH. Qed.

Lemma lstrip_newline s : PyStr.lstrip (PyStr.newline +:+ s) = PyStr.lstrip s.
Proof. reflexivity. Qed.

Lemma blank_indentation n extra :
  PyStr.blank (Some ((PyStr.newline +:+ PyStr.repeat_str n "  ") +:+
                     PyStr.repeat_str extra "  ")) = true.
Proof.
  unfold PyStr.blank, PyStr.strip.
  rewrite str_app_assoc, lstrip_newline, lstrip_indentation, lstrip_spaces.
  cbn. by rewrite orb_true_r.
Qed.

(** X15. [_indent] is pure formatting. It changes nothing but texts
    and tails that are absent or white space only, and what it puts
    there is white space only: a document without its formatting is
    the same before and after, with every tag, every child and every
    other text in place. Indenting a second time changes nothing. *)
Theorem indent_is_formatting elem : forall level,
  unformatted (ET._indent level elem) = unformatted elem
  /\ ET._indent level (ET._indent level elem) = ET._indent level elem.
Proof.
  induction elem as [t tx tl cs IH] using element_nested_ind.
  intros level.
  pose proof (blank_indentation level 1) as Htext.
  pose proof (blank_indentation level 0) as Htail.
  cbn [PyStr.repeat_str] in Htext, Htail.
  rewrite str_app_nil_r in Htail.
  change ("  " +:+ "") with "  " in Htext.
  destruct cs as [|c cs].
  { cbn [ET._indent].
    destruct (negb (level =? 0)%nat && PyStr.blank tl) eqn:Hcond.
    2: { split; [done|]. cbn [ET._indent]. by rewrite Hcond. }
    apply andb_prop in Hcond as [Hlevel Hblank]. split.
    - cbn [unformatted map]. by rewrite Htail, Hblank.
    - cbn [ET._indent]. by destruct (negb _ && _). }
  assert (map unformatted (map (ET._indent (S level)) (c :: cs))
          = map unformatted (c :: cs)
          /\ map (ET._indent (S level)) (map (ET._indent (S level)) (c :: cs))
             = map (ET._indent (S level)) (c :: cs)) as [Hu Hi].
  { rewrite !map_map. split; apply map_ext_Forall;
      (eapply Forall_impl; [exact IH|]); cbn; intros x Hx; apply Hx. }
  assert (ET._indent level (ET.Element t tx tl (c :: cs))
          = ET.Element t
              (if PyStr.blank tx
               then Some ((PyStr.newline +:+ PyStr.repeat_str level "  ") +:+ "  ")
               else tx)
              (if PyStr.blank tl
               then Some (PyStr.newline +:+ PyStr.repeat_str level "  ")
               else tl)
              (map (ET._indent (S level)) (c :: cs))) as Hstep.
  { cbn [ET._indent]. f_equal.
    destruct (PyStr.blank tl) eqn:Hblank; [by rewrite Htail|by rewrite Hblank]. }
  rewrite Hstep. split.
  - cbn [unformatted]. rewrite Hu. cbn [map].
    destruct (PyStr.blank tx) eqn:Hbx, (PyStr.blank tl) eqn:Hbl;
      by rewrite ?Htext, ?Htail, ?Hbx, ?Hbl.
  - cbn [map] in Hi |- *. cbn [ET._indent]. cbn [map] in Hi |- *.
    injection Hi as Hc Hcs. rewrite Hc, Hcs.
    destruct (PyStr.blank tx) eqn:Hbx, (PyStr.blank tl) eqn:Hbl;
      by rewrite ?Htext, ?Htail, ?Hbx, ?Hbl, ?Htail.
Qed.

(** ** The contest start *)

Section ContestStart.

Variable server : list request -> request -> transport.
Variable local_utcoffset : Z -> Z.

Lemma parse_time_cases field st :
  parse_time field st
  = match parsed_time field with
    | Some d => (Return d, st)
    | None => (Raise (ValueError "Invalid isoformat string"), st)
    end.
Proof. by destruct field. Qed.

Lemma process_exam_info_enters st data st1 root :
  contest_root (self st) = Some root ->
  _safe_request server
    ("https://pintia.cn/api/problem-sets/"
     +:+ PyStr.str_opt (selected_problem_set_id (self st))) [] st
    = (Return data, st1) ->
  let problem_set := default empty_problem_set (problemSet data) in
  let entered :=
    with_root (ET.append root (ET.new "info"))
      {| self := set_exam_info data (self st1); outside := outside st1 |} in
  contest_root (self entered) = Some (ET.append root (ET.new "info"))
  /\ _process_exam_info server local_utcoffset st
     = (start_dt <- parse_time (ps_startAt problem_set) ;;
        end_dt <- parse_time (ps_endAt problem_set) ;;
        update_self
          (set_contest_start_dt
             (Some (Dt.astimezone_utc local_utcoffset start_dt))) ;;
        SubElement_last
          (info_children problem_set
             (Dt.astimezone_utc local_utcoffset start_dt) local_utcoffset
             (exam_duration_sec problem_set start_dt end_dt))) entered.
Proof.
  intros Hroot Hreq problem_set entered. split; [reflexivity|].
  destruct (safe_request_sends server
              ("https://pintia.cn/api/problem-sets/"
               +:+ PyStr.str_opt (selected_problem_set_id (self st))) [] st)
    as [_ Hself].
  rewrite Hreq in Hself. cbn [snd] in Hself.
  unfold _process_exam_info. rewrite bind_get_self.
  rewrite (bind_Return _ _ _ _ _ Hreq), bind_update_self.
  match goal with
  | |- context [bind (SubElement_root ?child) _ ?s] =>
      assert (contest_root (self s) = Some root) as Hroot1
        by (cbn; by rewrite Hself);
      rewrite (bind_Return _ _ _ _ _ (SubElement_root_Some child s root Hroot1))
  end.
  reflexivity.
Qed.

(** X16. A start or end time that [datetime.fromisoformat] rejects
    makes [_process_exam_info] raise a [ValueError] half-way: by then
    the detail is stored in [exam_info] and an empty [info] node is in
    the document, while the contest start is still what it was. The
    request is the only thing the outside world has seen. *)
Theorem exam_info_malformed_time st data st1 root :
  contest_root (self st) = Some root ->
  _safe_request server
    ("https://pintia.cn/api/problem-sets/"
     +:+ PyStr.str_opt (selected_problem_set_id (self st))) [] st
    = (Return data, st1) ->
  let problem_set := default empty_problem_set (problemSet data) in
  ps_startAt problem_set = Malformed \/ ps_endAt problem_set = Malformed ->
  exists st',
    _process_exam_info server local_utcoffset st
    = (Raise (ValueError "Invalid isoformat string"), st')
    /\ contest_root (self st') = Some (ET.append root (ET.new "info"))
    /\ exam_info (self st') = data
    /\ contest_start_dt (self st') = contest_start_dt (self st)
    /\ label_map (self st') = label_map (self st)
    /\ outside st' = outside st1.
Proof.
  intros Hroot Hreq problem_set Hbad.
  destruct (process_exam_info_enters st data st1 root Hroot Hreq) as [_ ->].
  fold problem_set.
  destruct (safe_request_sends server
              ("https://pintia.cn/api/problem-sets/"
               +:+ PyStr.str_opt (selected_problem_set_id (self st))) [] st)
    as [_ Hself].
  rewrite Hreq in Hself. cbn [snd] in Hself.
  eexists. split.
  - unfold bind. rewrite !parse_time_cases.
    destruct Hbad as [Hbad|Hbad]; rewrite Hbad; cbn [parsed_time].
    + reflexivity.
    + destruct (parsed_time (ps_startAt problem_set)); reflexivity.
  - cbn. by rewrite Hself.
Qed.

(** X17. When [_process_exam_info] returns, the contest start it
    keeps is always an aware datetime in UTC, the epoch when the
    detail has no [startAt]; the [starttime] of the info node is its
    timestamp. So a submission to a listed problem whose [submitAt]
    carries no UTC offset cannot be timed: [_add_submission_node]
    raises a [TypeError] on it. *)
Theorem contest_start_is_utc st st' :
  _process_exam_info server local_utcoffset st = (Return tt, st') ->
  exists start root,
    contest_start_dt (self st') = Some start
    /\ Dt.utcoffset start = Some 0
    /\ (ps_startAt (default empty_problem_set (problemSet (exam_info (self st'))))
        = Absent -> start = Dt.epoch_utc)
    /\ contest_root (self st') = Some root
    /\ (exists info,
          last (ET.children root) = Some info
          /\ ET.tag info = "info"
          /\ field "starttime" info = Some (Dt.format_f 1 (Dt.wall start)))
    /\ forall sub counter submit_at,
         is_Some (label_map (self st') !! problemSetProblemId sub) ->
         submitAt sub = Parsed submit_at ->
         Dt.utcoffset submit_at = None ->
         (_add_submission_node local_utcoffset sub counter st').1
         = Raise (TypeError
                    "can't subtract offset-naive and offset-aware datetimes").
Proof.
  intros Hrun.
  assert (exists root, contest_root (self st) = Some root) as [root Hroot].
  { destruct (contest_root (self st)) as [root|] eqn:Hroot; [by eexists|].
    exfalso. revert Hrun. unfold _process_exam_info. rewrite bind_get_self.
    unfold bind at 1.
    match goal with
    | |- context [_safe_request server ?url ?params st] =>
        destruct (safe_request_sends server url params st) as [_ Hself];
        destruct (_safe_request server url params st) as [[data| |] st1];
        [|done..]
    end.
    cbn [snd] in Hself. rewrite bind_update_self.
    unfold SubElement_root. rewrite bind_assoc, bind_get_self.
    cbn [self contest_root set_exam_info]. by rewrite Hself, Hroot. }
  pose proof Hrun as Hrun'.
  unfold _process_exam_info in Hrun'. rewrite bind_get_self in Hrun'.
  apply bind_Return_inv in Hrun' as (data & st1 & Hreq & _).
  destruct (process_exam_info_enters st data st1 root Hroot Hreq)
    as [Hentered Hsteps].
  rewrite Hsteps in Hrun. clear Hsteps.
  set (problem_set := default empty_problem_set (problemSet data)) in *.
  apply bind_Return_inv in Hrun as (start_dt & s2 & Hstart & Hrun).
  rewrite parse_time_cases in Hstart.
  destruct (parsed_time (ps_startAt problem_set)) as [d|] eqn:Hparsed; [|done].
  injection Hstart as -> <-.
  apply bind_Return_inv in Hrun as (end_dt & s3 & Hend & Hrun).
  rewrite parse_time_cases in Hend.
  destruct (parsed_time (ps_endAt problem_set)) as [d|]; [|done].
  injection Hend as -> <-.
  rewrite bind_update_self in Hrun.
  match type of Hrun with
  | SubElement_last ?cs ?s = _ =>
      rewrite (SubElement_last_append cs s root (ET.new "info") Hentered)
        in Hrun
  end.
  injection Hrun as <-.
  exists (Dt.astimezone_utc local_utcoffset start_dt). eexists.
  split_and!.
  - reflexivity.
  - unfold Dt.astimezone_utc. by destruct (Dt.utcoffset start_dt).
  - cbn [with_root self exam_info set_contest_root set_contest_start_dt
         set_exam_info]. fold problem_set.
    intros Habsent. rewrite Habsent in Hparsed. by injection Hparsed as <-.
  - reflexivity.
  - assert (Dt.timestamp local_utcoffset
              (Dt.astimezone_utc local_utcoffset start_dt)
            = Dt.wall (Dt.astimezone_utc local_utcoffset start_dt)) as Hts.
    { unfold Dt.timestamp, Dt.astimezone_utc.
      destruct (Dt.utcoffset start_dt); cbn; lia. }
    destruct root as [t tx tl cs]. cbn [ET.append ET.children].
    eexists. split; [apply last_snoc|]. split; [reflexivity|].
    unfold info_children. rewrite Hts. reflexivity.
  - intros sub counter submit_at [conf Hconf] Hat Hnaive.
    unfold _add_submission_node. rewrite bind_get_self.
    cbn [with_root self label_map set_contest_root set_contest_start_dt
         set_exam_info contest_start_dt] in Hconf |- *.
    rewrite Hconf, Hat.
    unfold bind, ret, Dt.sub. rewrite Hnaive.
    unfold Dt.astimezone_utc. by destruct (Dt.utcoffset start_dt).
Qed.

End ContestStart.

Lemma exam_info_malformed_time_witness :
  let server :=
    More.always (Sample.detail (Parsed (Sample.utc 1000)) Malformed None) in
  let r := _process_exam_info server (fun _ => 0) Sample.selected in
  r.1 = Raise (ValueError "Invalid isoformat string")
  /\ sections <$> contest_root (self r.2) = Some ["info"]
  /\ contest_start_dt (self r.2) = None.
Proof.
  intros server r.
  destruct (exam_info_malformed_time server (fun _ => 0) Sample.selected
              (Sample.detail (Parsed (Sample.utc 1000)) Malformed None)
              _ (ET.new "contest") eq_refl eq_refl (or_intror eq_refl))
    as (st' & Hrun & Hdoc & _ & Hstart & _).
  subst r. rewrite Hrun. cbn [fst snd]. rewrite Hdoc, Hstart.
  split_and!; reflexivity.
Defined.

Lemma contest_start_is_utc_witness :
  let server :=
    More.always (Sample.detail Absent (Parsed (Sample.utc 7200)) None) in
  let r := _process_exam_info server (fun _ => 0) Sample.selected in
  r.1 = Return tt /\ contest_start_dt (self r.2) = Some Dt.epoch_utc.
Proof.
  intros server r. split; [reflexivity|].
  destruct (contest_start_is_utc server (fun _ => 0) Sample.selected r.2 eq_refl)
    as (start & root & Hstart & _ & Hepoch & _).
  rewrite Hstart. f_equal. apply Hepoch. reflexivity.
Defined.

(** ** The problem lookup *)

Lemma labels_lookup_None problems : forall idx k,
  k ∉ problem_id <$> problems -> labels problems idx !! k = None.
Proof.
  induction problems as [|p rest IH]; intros idx k Hk; [done|].
  cbn [labels]. rewrite fmap_cons, not_elem_of_cons in Hk.
  destruct Hk as [Hne Hk].
  rewrite lookup_union_None. split; [by apply IH|].
  by rewrite lookup_singleton_ne.
Qed.

Lemma labels_lookup_last problems : forall idx (i : nat) p,
  problems !! i = Some p ->
  (forall (j : nat) q,
     problems !! j = Some q -> (i < j)%nat -> problem_id q <> problem_id p) ->
  labels problems idx !! problem_id p
  = Some {| xml_id := PyStr.str (idx + Z.of_nat i + 1);
            letter := default "" (PyStr.chr (65 + (idx + Z.of_nat i))) |}.
Proof.
  induction problems as [|p0 rest IH]; intros idx i p Hi Hlast; [done|].
  cbn [labels]. destruct i as [|i]; cbn in Hi.
  2: replace (idx + Z.of_nat (S i)) with (idx + 1 + Z.of_nat i) by lia.
  - injection Hi as ->.
    rewrite lookup_union_r.
    + rewrite lookup_singleton_eq. by rewrite Z.add_0_r.
    + apply labels_lookup_None. intros Hin.
      apply list_elem_of_fmap in Hin as (q & Heq & Hq).
      apply list_elem_of_lookup in Hq as [j Hj].
      by apply (Hlast (S j) q Hj); [lia|].
  - rewrite (lookup_union_Some_l _ _ _
               {| xml_id := PyStr.str (idx + 1 + Z.of_nat i + 1);
                  letter := default ""
                              (PyStr.chr (65 + (idx + 1 + Z.of_nat i))) |}).
    + reflexivity.
    + apply IH; [done|].
      intros j q Hj Hij. apply (Hlast (S j) q Hj). lia.
Qed.

Lemma keeps_labels_preserves {A} (c : M A) :
  preserves frame c -> keeps_labels c.
Proof.
  intros Hc st k Hk. specialize (Hc st). unfold frame in Hc.
  injection Hc as _ _ _ Hlabels. by rewrite Hlabels.
Qed.

Lemma keeps_labels_bind {A B} (c : M A) (k : A -> M B) :
  keeps_labels c -> (forall a, keeps_labels (k a)) -> keeps_labels (bind c k).
Proof.
  intros Hc Hk st key Hkey. unfold bind.
  specialize (Hc st key Hkey).
  destruct (c st) as [[a| |] st1]; cbn [snd] in *; [|done..].
  by apply Hk.
Qed.

Lemma keeps_labels_for_problems problems : forall idx,
  keeps_labels (for_problems problems idx).
Proof.
  induction problems as [|p rest IH]; intros idx; cbn [for_problems].
  { by intros st k Hk. }
  destruct (PyStr.chr (65 + idx)) as [letter|]; [|by intros st k Hk].
  apply keeps_labels_bind.
  { intros st k Hk. cbn.
    destruct (decide (problem_id p = k)) as [->|Hne].
    - by rewrite lookup_insert_eq.
    - by rewrite lookup_insert_ne. }
  intros _. apply keeps_labels_bind; [|intros _; apply IH].
  apply keeps_labels_preserves, preserves_SubElement_root.
Qed.

Lemma for_problems_letters problems : forall idx st st' (i : nat) p,
  for_problems problems idx st = (Return tt, st') ->
  problems !! i = Some p ->
  exists letter, PyStr.chr (65 + (idx + Z.of_nat i)) = Some letter.
Proof.
  induction problems as [|p0 rest IH]; intros idx st st' i p Hrun Hi; [done|].
  cbn [for_problems] in Hrun.
  destruct (PyStr.chr (65 + idx)) as [l0|] eqn:Hchr; [|done].
  destruct i as [|i].
  { exists l0. by rewrite Z.add_0_r. }
  rewrite bind_update_self in Hrun.
  apply bind_Return_inv in Hrun as ([] & s & _ & Hrun).
  cbn in Hi. destruct (IH (idx + 1) s st' i p Hrun Hi) as [letter Hletter].
  exists letter. rewrite <-Hletter. f_equal. lia.
Qed.

Section Lookup.

Variable server : list request -> request -> transport.
Variable local_utcoffset : Z -> Z.

Lemma keeps_labels_process_problems : keeps_labels (_process_problems server).
Proof.
  unfold _process_problems.
  apply keeps_labels_bind.
  { apply keeps_labels_preserves, preserves_get_self. }
  intros g. apply keeps_labels_bind.
  { apply keeps_labels_preserves, preserves_safe_request. }
  intros data. apply keeps_labels_for_problems.
Qed.

(** X18. When [_process_problems] returns, the problem lookup holds,
    for every id of the listing, the xml id and the letter of the last
    problem listed with that id (one plus its position, and the
    character 65 plus its position); and every entry for an id that is
    not in the listing is as it was before, entries left by an earlier
    generation included. *)
Theorem lookup_after_listing st data st1 st' :
  _safe_request server
    ("https://pintia.cn/api/problem-sets/"
     +:+ PyStr.str_opt (selected_problem_set_id (self st))
     +:+ "/preview/problems")
    [("problem_type", "PROGRAMMING"); ("page", "0"); ("limit", "500")] st
    = (Return data, st1) ->
  _process_problems server st = (Return tt, st') ->
  let problems := default [] (problemSetProblems data) in
  (forall k,
     k ∉ problem_id <$> problems ->
     label_map (self st') !! k = label_map (self st) !! k)
  /\ (forall (i : nat) p,
        problems !! i = Some p ->
        (forall (j : nat) q,
           problems !! j = Some q -> (i < j)%nat ->
           problem_id q <> problem_id p) ->
        exists letter,
          PyStr.chr (65 + Z.of_nat i) = Some letter
          /\ label_map (self st') !! problem_id p
             = Some {| xml_id := PyStr.str (Z.of_nat i + 1); letter := letter |}).
Proof.
  intros Hreq Hrun problems.
  destruct (safe_request_sends server
              ("https://pintia.cn/api/problem-sets/"
               +:+ PyStr.str_opt (selected_problem_set_id (self st))
               +:+ "/preview/problems")
              [("problem_type", "PROGRAMMING"); ("page", "0"); ("limit", "500")]
              st) as [_ Hself].
  rewrite Hreq in Hself. cbn [snd] in Hself.
  unfold _process_problems in Hrun. rewrite bind_get_self in Hrun.
  rewrite (bind_Return _ _ _ _ _ Hreq) in Hrun. fold problems in Hrun.
  pose proof (for_problems_labels problems 0 st1 st' Hrun) as Hlabels.
  rewrite Hself in Hlabels.
  split.
  - intros k Hk. rewrite Hlabels, lookup_union_r; [done|].
    by apply labels_lookup_None.
  - intros i p Hi Hlast.
    destruct (for_problems_letters problems 0 st1 st' i p Hrun Hi)
      as [letter Hletter].
    rewrite Z.add_0_l in Hletter.
    exists letter. split; [exact Hletter|].
    rewrite Hlabels.
    rewrite (lookup_union_Some_l _ _ _
               {| xml_id := PyStr.str (Z.of_nat i + 1); letter := letter |});
      [done|].
    rewrite (labels_lookup_last problems 0 i p Hi Hlast).
    by rewrite Z.add_0_l, Hletter.
Qed.

(** X19. However it ends, [generate_contest_xml] leaves organization,
    region id and selection as they were and never removes an entry of
    the problem lookup: the problems of an earlier generation stay
    listed, so a later generation does not drop submissions to them. *)
Theorem generation_keeps_lookup fuel now output_path st :
  let r := generate_contest_xml server local_utcoffset fuel now output_path st in
  config (self r.2) = config (self st)
  /\ forall k,
       is_Some (label_map (self st) !! k) ->
       is_Some (label_map (self r.2) !! k).
Proof.
  intros r. subst r. split.
  { apply preserves_generate_contest_xml. }
  rewrite generate_contest_xml_steps.
  destruct (negb _); [done|].
  assert (keeps_labels
            (steps_before_listing server local_utcoffset ;;
             _process_problems server ;;
             steps_after_listing server local_utcoffset fuel now output_path))
    as Hkeeps.
  { apply keeps_labels_bind.
    { apply keeps_labels_preserves, preserves_steps_before_listing. }
    intros _. apply keeps_labels_bind.
    { apply keeps_labels_process_problems. }
    intros _. apply keeps_labels_preserves, preserves_steps_after_listing. }
  intros k. apply Hkeeps.
Qed.

End Lookup.

Lemma lookup_after_listing_witness :
  let r := _process_problems (More.always More.twice) Sample.listed in
  r.1 = Return tt
  /\ label_map (self r.2) !! Some "pA" = Some {| xml_id := "1"; letter := "A" |}
  /\ label_map (self r.2) !! Some "p0" = Some {| xml_id := "3"; letter := "C" |}.
Proof.
  intros r.
  set (url := "https://pintia.cn/api/problem-sets/42/preview/problems").
  set (params := [("problem_type", "PROGRAMMING"); ("page", "0");
                  ("limit", "500")]).
  assert (_safe_request (More.always More.twice) url params Sample.listed
          = (Return More.twice,
             (_safe_request (More.always More.twice) url params
                Sample.listed).2)) as Hreq
    by (vm_compute; reflexivity).
  assert (_process_problems (More.always More.twice) Sample.listed
          = (Return tt, r.2)) as Hrun
    by (vm_compute; reflexivity).
  destruct (lookup_after_listing (More.always More.twice) Sample.listed
              More.twice _ r.2 Hreq Hrun) as [Hstale Hlast].
  split; [exact (f_equal fst Hrun)|]. split.
  - rewrite Hstale; [vm_compute; reflexivity|].
    apply (bool_decide_unpack _). vm_compute. exact I.
  - destruct (Hlast 2%nat {| problem_id := Some "p0" |} eq_refl)
      as (letter & Hletter & Hlabel).
    + intros [|[|[|j]]] q Hj Hlt; try lia. discriminate Hj.
    + injection Hletter as <-. exact Hlabel.
Defined.

(** ** Listing the problem sets *)

Section ListingPages.

Variable server : list request -> request -> transport.
Variable problemSets : api_json -> option (list listed_set).

Lemma safe_request_ends url params st :
  let r := _safe_request server url params st in
  self r.2 = self st
  /\ log (outside r.2) = log (outside st)
  /\ match r.1 with
     | Return _ =>
         outside r.2 = sent {| url := url; params := params |} (outside st)
     | Raise e => is_auth_error e || is_api_error e = true
     | Diverge => False
     end.
Proof.
  unfold _safe_request, bind, session_get. cbn.
  destruct (server _ _) as [msg|resp]; [done|].
  destruct (negb _ || negb _); cbn.
  - destruct (status_code resp =? 401); [done|]. by destruct (negb _).
  - by destruct (json resp).
Qed.

Lemma listing_loop_ends fuel : forall page all_sets st,
  let r := listing_loop server problemSets fuel page all_sets st in
  self r.2 = self st
  /\ log (outside r.2) = log (outside st)
  /\ match r.1 with
     | Raise e => is_auth_error e || is_api_error e = true
     | _ => True
     end.
Proof.
  induction fuel as [|fuel IH]; intros page all_sets st; [done|].
  cbn [listing_loop]. unfold bind.
  pose proof (safe_request_ends "https://pintia.cn/api/problem-sets/admin"
                (listing_params page) st) as Hreq.
  cbv zeta in Hreq.
  destruct (_safe_request server _ _ st) as [[data|e|] st1];
    cbn [fst snd] in *; [|exact Hreq|by destruct Hreq as (_ & _ & [])].
  destruct Hreq as (Hself & Hlog & _).
  destruct (default [] (problemSets data)) as [|ps rest];
    [by split_and!|].
  destruct (_ <? _)%nat; [by split_and!|].
  specialize (IH (page + 1) (all_sets ++ ps :: rest) st1). cbv zeta in IH.
  by rewrite <-Hself, <-Hlog.
Qed.

Lemma listing_loop_returns fuel : forall page all_sets st res st',
  listing_loop server problemSets fuel page all_sets st = (Return res, st') ->
  exists pages,
    pages <> []
    /\ res = all_sets ++ concat pages
    /\ requests (outside st')
       = requests (outside st)
         ++ imap (fun i _ => listing_request (page + Z.of_nat i)) pages
    /\ files (outside st') = files (outside st)
    /\ (forall (i : nat) current,
          pages !! i = Some current ->
          ((length current < 50)%nat <-> S i = length pages)).
Proof.
  induction fuel as [|fuel IH]; intros page all_sets st res st' Hrun; [done|].
  cbn [listing_loop] in Hrun.
  apply bind_Return_inv in Hrun as (data & st1 & Hreq & Hrun).
  pose proof (safe_request_ends "https://pintia.cn/api/problem-sets/admin"
                (listing_params page) st) as Hends.
  cbv zeta in Hends. rewrite Hreq in Hends. cbn [fst snd] in Hends.
  destruct Hends as (_ & _ & Hout).
  fold (listing_request page) in Hout.
  destruct (default [] (problemSets data)) as [|ps rest] eqn:Hcurrent.
  { injection Hrun as <- <-. exists [[]]. split_and!; try done.
    - by rewrite app_nil_r.
    - rewrite Hout. cbn. by rewrite Z.add_0_r.
    - by rewrite Hout.
    - intros [|i] current Hi; [|done]. injection Hi as <-. cbn. split; [done|lia]. }
  destruct (Nat.ltb_spec (length (ps :: rest)) 50) as [Hshort|Hfull].
  { injection Hrun as <- <-. exists [ps :: rest]. split_and!; try done.
    - cbn [concat]. by rewrite app_nil_r.
    - rewrite Hout. cbn. by rewrite Z.add_0_r.
    - by rewrite Hout.
    - intros [|i] current Hi; [|done]. injection Hi as <-. done. }
  apply IH in Hrun as (pages & Hne & -> & Hsent & Hfiles & Hlast).
  exists ((ps :: rest) :: pages). split_and!; try done.
  - cbn [concat]. by rewrite <-app_assoc.
  - rewrite Hsent, Hout. cbn [imap sent requests]. rewrite <-app_assoc.
    cbn [app]. rewrite Z.add_0_r. do 2 f_equal.
    apply imap_ext. intros i x _. unfold compose. f_equal.
    lia.
  - by rewrite Hfiles, Hout.
  - intros [|i] current Hi.
    + injection Hi as <-. cbn [length] in *. split; [lia|].
      intros [= Hlen]. destruct pages; [done|discriminate Hlen].
    + cbn in Hi. rewrite (Hlast i current Hi). cbn [length]. lia.
Qed.


End ListingPages.

